(** * The Modern Web Stack tutorials: a model of the repository's snippets

    The repository holds tutorial snippets: webpack configuration objects,
    small DOM scripts, a React "like button" page and a Prettier example.
    Each snippet is embedded below as a Rocq definition that follows the
    source text; the browser, React and the tools the snippets call are
    modelled only as far as the snippets use them. *)

From Stdlib Require Import String Ascii List Bool Arith Lia.
From stdpp Require Import base option list strings gmap.
Import ListNotations.
Set Warnings "-register-all".
Local Open Scope string_scope.
Local Open Scope list_scope.

(** ** Plain JavaScript values used in configuration objects *)

Inductive JsValue :=
| JBool (b : bool)
| JStr (s : string)
| JNum (n : nat).

(** A JavaScript object literal, as its key/value pairs in source order. *)
Definition JsObject := list (string * JsValue).

Definition js_keys {V : Type} (o : list (string * V)) : list string :=
  map fst o.

Fixpoint assoc {V : Type} (k : string) (o : list (string * V)) : option V :=
  match o with
  | [] => None
  | (k', v) :: o' => if String.eqb k k' then Some v else assoc k o'
  end.

(** ** webpack configuration objects *)

Module Webpack.

(** A regular expression literal [/pattern/flags]. *)
Record RegExp := mkRegExp { pattern : string; flags : string }.

(** [String.prefix]-style test that [s] ends with [suffix]. *)
Definition ends_with (suffix s : string) : bool :=
  let n := String.length s in
  let m := String.length suffix in
  Nat.leb m n && String.eqb (substring (n - m) m s) suffix.

(** A file-extension regular expression: the pattern starts with an escaped
    dot and is anchored at the end of the file name, as in [/\.css$/]. *)
Definition is_extension_regex (r : RegExp) : bool :=
  String.prefix "\." (pattern r) && ends_with "$" (pattern r).

(** A Babel preset: a name, or a [[name, options]] pair. *)
Inductive Preset :=
| PresetName (name : string)
| PresetWith (name : string) (options : JsObject).

(** The [use] key of a rule: a list of loader names, or one loader object
    with Babel options. *)
Inductive Use :=
| UseLoaders (loaders : list string)
| UseLoader (loader : string) (presets : list Preset).

Record Rule := mkRule {
  test : option RegExp;
  exclude : option RegExp;
  use : option Use;
  type_ : option string }.

(** An entry of the [entry] object: a module path, or a descriptor with
    [import] and [dependOn]. *)
Inductive EntryValue :=
| EntryPath (path : string)
| EntryDescriptor (import : string) (dependOn : option string).

Inductive Entry :=
| EntrySingle (path : string)
| EntryObject (entries : list (string * EntryValue)).

Record Output := mkOutput {
  filename : option string;
  path : option string;
  clean : option bool }.

Record HtmlOptions := mkHtmlOptions {
  html_filename : string;
  template : string;
  chunks : option (list string) }.

Inductive Plugin :=
| HtmlWebpackPlugin (options : HtmlOptions)
| BundleAnalyzerPlugin.

(** The object assigned to [module.exports]; a key the object literal does
    not have is [None]. *)
Record Config := mkConfig {
  mode : option string;
  entry : option Entry;
  output : option Output;
  plugins : option (list Plugin);
  devtool : option string;
  module_rules : option (list Rule);
  optimization : option JsObject }.

(** [path.resolve(__dirname, segment)] for a relative segment. *)
Definition path_resolve (dirname segment : string) : string :=
  dirname +:+ "/" +:+ segment.

(** webpack/the-basics/webpack.config.js *)
Module TheBasics.
Definition module_exports (__dirname : string) : Config :=
  {| mode := Some "none";
     entry := Some (EntrySingle "./src/script.js");
     output := Some {| filename := Some "main.js";
                       path := Some (path_resolve __dirname "dist");
                       clean := None |};
     plugins := Some [
       HtmlWebpackPlugin {| html_filename := "index.html";
                            template := "./src/index.html";
                            chunks := None |} ];
     devtool := None;
     module_rules := None;
     optimization := None |}.
End TheBasics.

(** webpack/loaders-optimizations/webpack.config.js *)
Module LoadersOptimizations.
Definition module_exports (__dirname : string) : Config :=
  {| mode := Some "none";
     entry := Some (EntryObject [
       ("script", EntryDescriptor "./src/script.js" (Some "shared"));
       ("page2", EntryDescriptor "./src/page2.js" (Some "shared"));
       ("shared", EntryPath "lodash/join") ]);
     output := Some {| filename := Some "[name].js";
                       path := Some (path_resolve __dirname "dist");
                       clean := Some true |};
     plugins := Some [
       HtmlWebpackPlugin {| html_filename := "index.html";
                            template := "./src/index.html";
                            chunks := Some ["script"; "shared"] |};
       HtmlWebpackPlugin {| html_filename := "page2/index.html";
                            template := "./src/index.html";
                            chunks := Some ["page2"; "shared"] |};
       BundleAnalyzerPlugin ];
     devtool := None;
     module_rules := Some [
       {| test := Some (mkRegExp "\.css$" "i");
          exclude := None;
          use := Some (UseLoaders ["style-loader"; "css-loader"]);
          type_ := None |};
       {| test := Some (mkRegExp "\.(png|svg|jpg|jpeg|gif)$" "i");
          exclude := None;
          use := None;
          type_ := Some "asset/resource" |} ];
     optimization := Some [ ("usedExports", JBool true);
                            ("minimize", JBool true) ] |}.
End LoadersOptimizations.

(** The webpack configuration of the DevServer, React and Typescript
    tutorial (src/unnamed/part_001). *)
Module DevServer.
Definition module_exports (__dirname : string) : Config :=
  {| mode := Some "none";
     entry := Some (EntrySingle "./src/script.tsx");
     output := Some {| filename := Some "main.js";
                       path := Some (path_resolve __dirname "dist");
                       clean := Some true |};
     plugins := Some [
       HtmlWebpackPlugin {| html_filename := "index.html";
                            template := "./src/index.html";
                            chunks := None |} ];
     devtool := Some "inline-source-map";
     module_rules := Some [
       {| test := Some (mkRegExp "\.m?[jt]sx$" EmptyString);
          exclude := Some (mkRegExp "(node_modules|bower_components)" EmptyString);
          use := Some (UseLoader "babel-loader" [
                   PresetName "@babel/preset-env";
                   PresetWith "@babel/preset-react" [("runtime", JStr "automatic")];
                   PresetName "@babel/preset-typescript" ]);
          type_ := None |} ];
     optimization := Some [ ("nodeEnv", JStr "development") ] |}.
End DevServer.

(** The three configuration files of the repository. *)
Definition all_configs (__dirname : string) : list Config :=
  [ TheBasics.module_exports __dirname;
    LoadersOptimizations.module_exports __dirname;
    DevServer.module_exports __dirname ].

(** *** What a configuration specifies *)

Definition specifies_entry (c : Config) : bool :=
  match entry c with
  | Some (EntrySingle _) => true
  | Some (EntryObject es) => negb (Nat.eqb (length es) 0)
  | None => false
  end.

Definition specifies_output (c : Config) : bool :=
  match output c with
  | Some o => bool_decide (is_Some (filename o)) && bool_decide (is_Some (path o))
  | None => false
  end.

Definition rule_has_extension_test (r : Rule) : bool :=
  match test r with
  | Some re => is_extension_regex re
  | None => false
  end.

Definition specifies_loader_rules (c : Config) : bool :=
  match module_rules c with
  | Some (r :: rs) => forallb rule_has_extension_test (r :: rs)
  | _ => false
  end.

Definition specifies_plugins (c : Config) : bool :=
  bool_decide (is_Some (plugins c)).

Definition specifies_optimization (c : Config) : bool :=
  match optimization c with
  | Some (_ :: _) => true
  | _ => false
  end.

(** Everything the bundler's interface is said to consume. *)
Definition specifies_all (c : Config) : bool :=
  specifies_entry c && specifies_output c && specifies_loader_rules c
  && specifies_plugins c && specifies_optimization c.

(** *** Entry keys, [dependOn] and plugin chunks *)

Definition entry_keys (c : Config) : list string :=
  match entry c with
  | Some (EntryObject es) => js_keys es
  | _ => []
  end.

Definition entry_dependencies (c : Config) : list (string * string) :=
  match entry c with
  | Some (EntryObject es) =>
      flat_map (fun kv =>
        match snd kv with
        | EntryDescriptor _ (Some d) => [(fst kv, d)]
        | _ => []
        end) es
  | _ => []
  end.

Definition plugin_chunks (p : Plugin) : list string :=
  match p with
  | HtmlWebpackPlugin o => default [] (chunks o)
  | BundleAnalyzerPlugin => []
  end.

Definition config_chunks (c : Config) : list string :=
  flat_map plugin_chunks (default [] (plugins c)).

End Webpack.

(** ** The Prettier tutorial: prettier/README.md *)

Module Prettier.

Definition nl : string := String "010" EmptyString.
Definition dq : string := String "034" EmptyString.

(** A file given by its lines, each followed by a line break. *)
Definition lines (ls : list string) : string :=
  fold_right (fun l rest => l +:+ nl +:+ rest) EmptyString ls.

(** [script.js] as first written, "including the obvious formatting
    issues". *)
Definition script_js : string := lines [
  "console.log(";
  dq +:+ "hello world" +:+ dq;
  ")";
  EmptyString;
  "if (true) { console.log('this always runs'); }";
  EmptyString;
  "const exampleArray = [1,2,3,4,";
  "     5,6,7,8";
  "     ,9, 10]" ].

(** [script.js] after [npx prettier --write script.js]. *)
Definition script_js_formatted : string := lines [
  "console.log('hello world');";
  EmptyString;
  "if (true) {";
  "  console.log('this always runs');";
  "}";
  EmptyString;
  "const exampleArray = [1, 2, 3, 4, 5, 6, 7, 8, 9, 10];" ].

(** [.prettierrc.json] *)
Definition prettierrc : JsObject := [
  ("trailingComma", JStr "es5");
  ("tabWidth", JNum 2);
  ("semi", JBool true);
  ("singleQuote", JBool true) ].

(** [.prettierignore], one pattern per line. *)
Definition prettierignore : list string := [ "build"; "*.css" ].

(** *** Ignore patterns

    A pattern without a slash is matched against every component of a
    path; [*] stands for any run of characters inside a component, and
    letters match in either case, as in Prettier's ignore matching. *)

Definition fold_case (c : ascii) : ascii :=
  let n := nat_of_ascii c in
  if Nat.leb 65 n && Nat.leb n 90 then ascii_of_nat (n + 32) else c.

Fixpoint glob (p s : list ascii) : bool :=
  match p with
  | [] => match s with [] => true | _ => false end
  | c :: p' =>
      if Ascii.eqb c "*" then
        (fix star (s : list ascii) : bool :=
           glob p' s || match s with [] => false | _ :: s' => star s' end) s
      else
        match s with
        | [] => false
        | c' :: s' => Ascii.eqb (fold_case c) (fold_case c') && glob p' s'
        end
  end.

(** The components of a path, split at ["/"]. *)
Fixpoint components (path : list ascii) (cur : list ascii) : list (list ascii) :=
  match path with
  | [] => [cur]
  | c :: path' =>
      if Ascii.eqb c "/" then cur :: components path' []
      else components path' (cur ++ [c])
  end.

Definition ignored_by (pat : string) (path : string) : bool :=
  existsb (glob (list_ascii_of_string pat))
          (components (list_ascii_of_string path) []).

Definition ignored (path : string) : bool :=
  existsb (fun pat => ignored_by pat path) prettierignore.

Definition lowercase (s : string) : string :=
  string_of_list_ascii (map fold_case (list_ascii_of_string s)).

(** The names along a path. *)
Definition names (path : string) : list string :=
  map string_of_list_ascii (components (list_ascii_of_string path) []).

(** Prettier hands the matcher the path of a file relative to the
    directory of the ignore file: no name of it is empty, [.] or [..]. *)
Definition relative (path : string) : bool :=
  forallb (fun name => negb (String.eqb name EmptyString)
                       && negb (String.eqb name ".")
                       && negb (String.eqb name ".."))
          (names path).

(** *** A reader for the JavaScript the example uses

    Tokens, then statements: calls, member access, string, number and
    boolean literals, array literals, [if] blocks and [const]
    declarations.  White space and line breaks separate tokens and mean
    nothing else; a statement ends at its [;] when there is one. *)

Inductive Token :=
| TIdent (name : string)
| TNumber (n : nat)
| TString (s : string)
| TPunct (c : ascii).

Definition is_digit (c : ascii) : bool :=
  let n := nat_of_ascii c in Nat.leb 48 n && Nat.leb n 57.

Definition is_word_char (c : ascii) : bool :=
  let n := nat_of_ascii c in
  is_digit c || (Nat.leb 65 n && Nat.leb n 90) || (Nat.leb 97 n && Nat.leb n 122)
  || Nat.eqb n 95 || Nat.eqb n 36.

Definition is_space (c : ascii) : bool :=
  let n := nat_of_ascii c in
  Nat.eqb n 32 || Nat.eqb n 9 || Nat.eqb n 10 || Nat.eqb n 13.

Definition is_quote (c : ascii) : bool :=
  let n := nat_of_ascii c in Nat.eqb n 34 || Nat.eqb n 39.

Fixpoint digits_value (w : list ascii) (acc : nat) : option nat :=
  match w with
  | [] => Some acc
  | c :: w' =>
      if is_digit c then digits_value w' (10 * acc + (nat_of_ascii c - 48))
      else None
  end.

(** The token of a finished word: a number when it starts with a digit. *)
Definition word_token (w : list ascii) : option Token :=
  match w with
  | [] => None
  | c :: _ =>
      if is_digit c then TNumber <$> digits_value w 0
      else Some (TIdent (string_of_list_ascii w))
  end.

(** What the lexer is in the middle of. *)
Inductive Pending :=
| PNone
| PWord (w : list ascii)
| PQuoted (q : ascii) (acc : list ascii).

Definition flush (p : Pending) : option (list Token) :=
  match p with
  | PNone => Some []
  | PWord w => t ← word_token w; Some [t]
  | PQuoted _ _ => None
  end.

Fixpoint lex (s : list ascii) (p : Pending) : option (list Token) :=
  match s with
  | [] => flush p
  | c :: s' =>
      match p with
      | PQuoted q acc =>
          if Ascii.eqb c q then
            ts ← lex s' PNone; Some (TString (string_of_list_ascii acc) :: ts)
          else if Nat.eqb (nat_of_ascii c) 92 then None
          else lex s' (PQuoted q (acc ++ [c]))
      | _ =>
          if is_word_char c then
            lex s' (PWord (match p with PWord w => w ++ [c] | _ => [c] end))
          else
            done ← flush p;
            ts ← (if is_space c then lex s' PNone
                  else if is_quote c then lex s' (PQuoted c [])
                  else cons (TPunct c) <$> lex s' PNone);
            Some (done ++ ts)
      end
  end.

Definition tokens (src : string) : option (list Token) :=
  lex (list_ascii_of_string src) PNone.

Inductive Expr :=
| EStr (s : string)
| ENum (n : nat)
| EBool (b : bool)
| EArray (elements : list Expr)
| EVar (name : string)
| EMember (object : Expr) (property : string)
| ECall (callee : Expr) (arguments : list Expr).

Inductive Stmt :=
| SExpr (e : Expr)
| SIf (cond : Expr) (body : list Stmt)
| SConst (name : string) (init : Expr).

Definition is_punct (c : ascii) (t : Token) : bool :=
  match t with TPunct c' => Ascii.eqb c c' | _ => false end.

(** Recursive descent; [fuel] bounds the nesting and the number of items,
    and the token count is always enough. *)
Fixpoint parse_expr (fuel : nat) (ts : list Token) : option (Expr * list Token) :=
  match fuel with
  | 0 => None
  | S fuel =>
      match ts with
      | TString s :: ts' => parse_postfix fuel (EStr s) ts'
      | TNumber n :: ts' => parse_postfix fuel (ENum n) ts'
      | TIdent "true" :: ts' => parse_postfix fuel (EBool true) ts'
      | TIdent "false" :: ts' => parse_postfix fuel (EBool false) ts'
      | TIdent x :: ts' => parse_postfix fuel (EVar x) ts'
      | TPunct "[" :: ts' =>
          '(es, ts'') ← parse_items fuel "]" ts';
          parse_postfix fuel (EArray es) ts''
      | _ => None
      end
  end
with parse_postfix (fuel : nat) (e : Expr) (ts : list Token) : option (Expr * list Token) :=
  match fuel with
  | 0 => None
  | S fuel =>
      match ts with
      | TPunct "." :: TIdent x :: ts' => parse_postfix fuel (EMember e x) ts'
      | TPunct "(" :: ts' =>
          '(args, ts'') ← parse_items fuel ")" ts';
          parse_postfix fuel (ECall e args) ts''
      | TPunct "[" :: _ => None  (* indexing is not read *)
      | _ => Some (e, ts)
      end
  end
with parse_items (fuel : nat) (close : ascii) (ts : list Token) : option (list Expr * list Token) :=
  match fuel with
  | 0 => None
  | S fuel =>
      match ts with
      | [] => None
      | t :: ts' =>
          if is_punct close t then Some ([], ts')
          else
            '(e, ts1) ← parse_expr fuel ts;
            match ts1 with
            | TPunct "," :: ts2 =>
                '(es, ts3) ← parse_items fuel close ts2; Some (e :: es, ts3)
            | t1 :: ts2 =>
                if is_punct close t1 then Some ([e], ts2) else None
            | [] => None
            end
      end
  end.

Definition skip_semicolon (ts : list Token) : list Token :=
  match ts with
  | TPunct ";" :: ts' => ts'
  | _ => ts
  end.

Fixpoint parse_stmt (fuel : nat) (ts : list Token) : option (Stmt * list Token) :=
  match fuel with
  | 0 => None
  | S fuel =>
      match ts with
      | TIdent "if" :: TPunct "(" :: ts1 =>
          '(c, ts2) ← parse_expr (length ts1) ts1;
          match ts2 with
          | TPunct ")" :: TPunct "{" :: ts3 =>
              '(body, ts4) ← parse_block fuel ts3; Some (SIf c body, ts4)
          | _ => None
          end
      | TIdent "const" :: TIdent x :: TPunct "=" :: ts1 =>
          '(e, ts2) ← parse_expr (length ts1) ts1;
          Some (SConst x e, skip_semicolon ts2)
      | _ =>
          '(e, ts1) ← parse_expr (length ts) ts;
          Some (SExpr e, skip_semicolon ts1)
      end
  end
with parse_block (fuel : nat) (ts : list Token) : option (list Stmt * list Token) :=
  match fuel with
  | 0 => None
  | S fuel =>
      match ts with
      | TPunct "}" :: ts' => Some ([], ts')
      | _ =>
          '(s, ts1) ← parse_stmt fuel ts;
          '(ss, ts2) ← parse_block fuel ts1;
          Some (s :: ss, ts2)
      end
  end.

Fixpoint parse_program (fuel : nat) (ts : list Token) : option (list Stmt) :=
  match fuel with
  | 0 => None
  | S fuel =>
      match ts with
      | [] => Some []
      | _ =>
          '(s, ts1) ← parse_stmt (S (length ts)) ts;
          ss ← parse_program fuel ts1;
          Some (s :: ss)
      end
  end.

Definition parse (src : string) : option (list Stmt) :=
  ts ← tokens src; parse_program (S (length ts)) ts.

(** *** Running the example

    Values, and a state made of the console's lines and the declared
    constants.  [console.log] appends one line. *)

Inductive Value :=
| VUndefined
| VBool (b : bool)
| VNum (n : nat)
| VStr (s : string)
| VArray (elements : list Value)
| VConsole
| VConsoleLog.

Record State := mkState {
  console : list string;
  bindings : list (string * Value) }.

(** A decimal numeral, most significant digit first. *)
Fixpoint decimal_digits (fuel n : nat) (acc : string) : string :=
  match fuel with
  | 0 => acc
  | S fuel =>
      let acc' := String (ascii_of_nat (48 + n mod 10)) acc in
      if Nat.eqb (n / 10) 0 then acc' else decimal_digits fuel (n / 10) acc'
  end.

Definition show_nat (n : nat) : string := decimal_digits (S n) n EmptyString.

(** The text [console.log] prints for a value. *)
Fixpoint show (v : Value) : string :=
  match v with
  | VUndefined => "undefined"
  | VBool true => "true"
  | VBool false => "false"
  | VNum n => show_nat n
  | VStr s => s
  | VArray vs => "[" +:+ String.concat ", " (map show vs) +:+ "]"
  | VConsole => "[object console]"
  | VConsoleLog => "[Function: log]"
  end.

Definition truthy (v : Value) : bool :=
  match v with
  | VUndefined => false
  | VBool b => b
  | VNum n => negb (Nat.eqb n 0)
  | VStr s => negb (String.eqb s EmptyString)
  | _ => true
  end.

Definition lookup_var (x : string) (st : State) : option Value :=
  match assoc x (bindings st) with
  | Some v => Some v
  | None => if String.eqb x "console" then Some VConsole else None
  end.

Definition log (vs : list Value) (st : State) : State :=
  {| console := console st ++ [String.concat " " (map show vs)];
     bindings := bindings st |}.

(** Expressions are evaluated left to right; [None] is a thrown error. *)
Fixpoint eval (e : Expr) (st : State) : option (Value * State) :=
  match e with
  | EStr s => Some (VStr s, st)
  | ENum n => Some (VNum n, st)
  | EBool b => Some (VBool b, st)
  | EVar x => v ← lookup_var x st; Some (v, st)
  | EArray es =>
      '(vs, st') ← (fix eval_list (es : list Expr) (st : State) :=
                      match es with
                      | [] => Some ([], st)
                      | e :: es' =>
                          '(v, st1) ← eval e st;
                          '(vs, st2) ← eval_list es' st1;
                          Some (v :: vs, st2)
                      end) es st;
      Some (VArray vs, st')
  | EMember o x =>
      '(v, st') ← eval o st;
      match v with
      | VConsole => if String.eqb x "log" then Some (VConsoleLog, st') else Some (VUndefined, st')
      | VUndefined => None
      | _ => Some (VUndefined, st')
      end
  | ECall f args =>
      '(fv, st1) ← eval f st;
      '(vs, st2) ← (fix eval_list (es : list Expr) (st : State) :=
                      match es with
                      | [] => Some ([], st)
                      | e :: es' =>
                          '(v, st1) ← eval e st;
                          '(vs, st2) ← eval_list es' st1;
                          Some (v :: vs, st2)
                      end) args st1;
      match fv with
      | VConsoleLog => Some (VUndefined, log vs st2)
      | _ => None
      end
  end.

(** A [const] declared inside a block goes out of scope at its end. *)
Fixpoint exec (s : Stmt) (st : State) : option State :=
  match s with
  | SExpr e => '(_, st') ← eval e st; Some st'
  | SConst x e =>
      '(v, st') ← eval e st;
      Some {| console := console st'; bindings := bindings st' ++ [(x, v)] |}
  | SIf c body =>
      '(v, st') ← eval c st;
      if truthy v then
        st'' ← (fix exec_list (ss : list Stmt) (st : State) :=
                  match ss with
                  | [] => Some st
                  | s :: ss' => st1 ← exec s st; exec_list ss' st1
                  end) body st';
        Some {| console := console st''; bindings := bindings st' |}
      else Some st'
  end.

Fixpoint exec_program (ss : list Stmt) (st : State) : option State :=
  match ss with
  | [] => Some st
  | s :: ss' => st1 ← exec s st; exec_program ss' st1
  end.

(** Run a source text from a given state. *)
Definition run (src : string) (st : State) : option State :=
  prog ← parse src; exec_program prog st.

(** A page whose console already shows [shown] and that has declared
    nothing yet. *)
Definition fresh (shown : list string) : State :=
  {| console := shown; bindings := [] |}.

End Prettier.

(** ** The browser the scripts run in

    A page is modelled by what the scripts can observe or change: the
    elements of the document, the console, storage, the requests the
    scripts send, the modules loaded and the imports still pending,
    React's state cells, and the calls made to the DOM query and to
    React's renderer.  A script is a function from that state to a result,
    which is a value or a thrown error. *)

Module Browser.

(** The handle [React.useState] returns for changing a component
    instance's state cell. *)
Inductive Setter :=
| SetterOf (instance : nat).

(** The function values the scripts create, each named after where it is
    written. *)
Inductive Closure :=
| LikeButton_onClick (setLiked : Setter)
| buttonComponent_onclick
| buttonComponent_then.

(** An element, by the properties the scripts assign.  [innerHTML] and
    [innerText] hold what a script last assigned to each; no script reads
    one after writing the other. *)
Record DomElement := mkDomElement {
  tagName : string;
  element_id : string;
  innerHTML : string;
  innerText : string;
  src : string;
  onclick : option Closure }.

Inductive Component :=
| C_LikeButton
| C_ManyButtons.

Inductive PropValue :=
| PString (s : string)
| PStyle (style : list (string * string))
| PFunction (f : Closure).

(** A React element: a host element such as [<div>], a text child, or a
    component element such as [<LikeButton key={3} />]. *)
Inductive ReactElement :=
| Host (type : string) (props : list (string * PropValue))
       (children : list ReactElement)
| Text (s : string)
| Custom (type : Component) (key : option nat).

(** A dynamic import that has not settled yet, with the reactions
    registered on its promise by [then]. *)
Record Import := mkImport {
  specifier : string;
  reactions : list Closure }.

Inductive Call :=
| QuerySelector (selector : string)
| Render (element : ReactElement) (container : option DomElement).

Record State := mkState {
  elements : list DomElement;
  console : list string;
  localStorage : list (string * string);
  requests : list string;
  modules : list string;
  jobs : list Import;
  hooks : gmap nat bool;
  calls : list Call;
  mounted : option (ReactElement * DomElement);
  uncaught : list string }.

Definition set_elements (v : list DomElement) (b : State) : State :=
  mkState v (console b) (localStorage b) (requests b) (modules b) (jobs b)
          (hooks b) (calls b) (mounted b) (uncaught b).
Definition set_console (v : list string) (b : State) : State :=
  mkState (elements b) v (localStorage b) (requests b) (modules b) (jobs b)
          (hooks b) (calls b) (mounted b) (uncaught b).
Definition set_requests (v : list string) (b : State) : State :=
  mkState (elements b) (console b) (localStorage b) v (modules b) (jobs b)
          (hooks b) (calls b) (mounted b) (uncaught b).
Definition set_modules (v : list string) (b : State) : State :=
  mkState (elements b) (console b) (localStorage b) (requests b) v (jobs b)
          (hooks b) (calls b) (mounted b) (uncaught b).
Definition set_jobs (v : list Import) (b : State) : State :=
  mkState (elements b) (console b) (localStorage b) (requests b) (modules b) v
          (hooks b) (calls b) (mounted b) (uncaught b).
Definition set_hooks (v : gmap nat bool) (b : State) : State :=
  mkState (elements b) (console b) (localStorage b) (requests b) (modules b)
          (jobs b) v (calls b) (mounted b) (uncaught b).
Definition set_calls (v : list Call) (b : State) : State :=
  mkState (elements b) (console b) (localStorage b) (requests b) (modules b)
          (jobs b) (hooks b) v (mounted b) (uncaught b).
Definition set_mounted (v : option (ReactElement * DomElement)) (b : State) : State :=
  mkState (elements b) (console b) (localStorage b) (requests b) (modules b)
          (jobs b) (hooks b) (calls b) v (uncaught b).
Definition set_uncaught (v : list string) (b : State) : State :=
  mkState (elements b) (console b) (localStorage b) (requests b) (modules b)
          (jobs b) (hooks b) (calls b) (mounted b) v.

(** A page with the given elements and nothing else. *)
Definition page (els : list DomElement) : State :=
  mkState els [] [] [] [] [] ∅ [] None [].

Inductive Result (A : Type) :=
| Ok (a : A) (b : State)
| Throw (error : string) (b : State).
Arguments Ok {A} a b.
Arguments Throw {A} error b.

Definition JS (A : Type) : Type := State -> Result A.

Definition JS_ret {A : Type} (a : A) : JS A := fun b => Ok a b.

(** A thrown error skips the rest: nothing in the monad catches it. *)
Definition JS_bind {A B : Type} (f : A -> JS B) (m : JS A) : JS B :=
  fun b =>
    match m b with
    | Ok a b' => f a b'
    | Throw e b' => Throw e b'
    end.

#[export] Instance JS_mret : MRet JS := @JS_ret.
#[export] Instance JS_mbind : MBind JS := @JS_bind.

Definition throw {A : Type} (e : string) : JS A := fun b => Throw e b.

Definition state_of {A : Type} (r : Result A) : State :=
  match r with
  | Ok _ b => b
  | Throw _ b => b
  end.

(** *** The DOM and console calls the scripts make *)

Definition document_createElement (tag : string) : JS DomElement :=
  mret (mkDomElement tag EmptyString EmptyString EmptyString EmptyString None).

Definition set_innerHTML (v : string) (e : DomElement) : DomElement :=
  mkDomElement (tagName e) (element_id e) v (innerText e) (src e) (onclick e).
Definition set_innerText (v : string) (e : DomElement) : DomElement :=
  mkDomElement (tagName e) (element_id e) (innerHTML e) v (src e) (onclick e).
Definition set_src (v : string) (e : DomElement) : DomElement :=
  mkDomElement (tagName e) (element_id e) (innerHTML e) (innerText e) v (onclick e).
Definition set_onclick (v : Closure) (e : DomElement) : DomElement :=
  mkDomElement (tagName e) (element_id e) (innerHTML e) (innerText e) (src e) (Some v).

Definition document_body_appendChild (e : DomElement) : JS unit :=
  fun b => Ok tt (set_elements (elements b ++ [e]) b).

Definition console_log (line : string) : JS unit :=
  fun b => Ok tt (set_console (console b ++ [line]) b).

(** [#name] selects by id, anything else by tag name. *)
Definition selects (selector : string) (e : DomElement) : bool :=
  match selector with
  | String "#" name => String.eqb (element_id e) name
  | _ => String.eqb (tagName e) selector
  end.

(** The first match in document order, or [null]. *)
Definition document_querySelector (selector : string) : JS (option DomElement) :=
  fun b => Ok (find (selects selector) (elements b))
              (set_calls (calls b ++ [QuerySelector selector]) b).

(** lodash's [join]. *)
Definition join (parts : list string) (separator : string) : string :=
  String.concat separator parts.

(** *** Dynamic import *)

Definition string_in (x : string) (l : list string) : bool :=
  existsb (String.eqb x) l.

(** [import(specifier)] returns a pending promise, named by its position
    among the pending ones.  The chunk is requested unless the module is
    loaded already or a request for it is under way. *)
Definition dynamic_import (spec : string) : JS nat :=
  fun b =>
    let known := string_in spec (modules b) || string_in spec (map specifier (jobs b)) in
    Ok (length (jobs b))
       (set_jobs (jobs b ++ [mkImport spec []])
          (if known then b else set_requests (requests b ++ [spec]) b)).

(** [promise.then(f)] on a pending import. *)
Definition promise_then (p : nat) (f : Closure) : JS unit :=
  fun b =>
    match jobs b !! p with
    | Some j => Ok tt (set_jobs (<[p := mkImport (specifier j) (reactions j ++ [f])]> (jobs b)) b)
    | None => Ok tt b
    end.

(** *** React *)

Definition React_useState (self : nat) (initial : bool) : JS (bool * Setter) :=
  fun b => Ok (default initial (hooks b !! self), SetterOf self) b.

Definition call_setter (s : Setter) (v : bool) : JS unit :=
  fun b => match s with SetterOf i => Ok tt (set_hooks (<[i := v]> (hooks b)) b) end.

(** [ReactDOM.render(element, container)]; React refuses a container that
    is not a DOM element. *)
Definition ReactDOM_render (element : ReactElement) (container : option DomElement) : JS unit :=
  fun b =>
    let b' := set_calls (calls b ++ [Render element container]) b in
    match container with
    | None => Throw "Target container is not a DOM element." b'
    | Some node => Ok tt (set_mounted (Some (element, node)) b')
    end.

(** [new Array(n)] spread into a list: [n] times [undefined]. *)
Definition new_Array (n : nat) : list unit := replicate n tt.

(** [array.map((value, index) => ...)]. *)
Definition Array_map {A B : Type} (f : A -> nat -> B) (l : list A) : list B :=
  imap (fun index value => f value index) l.

End Browser.

(** ** webpack/the-basics/src/script.js *)

Module TheBasicsScript.
Import Browser.

Definition component : JS DomElement :=
  element ← document_createElement "div";
  let element := set_innerHTML (join ["Hello"; "webpack"] " ") element in
  mret element.

Definition script : JS unit :=
  c ← component;
  document_body_appendChild c.

End TheBasicsScript.

(** ** webpack/loaders-optimizations/src/script.js

    [mushroom] is the URL webpack gives the imported image. *)

Module LoadersScript.
Import Browser.

(** [./tree-shake]: [export const funcA = () => console.log("funcA")]. *)
Definition funcA : JS unit := console_log "funcA".

(** [./lazy-module]: loading it logs a line; its default export is
    [getBigData]. *)
Record Module_ := mkModule { default_export : unit -> string }.

Definition getBigData (_ : unit) : string := "big data".

Definition lazy_module_body : JS unit :=
  console_log "this code has been loaded".

Definition lazy_module : Module_ := mkModule getBigData.

Definition component : JS DomElement :=
  element ← document_createElement "div";
  let element := set_innerHTML (join ["Hello"; "webpack"] " ") element in
  mret element.

Definition imageComponent (mushroom : string) : JS DomElement :=
  element ← document_createElement "img";
  let element := set_src mushroom element in
  mret element.

Definition buttonComponent : JS DomElement :=
  element ← document_createElement "button";
  let element := set_innerText "Click me!" element in
  let element := set_onclick buttonComponent_onclick element in
  mret element.

(** [(e) => import("./lazy-module").then((module) => { ... })] *)
Definition onclick_body : JS unit :=
  p ← dynamic_import "./lazy-module";
  promise_then p buttonComponent_then.

(** [(module) => { const getBigData = module.default; ... }] *)
Definition then_body (module : Module_) : JS unit :=
  let getBigData := default_export module in
  let data := getBigData tt in
  console_log data.

Definition script (mushroom : string) : JS unit :=
  funcA;;
  c ← component;
  document_body_appendChild c;;
  i ← imageComponent mushroom;
  document_body_appendChild i;;
  b ← buttonComponent;
  document_body_appendChild b.

End LoadersScript.

(** ** react-and-jsx/script.jsx *)

Module ReactJsx.
Import Browser.

Definition LikeButton (self : nat) : JS ReactElement :=
  '(liked, setLiked) ← React_useState self false;
  if liked : bool then
    mret (Host "span"
            [("style", PStyle [("width", "150px"); ("height", "25px")])]
            [Text "Liked! 👍"])
  else
    mret (Host "button"
            [("style", PStyle [("width", "150px"); ("height", "25px")]);
             ("className", PString "like-button");
             ("onClick", PFunction (LikeButton_onClick setLiked))]
            [Text "Click to like!"]).

(** [() => { setLiked(true); }] *)
Definition onClick_body (setLiked : Setter) : JS unit :=
  call_setter setLiked true.

Definition ManyButtons : JS ReactElement :=
  mret (Host "div"
          [("style", PStyle [("display", "flex"); ("flexDirection", "row");
                             ("flexWrap", "wrap")])]
          (Array_map (fun _ index => Custom C_LikeButton (Some index))
                     (new_Array 500))).

Definition script : JS unit :=
  domContainer ← document_querySelector "#app";
  ReactDOM_render (Custom C_ManyButtons None) domContainer.

End ReactJsx.

(** ** Events

    After a script has run, the page reacts to clicks and to imports
    settling.  Each event runs its handler to completion; an error that
    reaches the top is reported by the browser's console.  A failed import
    rejects with webpack's [ChunkLoadError], recorded by its name: its
    message depends on the chunk's number and URL. *)

Module Events.
Import Browser.

(** What a function value does when it is called. *)
Inductive Argument :=
| AEvent
| AModule (m : LoadersScript.Module_).

Definition call (f : Closure) (arg : Argument) : JS unit :=
  match f with
  | LikeButton_onClick setLiked => ReactJsx.onClick_body setLiked
  | buttonComponent_onclick => LoadersScript.onclick_body
  | buttonComponent_then =>
      match arg with
      | AModule m => LoadersScript.then_body m
      | AEvent => throw "TypeError: Cannot read properties of undefined"
      end
  end.

Fixpoint call_all (fs : list Closure) (arg : Argument) : JS unit :=
  match fs with
  | [] => mret tt
  | f :: fs' => call f arg;; call_all fs' arg
  end.

(** The modules webpack can load on demand: the code a module runs when
    it is first loaded, and what it exports. *)
Definition find_module (spec : string) : option (JS unit * LoadersScript.Module_) :=
  if String.eqb spec "./lazy-module"
  then Some (LoadersScript.lazy_module_body, LoadersScript.lazy_module)
  else None.

(** A module's code runs once, the first time it is loaded. *)
Definition evaluate_module (spec : string) (body : JS unit) : JS unit :=
  fun b =>
    if string_in spec (modules b) then Ok tt b
    else body (set_modules (modules b ++ [spec]) b).

Definition prop (name : string) (e : ReactElement) : option PropValue :=
  match e with
  | Host _ props _ => assoc name props
  | _ => None
  end.

Definition children_of (e : ReactElement) : list ReactElement :=
  match e with
  | Host _ _ children => children
  | _ => []
  end.

Definition key_of (e : ReactElement) : option nat :=
  match e with
  | Custom _ key => key
  | _ => None
  end.

(** React renders a component element by calling its function; a
    [LikeButton] instance is identified by its key. *)
Definition render_component (c : Component) (key : option nat) : JS ReactElement :=
  match c with
  | C_LikeButton => ReactJsx.LikeButton (default 0 key)
  | C_ManyButtons => ReactJsx.ManyButtons
  end.

(** The keys of the [LikeButton] instances under the mounted root. *)
Definition mounted_keys : JS (list nat) :=
  fun b =>
    match mounted b with
    | Some (Custom c key, _) =>
        (root ← render_component c key;
         mret (omap key_of (children_of root))) b
    | _ => Ok [] b
    end.

Inductive Event :=
| ClickLike (key : nat)
| ClickElement (index : nat)
| ImportLoaded (job : nat)
| ImportFailed (job : nat).

Definition handle (ev : Event) : JS unit :=
  match ev with
  | ClickLike key =>
      keys ← mounted_keys;
      if bool_decide (key ∈ keys) then
        shown ← ReactJsx.LikeButton key;
        match prop "onClick" shown with
        | Some (PFunction f) => call f AEvent
        | _ => mret tt
        end
      else mret tt
  | ClickElement index =>
      fun b =>
        match elements b !! index with
        | Some e =>
            match onclick e with
            | Some f => call f AEvent b
            | None => Ok tt b
            end
        | None => Ok tt b
        end
  | ImportLoaded p =>
      fun b =>
        match jobs b !! p with
        | Some j =>
            let b' := set_jobs (delete p (jobs b)) b in
            match find_module (specifier j) with
            | Some (body, m) =>
                (evaluate_module (specifier j) body;;
                 call_all (reactions j) (AModule m)) b'
            | None => Throw ("Cannot find module " +:+ specifier j) b'
            end
        | None => Ok tt b
        end
  | ImportFailed p =>
      fun b =>
        match jobs b !! p with
        | Some j =>
            Throw "ChunkLoadError" (set_jobs (delete p (jobs b)) b)
        | None => Ok tt b
        end
  end.

(** The browser runs a script or a handler and reports an error nobody
    caught. *)
Definition settle (r : Result unit) : State :=
  match r with
  | Ok _ b => b
  | Throw e b => set_uncaught (uncaught b ++ [e]) b
  end.

Definition load (script : JS unit) (b : State) : State := settle (script b).

Definition dispatch (b : State) (ev : Event) : State := settle (handle ev b).

Definition dispatch_all (evs : list Event) (b : State) : State :=
  fold_left dispatch evs b.

(** The liked state of the [LikeButton] instance with the given key. *)
Definition liked (key : nat) (b : State) : bool :=
  default false (hooks b !! key).

(** The script files of the repository; [mushroom] is the image URL the
    loaders-optimizations script imports. *)
Definition scripts (mushroom : string) : list (JS unit) :=
  [ TheBasicsScript.script; LoadersScript.script mushroom; ReactJsx.script ].

(** A page as its HTML file gives it: no element has a click handler. *)
Definition static (els : list DomElement) : Prop :=
  Forall (fun e => onclick e = None) els.

(** [keeps P m]: running [m] relates the state before to the state after
    by [P], whether [m] returns or throws. *)
Definition keeps {A : Type} (P : State -> State -> Prop) (m : JS A) : Prop :=
  forall b, P b (state_of (m b)).

End Events.

(** ** Regular expressions of loader rules

    The rule tests are regular expression literals.  The reader below
    covers the syntax they use: literal and escaped characters, character
    classes without ranges, groups with alternatives, [?], and [$] at the
    end of the pattern; it refuses anything else.  Matching follows
    [RegExp.prototype.test]: the pattern may match anywhere in the text,
    and with the [i] flag letters match in either case. *)

Module Regex.
Import Webpack.

Inductive Re :=
| Eps
| Chr (c : ascii)
| Cls (cs : list ascii)
| Seq (r1 r2 : Re)
| Alt (r1 r2 : Re)
| Opt (r : Re).

Definition special (c : ascii) : bool :=
  existsb (Ascii.eqb c) (list_ascii_of_string "^$.*+?()[]{}|\").

Definition is_alphanumeric (c : ascii) : bool :=
  let n := nat_of_ascii c in
  (Nat.leb 48 n && Nat.leb n 57) || (Nat.leb 65 n && Nat.leb n 90)
  || (Nat.leb 97 n && Nat.leb n 122).

(** The members of a class [[...]], up to its closing bracket. *)
Fixpoint parse_class (s acc : list ascii) : option (list ascii * list ascii) :=
  match s with
  | [] => None
  | c :: s' =>
      if Ascii.eqb c "]" then Some (acc, s')
      else if Ascii.eqb c "-" || Ascii.eqb c "^" || Ascii.eqb c "\" then None
      else parse_class s' (acc ++ [c])
  end.

Fixpoint parse_alt (fuel : nat) (s : list ascii) : option (Re * list ascii) :=
  match fuel with
  | 0 => None
  | S fuel =>
      '(r1, s1) ← parse_seq fuel s;
      match s1 with
      | c :: s2 =>
          if Ascii.eqb c "|" then '(r2, s3) ← parse_alt fuel s2; Some (Alt r1 r2, s3)
          else Some (r1, s1)
      | [] => Some (r1, s1)
      end
  end
with parse_seq (fuel : nat) (s : list ascii) : option (Re * list ascii) :=
  match fuel with
  | 0 => None
  | S fuel =>
      match s with
      | [] => Some (Eps, [])
      | c :: _ =>
          if Ascii.eqb c "|" || Ascii.eqb c ")" then Some (Eps, s)
          else
            '(a, s1) ← parse_atom fuel s;
            let '(a', s2) :=
              match s1 with
              | q :: s2 => if Ascii.eqb q "?" then (Opt a, s2) else (a, s1)
              | [] => (a, s1)
              end in
            '(r, s3) ← parse_seq fuel s2;
            Some (Seq a' r, s3)
      end
  end
with parse_atom (fuel : nat) (s : list ascii) : option (Re * list ascii) :=
  match fuel with
  | 0 => None
  | S fuel =>
      match s with
      | [] => None
      | c :: s' =>
          if Ascii.eqb c "\" then
            match s' with
            | e :: s'' => if is_alphanumeric e then None else Some (Chr e, s'')
            | [] => None
            end
          else if Ascii.eqb c "[" then
            '(cs, s1) ← parse_class s' []; Some (Cls cs, s1)
          else if Ascii.eqb c "(" then
            '(r, s1) ← parse_alt fuel s';
            match s1 with
            | d :: s2 => if Ascii.eqb d ")" then Some (r, s2) else None
            | [] => None
            end
          else if special c then None
          else Some (Chr c, s')
      end
  end.

(** A pattern ready for matching. *)
Record Compiled := mkCompiled {
  body : Re;
  at_end : bool;
  fold_case : bool }.

(** The pattern without a final [$], and whether it had one. *)
Definition strip_end_anchor (s : list ascii) : list ascii * bool :=
  match rev s with
  | c :: r =>
      if Ascii.eqb c "$" then
        match r with
        | e :: _ => if Ascii.eqb e "\" then (s, false) else (rev r, true)
        | [] => (rev r, true)
        end
      else (s, false)
  | [] => (s, false)
  end.

Definition compile (re : RegExp) : option Compiled :=
  let '(s, anchored) := strip_end_anchor (list_ascii_of_string (pattern re)) in
  ci ← (if String.eqb (flags re) EmptyString then Some false
        else if String.eqb (flags re) "i" then Some true
        else None);
  '(r, rest) ← parse_alt (3 * length s + 3) s;
  match rest with
  | [] => Some (mkCompiled r anchored ci)
  | _ => None
  end.

(** What can be left of [s] after [r] has matched at its start. *)
Fixpoint rests (r : Re) (s : list ascii) : list (list ascii) :=
  match r with
  | Eps => [s]
  | Chr c =>
      match s with
      | c' :: s' => if Ascii.eqb c c' then [s'] else []
      | [] => []
      end
  | Cls cs =>
      match s with
      | c' :: s' => if existsb (Ascii.eqb c') cs then [s'] else []
      | [] => []
      end
  | Seq r1 r2 => flat_map (rests r2) (rests r1 s)
  | Alt r1 r2 => rests r1 s ++ rests r2 s
  | Opt r => rests r s ++ [s]
  end.

Fixpoint tails (s : list ascii) : list (list ascii) :=
  s :: match s with
       | [] => []
       | _ :: s' => tails s'
       end.

Definition lower (c : ascii) : ascii :=
  let n := nat_of_ascii c in
  if Nat.leb 65 n && Nat.leb n 90 then ascii_of_nat (n + 32) else c.

Fixpoint lower_re (r : Re) : Re :=
  match r with
  | Eps => Eps
  | Chr c => Chr (lower c)
  | Cls cs => Cls (map lower cs)
  | Seq r1 r2 => Seq (lower_re r1) (lower_re r2)
  | Alt r1 r2 => Alt (lower_re r1) (lower_re r2)
  | Opt r => Opt (lower_re r)
  end.

Definition lowercase (s : string) : string :=
  string_of_list_ascii (map lower (list_ascii_of_string s)).

(** The pattern and the text as they are compared. *)
Definition effective (c : Compiled) : Re :=
  if fold_case c then lower_re (body c) else body c.

Definition folded (c : Compiled) (s : string) : string :=
  if fold_case c then lowercase s else s.

Definition is_nil (s : list ascii) : bool :=
  match s with [] => true | _ => false end.

Definition search (c : Compiled) (s : string) : bool :=
  existsb (fun t =>
             existsb (fun rest => if at_end c then is_nil rest else true)
                     (rests (effective c) t))
          (tails (list_ascii_of_string (folded c s))).

(** [re.test(text)]; [None] when the pattern is outside what is read. *)
Definition regex_test (re : RegExp) (text : string) : option bool :=
  c ← compile re; Some (search c text).

(** The finitely many words a pattern without repetition can match. *)
Fixpoint language (r : Re) : list (list ascii) :=
  match r with
  | Eps => [[]]
  | Chr c => [[c]]
  | Cls cs => map (fun c => [c]) cs
  | Seq r1 r2 => flat_map (fun w1 => map (app w1) (language r2)) (language r1)
  | Alt r1 r2 => language r1 ++ language r2
  | Opt r => language r ++ [[]]
  end.

Definition words (c : Compiled) : list string :=
  map string_of_list_ascii (language (effective c)).

(** webpack applies a rule to a file when [test] matches its path and
    [exclude] does not. *)
Definition rule_applies (r : Rule) (path : string) : option bool :=
  t ← match test r with
      | Some re => regex_test re path
      | None => Some true
      end;
  x ← match exclude r with
      | Some re => regex_test re path
      | None => Some false
      end;
  Some (t && negb x).

(** The rules of a configuration that apply to a file. *)
Definition rules_for (c : Config) (path : string) : list Rule :=
  filter (fun r => rule_applies r path = Some true) (default [] (module_rules c)).

(** The rule tests of the DevServer tutorial's earlier steps (its README):
    the Babel rule before Typescript was added, and the [ts-loader] rule
    of its first Typescript option. *)
Definition jsx_only_test : RegExp := mkRegExp "\.m?jsx$" EmptyString.
Definition ts_loader_test : RegExp := mkRegExp "\.tsx?$" EmptyString.

(** [s] ends with one of [exts]; [s] contains one of [ws]. *)
Definition ends_with_one_of (exts : list string) (s : string) : Prop :=
  exists stem ext, In ext exts /\ s = stem +:+ ext.

Definition contains_one_of (ws : list string) (s : string) : Prop :=
  exists pre w post, In w ws /\ s = pre +:+ w +:+ post.

End Regex.

(** ** Pages and the chunks they load *)

Module Pages.
Import Webpack.

(** The entry a chunk depends on, if it has a [dependOn]. *)
Definition depends_on (c : Config) (chunk : string) : option string :=
  assoc chunk (entry_dependencies c).

(** Every chunk a page lists has its dependency listed on the same page. *)
Definition page_loads_dependencies (c : Config) (p : Plugin) : bool :=
  forallb (fun chunk =>
             match depends_on c chunk with
             | Some d => existsb (String.eqb d) (plugin_chunks p)
             | None => true
             end) (plugin_chunks p).

(** The HTML files the plugins of a configuration write. *)
Definition html_outputs (c : Config) : list string :=
  flat_map (fun p => match p with
                     | HtmlWebpackPlugin o => [html_filename o]
                     | BundleAnalyzerPlugin => []
                     end) (default [] (plugins c)).

End Pages.

(** ** The like button's earlier versions (react-and-jsx README)

    The README builds [LikeButton] in steps: a button without a handler,
    a class component, a function component that assigns a local variable,
    and one that uses [React.useState] and logs.  React is modelled here
    by what these steps turn on: it renders a component when it is mounted
    and again after a handler has set the component's state, and at no
    other time. *)

Module ReactReadme.

(** The click handlers of the three versions that have one. *)
Inductive Handler :=
| assign_and_log (liked : nat)
| setLiked_and_log
| setState_liked.

(** [React.createElement(type, { className, onClick }, text)]. *)
Record Element := createElement {
  type : string;
  className : option string;
  onClick : option Handler;
  text : string }.

Record Page := mkPage {
  component_state : option bool;
  variables : list bool;
  console : list string;
  shown : option Element }.

Definition empty : Page := mkPage None [] [] None.

Definition set_state (v : bool) (p : Page) : Page :=
  mkPage (Some v) (variables p) (console p) (shown p).
Definition console_log (line : string) (p : Page) : Page :=
  mkPage (component_state p) (variables p) (console p ++ [line]) (shown p).
Definition set_shown (e : Element) (p : Page) : Page :=
  mkPage (component_state p) (variables p) (console p) (Some e).

Inductive Component :=
| FirstButton
| ClassButton
| PlainButton
| HookButton.

(** "Creating our First Component" *)
Definition FirstButton_render (p : Page) : Element * Page :=
  (createElement "button" (Some "like-button") None "Click to like!", p).

(** The class component: its constructor and its [render]. *)
Definition ClassButton_constructor (p : Page) : Page := set_state false p.

Definition ClassButton_render (p : Page) : Element * Page :=
  if default false (component_state p) then
    (createElement "span" None None "Liked!", p)
  else
    (createElement "button" (Some "like-button") (Some setState_liked)
       "Click to like!", p).

(** "Component State", first step: [let liked = false] is a new variable
    in every call, and the handler assigns the one of its own call. *)
Definition PlainButton_render (p : Page) : Element * Page :=
  let liked := length (variables p) in
  let p := mkPage (component_state p) (variables p ++ [false]) (console p)
                  (shown p) in
  if default false (variables p !! liked) then
    (createElement "span" None None "Liked!", p)
  else
    (createElement "button" (Some "like-button") (Some (assign_and_log liked))
       "Click to like!", p).

(** [React.useState(initial)]: the cell's value, set up on first use. *)
Definition useState (initial : bool) (p : Page) : bool * Page :=
  match component_state p with
  | Some v => (v, p)
  | None => (initial, set_state initial p)
  end.

(** "Component State", second step. *)
Definition HookButton_render (p : Page) : Element * Page :=
  let '(liked, p) := useState false p in
  if liked then
    (createElement "span" None None "Liked!", p)
  else
    (createElement "button" (Some "like-button") (Some setLiked_and_log)
       "Click to like!", p).

Definition render (c : Component) (p : Page) : Page :=
  let '(e, p') :=
    match c with
    | FirstButton => FirstButton_render p
    | ClassButton => ClassButton_render p
    | PlainButton => PlainButton_render p
    | HookButton => HookButton_render p
    end in
  set_shown e p'.

(** [ReactDOM.render(React.createElement(LikeButton), domContainer)]. *)
Definition mount (c : Component) (p : Page) : Page :=
  render c (match c with
            | ClassButton => ClassButton_constructor p
            | _ => p
            end).

(** A handler runs to its end; React renders again if it set the state. *)
Definition run_handler (c : Component) (h : Handler) (p : Page) : Page :=
  match h with
  | assign_and_log liked =>
      console_log "button was clicked"
        (mkPage (component_state p) (<[liked := true]> (variables p))
                (console p) (shown p))
  | setLiked_and_log =>
      render c (console_log "button was clicked" (set_state true p))
  | setState_liked =>
      render c (set_state true p)
  end.

Definition click (c : Component) (p : Page) : Page :=
  match shown p with
  | Some e =>
      match onClick e with
      | Some h => run_handler c h p
      | None => p
      end
  | None => p
  end.

Definition clicks (c : Component) (n : nat) (p : Page) : Page :=
  Nat.iter n (click c) p.

(** What the user sees of an element. *)
Definition look (p : Page) : option (string * string) :=
  e ← shown p; Some (type e, text e).

End ReactReadme.

(** ** The DevServer tutorial's script with an error

    The script of the tutorial's "Source Maps" section (its README):
    [throw Error("Something happened!")] in front of the code that adds
    the heading. *)

Module SourceMapsScript.
Import Browser.

Definition script : JS unit :=
  throw (A := unit) "Something happened!";;
  element ← document_createElement "h1";
  let element := set_innerHTML "Welcome" element in
  document_body_appendChild element.

End SourceMapsScript.

(** ** Typescript in the DevServer tutorial

    [script.tsx] and the two ways the tutorial builds it: with
    [ts-loader], which checks the types, and with Babel's
    [@babel/preset-typescript], which removes them. *)

Module Typescript.
Import Webpack Regex.

Inductive Ty := TyNumber | TyString | TyBoolean.

Inductive Literal :=
| LitNumber (n : nat)
| LitString (s : string)
| LitBoolean (b : bool).



(** A statement of the script: a constant with a literal initialiser and
    possibly a type annotation, or a statement without annotations, kept
    as its text. *)
Inductive Statement :=
| Const (name : string) (annotation : option Ty) (init : Literal)
| Plain (source : string).






(** What [@babel/preset-typescript] does: the annotations are removed and
    nothing is checked. *)
Definition erase (s : Statement) : Statement :=
  match s with
  | Const name _ init => Const name None init
  | Plain source => Plain source
  end.

(** The loaders and the Babel presets of a rule. *)
Definition loaders (r : Rule) : list string :=
  match use r with
  | Some (UseLoaders ls) => ls
  | Some (UseLoader l _) => [l]
  | None => []
  end.

Definition preset_name (p : Preset) : string :=
  match p with
  | PresetName name => name
  | PresetWith name _ => name
  end.

Definition presets (r : Rule) : list string :=
  match use r with
  | Some (UseLoader _ ps) => map preset_name ps
  | _ => []
  end.

Definition has (x : string) (l : list string) : bool :=
  existsb (String.eqb x) l.






End Typescript.

(** ** The linters tutorial

    [script.js], [.eslintrc.json] and the rules the tutorial runs: those
    of [eslint:recommended] that a script of this shape can break, and
    [quotes], [semi] and [camelcase]. *)

Module Eslint.

Inductive Quote := Single | Double.

Inductive Expr :=
| Str (q : Quote) (s : string)
| Ident (name : string)
| Object (props : list (string * Expr))
| Member (object : Expr) (property : string)
| CallExpr (callee : Expr) (arguments : list Expr).

Inductive Stmt :=
| VarDecl (kind name : string) (init : Expr) (semi : bool)
| FunctionDecl (name : string) (body : list Stmt)
| ExprStmt (e : Expr) (semi : bool).

(** [script.js] as first written. *)
Definition script_js : list Stmt := [
  VarDecl "const" "person"
    (Object [("name", Str Double "Jen"); ("name", Str Double "Steve")]) true;
  VarDecl "let" "some_text" (Ident "undefined") true;
  FunctionDecl "printHelloWorld" [
    ExprStmt (CallExpr (Member (Ident "console") "log")
                       [Str Double "hello world!"]) true ];
  ExprStmt (CallExpr (Ident "printHelloWorld") []) true ].


Inductive Severity := Off | Warn | Error.

Record Config := mkConfig {
  env : list string;
  extends : list string;
  ecmaVersion : nat;
  rules : list (string * (Severity * option string)) }.




Definition has (x : string) (l : list string) : bool :=
  existsb (String.eqb x) l.














Section Rules.
Variable cfg : Config.
Variable program : list Stmt.







End Rules.


End Eslint.

(** * The snippets

    Every piece of code the repository shows: the fenced blocks of each
    tutorial, in the order in which they appear, and the source files as
    a whole.  A snippet is named by its file and the line at which it
    opens. *)

Module Corpus.
Import Prettier.

Record Snippet := mkSnippet {
  file : string;
  line : nat;
  text : string }.

(** The snippets of [babel/README.md]. *)
Definition in_babel_README_md : list Snippet := [
  mkSnippet "babel/README.md" 33 (lines [
      "node --version";
      "> v15.5.0";
      EmptyString;
      "npm --version";
      "> 7.16.0" ]);
  mkSnippet "babel/README.md" 45 (lines [
      "npm init -y" ]);
  mkSnippet "babel/README.md" 55 (lines [
      "const x = 5;";
      "let y;";
      EmptyString;
      "const sampleFunction = () => " +:+ dq +:+ "this is a return value" +:+ dq +:+ ";";
      EmptyString;
      "class Person {";
      "  constructor(name, age) {";
      "    this.name = name;";
      "    this.age = age;";
      "  }";
      "}";
      EmptyString;
      "const hasThree = [1, 2, 3].includes(3);";
      "console.log(hasThree);";
      EmptyString;
      "y ||= " +:+ dq +:+ "a new value" +:+ dq +:+ ";";
      "console.log(y);" ]);
  mkSnippet "babel/README.md" 85 (lines [
      "npm install @babel/core @babel/cli @babel/preset-env --save-dev" ]);
  mkSnippet "babel/README.md" 104 (lines [
      "{";
      "  " +:+ dq +:+ "devDependencies" +:+ dq +:+ ": {";
      "    " +:+ dq +:+ "@babel/cli" +:+ dq +:+ ": " +:+ dq +:+ "^7.15.7" +:+ dq +:+ ",";
      "    " +:+ dq +:+ "@babel/core" +:+ dq +:+ ": " +:+ dq +:+ "^7.15.5" +:+ dq +:+ ",";
      "    " +:+ dq +:+ "@babel/preset-env" +:+ dq +:+ ": " +:+ dq +:+ "^7.15.6" +:+ dq;
      "  },";
      "  " +:+ dq +:+ "browserslist" +:+ dq +:+ ": [" +:+ dq +:+ "last 2 Chrome versions" +:+ dq +:+ "],";
      "  " +:+ dq +:+ "babel" +:+ dq +:+ ": {";
      "    " +:+ dq +:+ "presets" +:+ dq +:+ ": [[" +:+ dq +:+ "@babel/preset-env" +:+ dq +:+ "]]";
      "  }";
      "}" ]);
  mkSnippet "babel/README.md" 126 (lines [
      "npx babel script.js --out-file script-transformed.js" ]);
  mkSnippet "babel/README.md" 134 (lines [
      dq +:+ "use strict" +:+ dq +:+ ";";
      EmptyString;
      "const x = 5;";
      "let y;";
      EmptyString;
      "const sampleFunction = () => " +:+ dq +:+ "this is a return value" +:+ dq +:+ ";";
      EmptyString;
      "class Person {";
      "  constructor(name, age) {";
      "    this.name = name;";
      "    this.age = age;";
      "  }";
      "}";
      EmptyString;
      "const hasThree = [1, 2, 3].includes(3);";
      "console.log(hasThree);";
      "y ||= " +:+ dq +:+ "a new value" +:+ dq +:+ ";";
      "console.log(y);" ]);
  mkSnippet "babel/README.md" 161 (lines [
      "...";
      dq +:+ "browserslist" +:+ dq +:+ ": [";
      "  " +:+ dq +:+ "last 2 Chrome versions" +:+ dq;
      "],";
      "..." ]);
  mkSnippet "babel/README.md" 173 (lines [
      "...";
      dq +:+ "browserslist" +:+ dq +:+ ": [";
      "  " +:+ dq +:+ "last 2 Chrome versions" +:+ dq +:+ ",";
      "  " +:+ dq +:+ "IE 11" +:+ dq;
      "],";
      "..." ]);
  mkSnippet "babel/README.md" 184 (lines [
      "npx babel script.js --out-file script-transformed.js" ]);
  mkSnippet "babel/README.md" 192 (lines [
      dq +:+ "use strict" +:+ dq +:+ ";";
      EmptyString;
      "function _classCallCheck(instance, Constructor) {";
      "  if (!(instance instanceof Constructor)) {";
      "    throw new TypeError(" +:+ dq +:+ "Cannot call a class as a function" +:+ dq +:+ ");";
      "  }";
      "}";
      EmptyString;
      "var x = 5;";
      "var y;";
      EmptyString;
      "var sampleFunction = function sampleFunction() {";
      "  return " +:+ dq +:+ "this is a return value" +:+ dq +:+ ";";
      "};";
      EmptyString;
      "var Person = function Person(name, age) {";
      "  _classCallCheck(this, Person);";
      EmptyString;
      "  this.name = name;";
      "  this.age = age;";
      "};";
      EmptyString;
      "var hasThree = [1, 2, 3].includes(3);";
      "console.log(hasThree);";
      "y || (y = " +:+ dq +:+ "a new value" +:+ dq +:+ ");";
      "console.log(y);" ]);
  mkSnippet "babel/README.md" 237 (lines [
      "<!DOCTYPE html>";
      "<html>";
      "  <head>";
      "    <meta charset=" +:+ dq +:+ "UTF-8" +:+ dq +:+ " />";
      "    <script src=" +:+ dq +:+ "script-transformed.js" +:+ dq +:+ "></script>";
      "  </head>";
      "  <body></body>";
      "</html>" ]);
  mkSnippet "babel/README.md" 260 (lines [
      "...";
      "<head>";
      "  <meta charset=" +:+ dq +:+ "UTF-8" +:+ dq +:+ " />";
      "  <script src=" +:+ dq +:+ "https://cdnjs.cloudflare.com/ajax/libs/core-js/3.18.1/minified.js" +:+ dq +:+ "></script>";
      "  <script src=" +:+ dq +:+ "script-transformed.js" +:+ dq +:+ " defer></script>";
      "</head>";
      "..." ]) ].

(** The snippets of [linters/README.md]. *)
Definition in_linters_README_md : list Snippet := [
  mkSnippet "linters/README.md" 39 (lines [
      "node --version";
      "> v15.5.0";
      EmptyString;
      "npm --version";
      "> 7.16.0" ]);
  mkSnippet "linters/README.md" 51 (lines [
      "npm init -y" ]);
  mkSnippet "linters/README.md" 61 (lines [
      "const person = {";
      "  name: " +:+ dq +:+ "Jen" +:+ dq +:+ ",";
      "  name: " +:+ dq +:+ "Steve" +:+ dq +:+ ",";
      "};";
      EmptyString;
      "let some_text = undefined;";
      EmptyString;
      "function printHelloWorld() {";
      "  console.log(" +:+ dq +:+ "hello world!" +:+ dq +:+ ");";
      "}";
      EmptyString;
      "printHelloWorld();" ]);
  mkSnippet "linters/README.md" 78 (lines [
      "node script.js" ]);
  mkSnippet "linters/README.md" 98 (lines [
      "npm install eslint --save-dev" ]);
  mkSnippet "linters/README.md" 108 (lines [
      "{";
      "  " +:+ dq +:+ "env" +:+ dq +:+ ": {";
      "    " +:+ dq +:+ "browser" +:+ dq +:+ ": true";
      "  },";
      "  " +:+ dq +:+ "extends" +:+ dq +:+ ": " +:+ dq +:+ "eslint:recommended" +:+ dq +:+ ",";
      "  " +:+ dq +:+ "parserOptions" +:+ dq +:+ ": {";
      "    " +:+ dq +:+ "ecmaVersion" +:+ dq +:+ ": 2021";
      "  },";
      "  " +:+ dq +:+ "rules" +:+ dq +:+ ": {";
      "    " +:+ dq +:+ "quotes" +:+ dq +:+ ": [" +:+ dq +:+ "error" +:+ dq +:+ ", " +:+ dq +:+ "double" +:+ dq +:+ "],";
      "    " +:+ dq +:+ "semi" +:+ dq +:+ ": [" +:+ dq +:+ "error" +:+ dq +:+ ", " +:+ dq +:+ "always" +:+ dq +:+ "]";
      "  }";
      "}" ]);
  mkSnippet "linters/README.md" 142 (lines [
      "npx eslint script.js" ]);
  mkSnippet "linters/README.md" 152 (lines [
      "npx eslint script.js --fix" ]);
  mkSnippet "linters/README.md" 166 (lines [
      "let some_text = " +:+ dq +:+ "hello world!" +:+ dq +:+ ";";
      EmptyString;
      "function printHelloWorld() {";
      "  console.log(some_text);";
      "}";
      EmptyString;
      "printHelloWorld();" ]);
  mkSnippet "linters/README.md" 186 (lines [
      "{";
      "  ...";
      "  " +:+ dq +:+ "rules" +:+ dq +:+ ": {";
      "    " +:+ dq +:+ "quotes" +:+ dq +:+ ": [" +:+ dq +:+ "error" +:+ dq +:+ ", " +:+ dq +:+ "double" +:+ dq +:+ "],";
      "    " +:+ dq +:+ "semi" +:+ dq +:+ ": [" +:+ dq +:+ "error" +:+ dq +:+ ", " +:+ dq +:+ "always" +:+ dq +:+ "],";
      "    " +:+ dq +:+ "camelcase" +:+ dq +:+ ": " +:+ dq +:+ "warn" +:+ dq;
      "  }";
      "}" ]);
  mkSnippet "linters/README.md" 211 (lines [
      "npm install eslint-config-airbnb --save-dev" ]);
  mkSnippet "linters/README.md" 218 (lines [
      "{";
      "  ...";
      "  " +:+ dq +:+ "extends" +:+ dq +:+ ": [" +:+ dq +:+ "eslint:recommended" +:+ dq +:+ ", " +:+ dq +:+ "airbnb" +:+ dq +:+ "],";
      "  ...";
      "}" ]);
  mkSnippet "linters/README.md" 242 (lines [
      "const CoolComponent = () => <p>COOL</p>" ]);
  mkSnippet "linters/README.md" 248 (lines [
      "npm install react";
      "npm install eslint-plugin-react --save-dev" ]);
  mkSnippet "linters/README.md" 256 (lines [
      "{";
      "  " +:+ dq +:+ "root" +:+ dq +:+ ": true,";
      "  " +:+ dq +:+ "env" +:+ dq +:+ ": {";
      "    " +:+ dq +:+ "browser" +:+ dq +:+ ": true";
      "  },";
      "  " +:+ dq +:+ "plugins" +:+ dq +:+ ": [" +:+ dq +:+ "react" +:+ dq +:+ "],";
      "  " +:+ dq +:+ "extends" +:+ dq +:+ ": [" +:+ dq +:+ "eslint:recommended" +:+ dq +:+ ", " +:+ dq +:+ "airbnb" +:+ dq +:+ ", " +:+ dq +:+ "plugin:react/recommended" +:+ dq +:+ "],";
      "  " +:+ dq +:+ "parserOptions" +:+ dq +:+ ": {";
      "    " +:+ dq +:+ "ecmaVersion" +:+ dq +:+ ": 2021";
      "  },";
      "  " +:+ dq +:+ "rules" +:+ dq +:+ ": {";
      "    " +:+ dq +:+ "quotes" +:+ dq +:+ ": [" +:+ dq +:+ "error" +:+ dq +:+ ", " +:+ dq +:+ "double" +:+ dq +:+ "],";
      "    " +:+ dq +:+ "semi" +:+ dq +:+ ": [" +:+ dq +:+ "error" +:+ dq +:+ ", " +:+ dq +:+ "always" +:+ dq +:+ "],";
      "    " +:+ dq +:+ "camelcase" +:+ dq +:+ ": " +:+ dq +:+ "warn" +:+ dq;
      "  }";
      "}" ]);
  mkSnippet "linters/README.md" 277 (lines [
      "npx eslint ./ --ext .js --ext .jsx" ]);
  mkSnippet "linters/README.md" 295 (lines [
      "{";
      "  " +:+ dq +:+ "eslint.validate" +:+ dq +:+ ": [" +:+ dq +:+ "javascript" +:+ dq +:+ "]";
      "}" ]) ].

(** The snippets of [prettier/README.md]. *)
Definition in_prettier_README_md : list Snippet := [
  mkSnippet "prettier/README.md" 41 (lines [
      "node --version";
      "> v15.5.0";
      EmptyString;
      "npm --version";
      "> 7.16.0" ]);
  mkSnippet "prettier/README.md" 53 (lines [
      "npm init -y" ]);
  mkSnippet "prettier/README.md" 63 (lines [
      "npm install prettier --save-dev" ]);
  mkSnippet "prettier/README.md" 70 (lines [
      "console.log(";
      dq +:+ "hello world" +:+ dq;
      ")";
      EmptyString;
      "if (true) { console.log('this always runs'); }";
      EmptyString;
      "const exampleArray = [1,2,3,4,";
      "     5,6,7,8";
      "     ,9, 10]" ]);
  mkSnippet "prettier/README.md" 87 (lines [
      "{";
      "  " +:+ dq +:+ "trailingComma" +:+ dq +:+ ": " +:+ dq +:+ "es5" +:+ dq +:+ ",";
      "  " +:+ dq +:+ "tabWidth" +:+ dq +:+ ": 2,";
      "  " +:+ dq +:+ "semi" +:+ dq +:+ ": true,";
      "  " +:+ dq +:+ "singleQuote" +:+ dq +:+ ": true";
      "}" ]);
  mkSnippet "prettier/README.md" 104 (lines [
      "npx prettier --write script.js" ]);
  mkSnippet "prettier/README.md" 111 (lines [
      "console.log('hello world');";
      EmptyString;
      "if (true) {";
      "  console.log('this always runs');";
      "}";
      EmptyString;
      "const exampleArray = [1, 2, 3, 4, 5, 6, 7, 8, 9, 10];" ]);
  mkSnippet "prettier/README.md" 126 (lines [
      "build";
      "*.css" ]);
  mkSnippet "prettier/README.md" 135 (lines [
      "// prettier-ignore";
      "const exampleArray = [";
      "  1,2,3,4,5";
      "]" ]);
  mkSnippet "prettier/README.md" 155 (lines [
      "{";
      "  " +:+ dq +:+ "extends" +:+ dq +:+ ": [";
      "    ...";
      "    " +:+ dq +:+ "prettier" +:+ dq;
      "  ]";
      "}" ]);
  mkSnippet "prettier/README.md" 176 (lines [
      "{";
      "  " +:+ dq +:+ "editor.defaultFormatter" +:+ dq +:+ ": " +:+ dq +:+ "esbenp.prettier-vscode" +:+ dq +:+ ",";
      "  " +:+ dq +:+ "[javascript]" +:+ dq +:+ ": {";
      "    " +:+ dq +:+ "editor.formatOnSave" +:+ dq +:+ ": true";
      "  }";
      "}" ]) ].

(** The snippets of [react-and-jsx/script.jsx]. *)
Definition in_react_and_jsx_script_jsx : list Snippet := [
  mkSnippet "react-and-jsx/script.jsx" 1 (lines [
      "const LikeButton = () => {";
      "  let [liked, setLiked] = React.useState(false);";
      EmptyString;
      "  if (liked) {";
      "    // return React.createElement(" +:+ dq +:+ "span" +:+ dq +:+ ", null, " +:+ dq +:+ "Liked! 👍" +:+ dq +:+ ");";
      "    return <span style={{ width: " +:+ dq +:+ "150px" +:+ dq +:+ ", height: " +:+ dq +:+ "25px" +:+ dq +:+ " }}>Liked! 👍</span>;";
      "  }";
      EmptyString;
      "  return (";
      "    <button";
      "      style={{ width: " +:+ dq +:+ "150px" +:+ dq +:+ ", height: " +:+ dq +:+ "25px" +:+ dq +:+ " }}";
      "      className=" +:+ dq +:+ "like-button" +:+ dq;
      "      onClick={() => {";
      "        setLiked(true);";
      "      }}";
      "    >";
      "      Click to like!";
      "    </button>";
      "  );";
      "};";
      EmptyString;
      "const domContainer = document.querySelector(" +:+ dq +:+ "#app" +:+ dq +:+ ");";
      EmptyString;
      "const ManyButtons = () => {";
      "  return (";
      "    <div style={{ display: " +:+ dq +:+ "flex" +:+ dq +:+ ", flexDirection: " +:+ dq +:+ "row" +:+ dq +:+ ", flexWrap: " +:+ dq +:+ "wrap" +:+ dq +:+ " }}>";
      "      {[...new Array(500)].map((_, index) => (";
      "        <LikeButton key={index} />";
      "      ))}";
      "    </div>";
      "  );";
      "};";
      EmptyString;
      "ReactDOM.render(<ManyButtons />, domContainer);";
      EmptyString ]);
  mkSnippet "react-and-jsx/script.jsx" 69 (lines [
      "<html>";
      "  <head>";
      "    <meta charset=" +:+ dq +:+ "UTF-8" +:+ dq +:+ " />";
      "  </head>";
      "  <body>";
      "    <BlogPost";
      "      title=" +:+ dq +:+ "Learn React!" +:+ dq;
      "      content=" +:+ dq +:+ "Lorem ipsum" +:+ dq;
      "      heroImage=" +:+ dq +:+ "assets/cool_pic.png" +:+ dq;
      "      likeButton={<HeartButton />}";
      "    />";
      "  </body>";
      "</html>" ]);
  mkSnippet "react-and-jsx/script.jsx" 101 (lines [
      "node --version";
      "> v15.5.0";
      EmptyString;
      "npm --version";
      "> 7.16.0" ]);
  mkSnippet "react-and-jsx/script.jsx" 131 (lines [
      "npm init -y" ]);
  mkSnippet "react-and-jsx/script.jsx" 141 (lines [
      "npm install react react-dom" ]);
  mkSnippet "react-and-jsx/script.jsx" 157 (lines [
      "<!DOCTYPE html>";
      "<html>";
      "  <head>";
      "    <meta charset=" +:+ dq +:+ "UTF-8" +:+ dq +:+ " />";
      "    <script src=" +:+ dq +:+ "node_modules/react/umd/react.development.js" +:+ dq +:+ "></script>";
      "    <script src=" +:+ dq +:+ "node_modules/react-dom/umd/react-dom.development.js" +:+ dq +:+ "></script>";
      "    <script src=" +:+ dq +:+ "script.js" +:+ dq +:+ " defer></script>";
      "  </head>";
      "  <body>";
      "    <div id=" +:+ dq +:+ "app" +:+ dq +:+ "></div>";
      "  </body>";
      "</html>" ]);
  mkSnippet "react-and-jsx/script.jsx" 180 (lines [
      "const LikeButton = () => {";
      "  return React.createElement(";
      "    " +:+ dq +:+ "button" +:+ dq +:+ ",";
      "    { className: " +:+ dq +:+ "like-button" +:+ dq +:+ " },";
      "    " +:+ dq +:+ "Click to like!" +:+ dq;
      "  );";
      "};";
      EmptyString;
      "const domContainer = document.querySelector(" +:+ dq +:+ "#app" +:+ dq +:+ ");";
      EmptyString;
      "ReactDOM.render(React.createElement(LikeButton), domContainer);" ]);
  mkSnippet "react-and-jsx/script.jsx" 208 (lines [
      "<div id=" +:+ dq +:+ "app" +:+ dq +:+ ">";
      "  <button class=" +:+ dq +:+ "like-button" +:+ dq +:+ ">Click to like!</button>";
      "</div>" ]);
  mkSnippet "react-and-jsx/script.jsx" 228 (lines [
      "class LikeButton extends React.Component {";
      "  constructor(props) {";
      "    super(props);";
      "    this.state = { liked: false };";
      "  }";
      EmptyString;
      "  render() {";
      "    if (this.state.liked) {";
      "      return React.createElement(" +:+ dq +:+ "span" +:+ dq +:+ ", null, " +:+ dq +:+ "Liked!" +:+ dq +:+ ");";
      "    }";
      EmptyString;
      "    return React.createElement(";
      "      " +:+ dq +:+ "button" +:+ dq +:+ ",";
      "      {";
      "        className: " +:+ dq +:+ "like-button" +:+ dq +:+ ",";
      "        onClick: () => this.setState({ liked: true }),";
      "      },";
      "      " +:+ dq +:+ "Click to like!" +:+ dq;
      "    );";
      "  }";
      "}";
      EmptyString;
      "const domContainer = document.querySelector(" +:+ dq +:+ "#app" +:+ dq +:+ ");";
      EmptyString;
      "ReactDOM.render(React.createElement(LikeButton), domContainer);" ]);
  mkSnippet "react-and-jsx/script.jsx" 270 (lines [
      "const LikeButton = () => {";
      "  let liked = false;";
      EmptyString;
      "  if (liked) {";
      "    return React.createElement(" +:+ dq +:+ "span" +:+ dq +:+ ", null, " +:+ dq +:+ "Liked!" +:+ dq +:+ ");";
      "  }";
      EmptyString;
      "  return React.createElement(";
      "    " +:+ dq +:+ "button" +:+ dq +:+ ",";
      "    {";
      "      className: " +:+ dq +:+ "like-button" +:+ dq +:+ ",";
      "      onClick: () => {";
      "        liked = true;";
      "        console.log(" +:+ dq +:+ "button was clicked" +:+ dq +:+ ");";
      "      },";
      "    },";
      "    " +:+ dq +:+ "Click to like!" +:+ dq;
      "  );";
      "};";
      EmptyString;
      "const domContainer = document.querySelector(" +:+ dq +:+ "#app" +:+ dq +:+ ");";
      EmptyString;
      "ReactDOM.render(React.createElement(LikeButton), domContainer);" ]);
  mkSnippet "react-and-jsx/script.jsx" 310 (lines [
      "const LikeButton = () => {";
      "  const [liked, setLiked] = React.useState(false); // <-- NEW";
      EmptyString;
      "  if (liked) {";
      "    return React.createElement(" +:+ dq +:+ "span" +:+ dq +:+ ", null, " +:+ dq +:+ "Liked!" +:+ dq +:+ ");";
      "  }";
      EmptyString;
      "  return React.createElement(";
      "    " +:+ dq +:+ "button" +:+ dq +:+ ",";
      "    {";
      "      className: " +:+ dq +:+ "like-button" +:+ dq +:+ ",";
      "      onClick: () => {";
      "        setLiked(true); // <-- NEW";
      "        console.log(" +:+ dq +:+ "button was clicked" +:+ dq +:+ ");";
      "      },";
      "    },";
      "    " +:+ dq +:+ "Click to like!" +:+ dq;
      "  );";
      "};";
      EmptyString;
      "const domContainer = document.querySelector(" +:+ dq +:+ "#app" +:+ dq +:+ ");";
      EmptyString;
      "ReactDOM.render(React.createElement(LikeButton), domContainer);" ]);
  mkSnippet "react-and-jsx/script.jsx" 362 (lines [
      "// ...";
      "const domContainer = document.querySelector(" +:+ dq +:+ "#app" +:+ dq +:+ ");";
      EmptyString;
      "const manyButtons = React.createElement(";
      "  " +:+ dq +:+ "div" +:+ dq +:+ ",";
      "  { style: { width: " +:+ dq +:+ "100px" +:+ dq +:+ ", display: " +:+ dq +:+ "flex" +:+ dq +:+ ", flexDirection: " +:+ dq +:+ "column" +:+ dq +:+ " } },";
      "  React.createElement(LikeButton),";
      "  React.createElement(LikeButton),";
      "  React.createElement(LikeButton),";
      "  React.createElement(LikeButton),";
      "  React.createElement(LikeButton)";
      ");";
      EmptyString;
      "ReactDOM.render(manyButtons, domContainer);" ]);
  mkSnippet "react-and-jsx/script.jsx" 405 (lines [
      "npm install @babel/core @babel/cli @babel/preset-env @babel/preset-react --save-dev" ]);
  mkSnippet "react-and-jsx/script.jsx" 417 (lines [
      "{";
      "  " +:+ dq +:+ "dependencies" +:+ dq +:+ ": {";
      "    " +:+ dq +:+ "react" +:+ dq +:+ ": " +:+ dq +:+ "^17.0.2" +:+ dq +:+ ",";
      "    " +:+ dq +:+ "react-dom" +:+ dq +:+ ": " +:+ dq +:+ "^17.0.2" +:+ dq;
      "  },";
      "  " +:+ dq +:+ "devDependencies" +:+ dq +:+ ": {";
      "    " +:+ dq +:+ "@babel/cli" +:+ dq +:+ ": " +:+ dq +:+ "^7.15.7" +:+ dq +:+ ",";
      "    " +:+ dq +:+ "@babel/core" +:+ dq +:+ ": " +:+ dq +:+ "^7.15.5" +:+ dq +:+ ",";
      "    " +:+ dq +:+ "@babel/preset-env" +:+ dq +:+ ": " +:+ dq +:+ "^7.15.6" +:+ dq +:+ ",";
      "    " +:+ dq +:+ "@babel/preset-react" +:+ dq +:+ ": " +:+ dq +:+ "^7.14.5" +:+ dq;
      "  },";
      "  " +:+ dq +:+ "browserslist" +:+ dq +:+ ": [" +:+ dq +:+ "last 2 Chrome versions" +:+ dq +:+ "],";
      "  " +:+ dq +:+ "babel" +:+ dq +:+ ": {";
      "    " +:+ dq +:+ "presets" +:+ dq +:+ ": [[" +:+ dq +:+ "@babel/preset-env" +:+ dq +:+ "], [" +:+ dq +:+ "@babel/preset-react" +:+ dq +:+ "]]";
      "  }";
      "}" ]);
  mkSnippet "react-and-jsx/script.jsx" 444 (lines [
      "const LikeButton = () => {";
      "  let [liked, setLiked] = React.useState(false);";
      EmptyString;
      "  if (liked) {";
      "    // return React.createElement(" +:+ dq +:+ "span" +:+ dq +:+ ", null, " +:+ dq +:+ "Liked! 👍" +:+ dq +:+ ");";
      "    return <span>Liked! 👍</span>;";
      "  }";
      EmptyString;
      "  return (";
      "    <button";
      "      className=" +:+ dq +:+ "like-button" +:+ dq;
      "      onClick={() => {";
      "        setLiked(true);";
      "      }}";
      "    >";
      "      Click to like!";
      "    </button>";
      "  );";
      "};";
      EmptyString;
      "const domContainer = document.querySelector(" +:+ dq +:+ "#app" +:+ dq +:+ ");";
      EmptyString;
      "const ManyButtons = () => {";
      "  return (";
      "    <div style={{ width: " +:+ dq +:+ "100px" +:+ dq +:+ ", display: " +:+ dq +:+ "flex" +:+ dq +:+ ", flexDirection: " +:+ dq +:+ "column" +:+ dq +:+ " }}>";
      "      <LikeButton />";
      "      <LikeButton />";
      "      <LikeButton />";
      "      <LikeButton />";
      "      <LikeButton />";
      "    </div>";
      "  );";
      "};";
      EmptyString;
      "ReactDOM.render(<ManyButtons />, domContainer);" ]);
  mkSnippet "react-and-jsx/script.jsx" 488 (lines [
      "npx babel script.jsx --out-file script.js`" ]);
  mkSnippet "react-and-jsx/script.jsx" 496 (lines [
      dq +:+ "use strict" +:+ dq +:+ ";";
      EmptyString;
      "const LikeButton = () => {";
      "  let [liked, setLiked] = React.useState(false);";
      EmptyString;
      "  if (liked) {";
      "    // return React.createElement(" +:+ dq +:+ "span" +:+ dq +:+ ", null, " +:+ dq +:+ "Liked! 👍" +:+ dq +:+ ");";
      "    return /*#__PURE__*/ React.createElement(";
      "      " +:+ dq +:+ "span" +:+ dq +:+ ",";
      "      null,";
      "      " +:+ dq +:+ "Liked! \uD83D\uDC4D" +:+ dq;
      "    );";
      "  }";
      EmptyString;
      "  return /*#__PURE__*/ React.createElement(";
      "    " +:+ dq +:+ "button" +:+ dq +:+ ",";
      "    {";
      "      className: " +:+ dq +:+ "like-button" +:+ dq +:+ ",";
      "      onClick: () => {";
      "        setLiked(true);";
      "      },";
      "    },";
      "    " +:+ dq +:+ "Click to like!" +:+ dq;
      "  );";
      "};";
      EmptyString;
      "const domContainer = document.querySelector(" +:+ dq +:+ "#app" +:+ dq +:+ ");";
      EmptyString;
      "const ManyButtons = () => {";
      "  return /*#__PURE__*/ React.createElement(";
      "    " +:+ dq +:+ "div" +:+ dq +:+ ",";
      "    {";
      "      style: {";
      "        width: " +:+ dq +:+ "100px" +:+ dq +:+ ",";
      "        display: " +:+ dq +:+ "flex" +:+ dq +:+ ",";
      "        flexDirection: " +:+ dq +:+ "column" +:+ dq +:+ ",";
      "      },";
      "    },";
      "    /*#__PURE__*/ React.createElement(LikeButton, null),";
      "    /*#__PURE__*/ React.createElement(LikeButton, null),";
      "    /*#__PURE__*/ React.createElement(LikeButton, null),";
      "    /*#__PURE__*/ React.createElement(LikeButton, null),";
      "    /*#__PURE__*/ React.createElement(LikeButton, null)";
      "  );";
      "};";
      EmptyString;
      "ReactDOM.render(";
      "  /*#__PURE__*/ React.createElement(ManyButtons, null),";
      "  domContainer";
      ");" ]);
  mkSnippet "react-and-jsx/script.jsx" 558 (lines [
      "const LikeButton = () => {";
      "  let [liked, setLiked] = React.useState(false);";
      EmptyString;
      "  if (liked) {";
      "    // return React.createElement(" +:+ dq +:+ "span" +:+ dq +:+ ", null, " +:+ dq +:+ "Liked! 👍" +:+ dq +:+ ");";
      "    // NEW";
      "    return <span style={{ width: " +:+ dq +:+ "150px" +:+ dq +:+ ", height: " +:+ dq +:+ "25px" +:+ dq +:+ " }}>Liked! 👍</span>;";
      "  }";
      EmptyString;
      "  return (";
      "    <button";
      "      // NEW";
      "      style={{ width: " +:+ dq +:+ "150px" +:+ dq +:+ ", height: " +:+ dq +:+ "25px" +:+ dq +:+ " }}";
      "      className=" +:+ dq +:+ "like-button" +:+ dq;
      "      onClick={() => {";
      "        setLiked(true);";
      "      }}";
      "    >";
      "      Click to like!";
      "    </button>";
      "  );";
      "};";
      EmptyString;
      "const domContainer = document.querySelector(" +:+ dq +:+ "#app" +:+ dq +:+ ");";
      EmptyString;
      "const ManyButtons = () => {";
      "  return (";
      "    // NEW BLOCK";
      "    <div style={{ display: " +:+ dq +:+ "flex" +:+ dq +:+ ", flexDirection: " +:+ dq +:+ "row" +:+ dq +:+ ", flexWrap: " +:+ dq +:+ "wrap" +:+ dq +:+ " }}>";
      "      {[...new Array(500)].map((_, index) => (";
      "        <LikeButton key={index} />";
      "      ))}";
      "    </div>";
      "    // END: NEW BLOCK";
      "  );";
      "};";
      EmptyString;
      "ReactDOM.render(<ManyButtons />, domContainer);" ]);
  mkSnippet "react-and-jsx/script.jsx" 601 (lines [
      "npx babel script.jsx --out-file script.js" ]) ].

(** The snippets of [unnamed/part_000]. *)
Definition in_unnamed_part_000 : list Snippet := [
  mkSnippet "unnamed/part_000" 37 (lines [
      "<!DOCTYPE html>";
      "<html>";
      "  <head>";
      "    <meta charset=" +:+ dq +:+ "UTF-8" +:+ dq +:+ " />";
      "  </head>";
      "  <body>My web page</body>";
      "</html>" ]);
  mkSnippet "unnamed/part_000" 65 (lines [
      "npx http-server -p 8000" ]);
  mkSnippet "unnamed/part_000" 75 (lines [
      "python3 -m http.server 8000" ]);
  mkSnippet "unnamed/part_000" 86 (lines [
      "php -S localhost:8000" ]) ].

(** The snippets of [unnamed/part_001]. *)
Definition in_unnamed_part_001 : list Snippet := [
  mkSnippet "unnamed/part_001" 1 (lines [
      "const HtmlWebpackPlugin = require(" +:+ dq +:+ "html-webpack-plugin" +:+ dq +:+ ");";
      "const path = require(" +:+ dq +:+ "path" +:+ dq +:+ ");";
      EmptyString;
      "module.exports = {";
      "  mode: " +:+ dq +:+ "none" +:+ dq +:+ ",";
      "  entry: " +:+ dq +:+ "./src/script.tsx" +:+ dq +:+ ",";
      "  output: {";
      "    filename: " +:+ dq +:+ "main.js" +:+ dq +:+ ",";
      "    path: path.resolve(__dirname, " +:+ dq +:+ "dist" +:+ dq +:+ "),";
      "    clean: true,";
      "  },";
      "  plugins: [";
      "    new HtmlWebpackPlugin({";
      "      filename: " +:+ dq +:+ "index.html" +:+ dq +:+ ",";
      "      template: " +:+ dq +:+ "./src/index.html" +:+ dq +:+ ",";
      "    }),";
      "  ],";
      "  devtool: " +:+ dq +:+ "inline-source-map" +:+ dq +:+ ",";
      "  module: {";
      "    rules: [";
      "      {";
      "        test: /\.m?[jt]sx$/, // <-- NEW";
      "        exclude: /(node_modules|bower_components)/,";
      "        use: {";
      "          loader: " +:+ dq +:+ "babel-loader" +:+ dq +:+ ",";
      "          options: {";
      "            presets: [";
      "              " +:+ dq +:+ "@babel/preset-env" +:+ dq +:+ ",";
      "              [" +:+ dq +:+ "@babel/preset-react" +:+ dq +:+ ", { runtime: " +:+ dq +:+ "automatic" +:+ dq +:+ " }],";
      "              " +:+ dq +:+ "@babel/preset-typescript" +:+ dq +:+ ",";
      "            ],";
      "          },";
      "        },";
      "      },";
      "      // { test: /\.tsx?$/, use: " +:+ dq +:+ "ts-loader" +:+ dq +:+ " },";
      "    ],";
      "  },";
      "  optimization: {";
      "    nodeEnv: 'development',";
      "  },";
      "};";
      EmptyString ]) ].

(** The snippets of [webpack/loaders-optimizations/README.md]. *)
Definition in_webpack_loaders_optimizations_README_md : list Snippet := [
  mkSnippet "webpack/loaders-optimizations/README.md" 34 (lines [
      "root";
      "|   webpack.config.js";
      "└───src";
      "│   │   script.js";
      "|   |   index.html" ]);
  mkSnippet "webpack/loaders-optimizations/README.md" 44 (lines [
      "<!DOCTYPE html>";
      "<html lang=" +:+ dq +:+ "en" +:+ dq +:+ ">";
      "  <head>";
      "    <meta charset=" +:+ dq +:+ "UTF-8" +:+ dq +:+ " />";
      "    <meta http-equiv=" +:+ dq +:+ "X-UA-Compatible" +:+ dq +:+ " content=" +:+ dq +:+ "IE=edge" +:+ dq +:+ " />";
      "    <meta name=" +:+ dq +:+ "viewport" +:+ dq +:+ " content=" +:+ dq +:+ "width=device-width, initial-scale=1.0" +:+ dq +:+ " />";
      "    <title>Webpack Example</title>";
      "  </head>";
      "  <body></body>";
      "</html>" ]);
  mkSnippet "webpack/loaders-optimizations/README.md" 59 (lines [
      "import join from " +:+ dq +:+ "lodash/join" +:+ dq +:+ ";";
      EmptyString;
      "function component() {";
      "  const element = document.createElement(" +:+ dq +:+ "div" +:+ dq +:+ ");";
      EmptyString;
      "  element.innerHTML = join([" +:+ dq +:+ "Hello" +:+ dq +:+ ", " +:+ dq +:+ "webpack" +:+ dq +:+ "], " +:+ dq +:+ " " +:+ dq +:+ ");";
      EmptyString;
      "  return element;";
      "}";
      EmptyString;
      "document.body.appendChild(component());" ]);
  mkSnippet "webpack/loaders-optimizations/README.md" 75 (lines [
      "const HtmlWebpackPlugin = require(" +:+ dq +:+ "html-webpack-plugin" +:+ dq +:+ ");";
      "const path = require(" +:+ dq +:+ "path" +:+ dq +:+ ");";
      EmptyString;
      "module.exports = {";
      "  mode: " +:+ dq +:+ "none" +:+ dq +:+ ",";
      "  entry: " +:+ dq +:+ "./src/script.js" +:+ dq +:+ ",";
      "  output: {";
      "    filename: " +:+ dq +:+ "main.js" +:+ dq +:+ ",";
      "    path: path.resolve(__dirname, " +:+ dq +:+ "dist" +:+ dq +:+ "),";
      "  },";
      "  plugins: [";
      "    new HtmlWebpackPlugin({";
      "      filename: " +:+ dq +:+ "index.html" +:+ dq +:+ ",";
      "      template: " +:+ dq +:+ "./src/index.html" +:+ dq +:+ ",";
      "    }),";
      "  ],";
      "};" ]);
  mkSnippet "webpack/loaders-optimizations/README.md" 97 (lines [
      "npm init -y";
      "npm install lodash";
      "npm install webpack webpack-cli html-webpack-plugin --save-dev";
      "npx webpack" ]);
  mkSnippet "webpack/loaders-optimizations/README.md" 123 (lines [
      "body {";
      "  background-color: red;";
      "}" ]);
  mkSnippet "webpack/loaders-optimizations/README.md" 133 (lines [
      "import " +:+ dq +:+ "./styles.css" +:+ dq +:+ ";";
      "..." ]);
  mkSnippet "webpack/loaders-optimizations/README.md" 148 (lines [
      "npm install style-loader css-loader --save-dev" ]);
  mkSnippet "webpack/loaders-optimizations/README.md" 162 (lines [
      "const HtmlWebpackPlugin = require(" +:+ dq +:+ "html-webpack-plugin" +:+ dq +:+ ");";
      "const path = require(" +:+ dq +:+ "path" +:+ dq +:+ ");";
      EmptyString;
      "module.exports = {";
      "  mode: " +:+ dq +:+ "none" +:+ dq +:+ ",";
      "  entry: " +:+ dq +:+ "./src/script.js" +:+ dq +:+ ",";
      "  output: {";
      "    filename: " +:+ dq +:+ "main.js" +:+ dq +:+ ",";
      "    path: path.resolve(__dirname, " +:+ dq +:+ "dist" +:+ dq +:+ "),";
      "  },";
      "  plugins: [";
      "    new HtmlWebpackPlugin({";
      "      filename: " +:+ dq +:+ "index.html" +:+ dq +:+ ",";
      "      template: " +:+ dq +:+ "./src/index.html" +:+ dq +:+ ",";
      "    }),";
      "  ],";
      "  // NEW BLOCK";
      "  module: {";
      "    rules: [";
      "      {";
      "        test: /\.css$/i,";
      "        use: [" +:+ dq +:+ "style-loader" +:+ dq +:+ ", " +:+ dq +:+ "css-loader" +:+ dq +:+ "],";
      "      },";
      "    ],";
      "  },";
      "  // END: NEW BLOCK";
      "};" ]);
  mkSnippet "webpack/loaders-optimizations/README.md" 204 (lines [
      "item[1] = " +:+ dq +:+ "@media " +:+ dq +:+ ".concat(item[2], " +:+ dq +:+ " {" +:+ dq +:+ ").concat(item[1], " +:+ dq +:+ "}" +:+ dq +:+ ");" ]);
  mkSnippet "webpack/loaders-optimizations/README.md" 230 (lines [
      "<img alt=" +:+ dq +:+ "Cute Mushroom" +:+ dq +:+ " src=" +:+ dq +:+ "src/assets/ck-yeo-ZyEnQoFp8RQ-unsplash.jpg" +:+ dq +:+ " />" ]);
  mkSnippet "webpack/loaders-optimizations/README.md" 246 (lines [
      "...";
      "  module: {";
      "    rules: [";
      "      {";
      "        test: /\.css$/i,";
      "        use: [" +:+ dq +:+ "style-loader" +:+ dq +:+ ", " +:+ dq +:+ "css-loader" +:+ dq +:+ "],";
      "      },";
      "      // NEW BLOCK";
      "      {";
      "        test: /\.(png|svg|jpg|jpeg|gif)$/i,";
      "        type: " +:+ dq +:+ "asset/resource" +:+ dq +:+ ",";
      "      },";
      "      // END: NEW BLOCK";
      "    ],";
      "  }";
      "..." ]);
  mkSnippet "webpack/loaders-optimizations/README.md" 271 (lines [
      "import " +:+ dq +:+ "./styles.css" +:+ dq +:+ ";";
      "import mushroom from " +:+ dq +:+ "./assets/ck-yeo-ZyEnQoFp8RQ-unsplash.jpg" +:+ dq +:+ "; // <-- NEW";
      "import join from " +:+ dq +:+ "lodash/join" +:+ dq +:+ ";";
      EmptyString;
      "function component() {";
      "  const element = document.createElement(" +:+ dq +:+ "div" +:+ dq +:+ ");";
      EmptyString;
      "  element.innerHTML = join([" +:+ dq +:+ "Hello" +:+ dq +:+ ", " +:+ dq +:+ "webpack" +:+ dq +:+ "], " +:+ dq +:+ " " +:+ dq +:+ ");";
      EmptyString;
      "  return element;";
      "}";
      EmptyString;
      "// NEW BLOCK";
      "function imageComponent() {";
      "  const element = document.createElement(" +:+ dq +:+ "img" +:+ dq +:+ ");";
      EmptyString;
      "  element.src = mushroom;";
      EmptyString;
      "  return element;";
      "}";
      "// END: NEW BLOCK";
      EmptyString;
      "document.body.appendChild(component());";
      "document.body.appendChild(imageComponent()); // <-- NEW" ]);
  mkSnippet "webpack/loaders-optimizations/README.md" 306 (lines [
      "body {";
      "  background-color: red;";
      "}";
      EmptyString;
      "/* NEW */";
      "img {";
      "  width: 200px;";
      "  height: auto;";
      "}" ]);
  mkSnippet "webpack/loaders-optimizations/README.md" 340 (lines [
      "import join from " +:+ dq +:+ "lodash/join" +:+ dq +:+ ";";
      EmptyString;
      "console.log(" +:+ dq +:+ "loading page2.js" +:+ dq +:+ ");";
      EmptyString;
      "const element = document.createElement(" +:+ dq +:+ "h1" +:+ dq +:+ ");";
      EmptyString;
      "element.innerHTML = join([" +:+ dq +:+ "Welcome to" +:+ dq +:+ ", " +:+ dq +:+ "page 2!" +:+ dq +:+ "], " +:+ dq +:+ " " +:+ dq +:+ ");";
      EmptyString;
      "document.body.append(element);" ]);
  mkSnippet "webpack/loaders-optimizations/README.md" 358 (lines [
      "const HtmlWebpackPlugin = require(" +:+ dq +:+ "html-webpack-plugin" +:+ dq +:+ ");";
      "const path = require(" +:+ dq +:+ "path" +:+ dq +:+ ");";
      EmptyString;
      "module.exports = {";
      "  mode: " +:+ dq +:+ "none" +:+ dq +:+ ",";
      "  // NEW BLOCK";
      "  entry: {";
      "    script: { import: " +:+ dq +:+ "./src/script.js" +:+ dq +:+ ", dependOn: " +:+ dq +:+ "shared" +:+ dq +:+ " },";
      "    page2: { import: " +:+ dq +:+ "./src/page2.js" +:+ dq +:+ ", dependOn: " +:+ dq +:+ "shared" +:+ dq +:+ " },";
      "    shared: " +:+ dq +:+ "lodash/join" +:+ dq +:+ ",";
      "  },";
      "  output: {";
      "    filename: " +:+ dq +:+ "[name].js" +:+ dq +:+ ",";
      "    path: path.resolve(__dirname, " +:+ dq +:+ "dist" +:+ dq +:+ "),";
      "    clean: true,";
      "  },";
      "  plugins: [";
      "    new HtmlWebpackPlugin({";
      "      filename: " +:+ dq +:+ "index.html" +:+ dq +:+ ",";
      "      template: " +:+ dq +:+ "./src/index.html" +:+ dq +:+ ",";
      "      chunks: [" +:+ dq +:+ "script" +:+ dq +:+ ", " +:+ dq +:+ "shared" +:+ dq +:+ "],";
      "    }),";
      "    new HtmlWebpackPlugin({";
      "      filename: " +:+ dq +:+ "page2/index.html" +:+ dq +:+ ",";
      "      template: " +:+ dq +:+ "./src/index.html" +:+ dq +:+ ",";
      "      chunks: [" +:+ dq +:+ "page2" +:+ dq +:+ ", " +:+ dq +:+ "shared" +:+ dq +:+ "],";
      "    }),";
      "  ],";
      "  // END: NEW BLOCK";
      "  module: {";
      "    rules: [";
      "      {";
      "        test: /\.css$/i,";
      "        use: [" +:+ dq +:+ "style-loader" +:+ dq +:+ ", " +:+ dq +:+ "css-loader" +:+ dq +:+ "],";
      "      },";
      "      {";
      "        test: /\.(png|svg|jpg|jpeg|gif)$/i,";
      "        type: " +:+ dq +:+ "asset/resource" +:+ dq +:+ ",";
      "      },";
      "    ],";
      "  },";
      "};" ]);
  mkSnippet "webpack/loaders-optimizations/README.md" 417 (lines [
      "<script defer src=" +:+ dq +:+ "../page2.js" +:+ dq +:+ "></script>";
      "<script defer src=" +:+ dq +:+ "../shared.js" +:+ dq +:+ "></script>" ]);
  mkSnippet "webpack/loaders-optimizations/README.md" 444 (lines [
      "export const funcA = () => console.log(" +:+ dq +:+ "funcA" +:+ dq +:+ ");";
      EmptyString;
      "export const funcB = () => console.log(" +:+ dq +:+ "funcB" +:+ dq +:+ ");" ]);
  mkSnippet "webpack/loaders-optimizations/README.md" 454 (lines [
      "import " +:+ dq +:+ "./styles.css" +:+ dq +:+ ";";
      "import mushroom from " +:+ dq +:+ "./assets/ck-yeo-ZyEnQoFp8RQ-unsplash.jpg" +:+ dq +:+ ";";
      "import join from " +:+ dq +:+ "lodash/join" +:+ dq +:+ ";";
      "import { funcA } from './tree-shake';";
      EmptyString;
      "funcA();";
      "..." ]);
  mkSnippet "webpack/loaders-optimizations/README.md" 472 (lines [
      "  ...";
      "  optimization: {";
      "    usedExports: true,";
      "    minimize: true,";
      "  },";
      "  ..." ]);
  mkSnippet "webpack/loaders-optimizations/README.md" 500 (lines [
      "console.log(" +:+ dq +:+ "this code has been loaded" +:+ dq +:+ ");";
      EmptyString;
      "const getBigData = () => " +:+ dq +:+ "big data" +:+ dq +:+ ";";
      EmptyString;
      "export default getBigData;" ]);
  mkSnippet "webpack/loaders-optimizations/README.md" 514 (lines [
      "...";
      EmptyString;
      "// NEW BLOCK";
      "function buttonComponent() {";
      "  const element = document.createElement(" +:+ dq +:+ "button" +:+ dq +:+ ");";
      EmptyString;
      "  element.innerText = " +:+ dq +:+ "Click me!" +:+ dq +:+ ";";
      EmptyString;
      "  element.onclick = (e) =>";
      "    import(" +:+ dq +:+ "./lazy-module" +:+ dq +:+ ").then((module) => {";
      "      const getBigData = module.default;";
      "      const data = getBigData();";
      "      console.log(data);";
      "    });";
      EmptyString;
      "  return element;";
      "}";
      "// END: NEW BLOCK";
      EmptyString;
      "document.body.appendChild(component());";
      "document.body.appendChild(imageComponent());";
      "document.body.appendChild(buttonComponent()); // <-- NEW" ]);
  mkSnippet "webpack/loaders-optimizations/README.md" 557 (lines [
      "npm install webpack-bundle-analyzer --save-dev" ]);
  mkSnippet "webpack/loaders-optimizations/README.md" 565 (lines [
      "const BundleAnalyzerPlugin = require('webpack-bundle-analyzer');";
      "...";
      EmptyString;
      "module.exports = {";
      "  ...";
      "  plugins: [";
      "    ...";
      "    new BundleAnalyzerPlugin()";
      "  ],";
      "  ...";
      "}";
      EmptyString ]) ].

(** The snippets of [webpack/loaders-optimizations/src/script.js]. *)
Definition in_webpack_loaders_optimizations_src_script_js : list Snippet := [
  mkSnippet "webpack/loaders-optimizations/src/script.js" 1 (lines [
      "import " +:+ dq +:+ "./styles.css" +:+ dq +:+ ";";
      "import mushroom from " +:+ dq +:+ "./assets/ck-yeo-ZyEnQoFp8RQ-unsplash.jpg" +:+ dq +:+ ";";
      "import join from " +:+ dq +:+ "lodash/join" +:+ dq +:+ ";";
      "import { funcA } from './tree-shake';";
      EmptyString;
      "funcA();";
      EmptyString;
      "function component() {";
      "  const element = document.createElement(" +:+ dq +:+ "div" +:+ dq +:+ ");";
      EmptyString;
      "  element.innerHTML = join([" +:+ dq +:+ "Hello" +:+ dq +:+ ", " +:+ dq +:+ "webpack" +:+ dq +:+ "], " +:+ dq +:+ " " +:+ dq +:+ ");";
      EmptyString;
      "  return element;";
      "}";
      EmptyString;
      "function imageComponent() {";
      "  const element = document.createElement(" +:+ dq +:+ "img" +:+ dq +:+ ");";
      EmptyString;
      "  element.src = mushroom;";
      EmptyString;
      "  return element;";
      "}";
      EmptyString;
      "// NEW BLOCK";
      "function buttonComponent() {";
      "  const element = document.createElement(" +:+ dq +:+ "button" +:+ dq +:+ ");";
      EmptyString;
      "  element.innerText = " +:+ dq +:+ "Click me!" +:+ dq +:+ ";";
      "  ";
      "  element.onclick = (e) =>";
      "    import(" +:+ dq +:+ "./lazy-module" +:+ dq +:+ ").then((module) => {";
      "      const getBigData = module.default;";
      "      const data = getBigData();";
      "      console.log(data);";
      "    });";
      EmptyString;
      "  return element;";
      "}";
      "// END: NEW BLOCK";
      EmptyString;
      "document.body.appendChild(component());";
      "document.body.appendChild(imageComponent());";
      "document.body.appendChild(buttonComponent()); // <-- NEW" ]) ].

(** The snippets of [webpack/loaders-optimizations/webpack.config.js]. *)
Definition in_webpack_loaders_optimizations_webpack_config_js : list Snippet := [
  mkSnippet "webpack/loaders-optimizations/webpack.config.js" 1 (lines [
      "const BundleAnalyzerPlugin = require('webpack-bundle-analyzer').BundleAnalyzerPlugin;";
      "const HtmlWebpackPlugin = require(" +:+ dq +:+ "html-webpack-plugin" +:+ dq +:+ ");";
      "const path = require(" +:+ dq +:+ "path" +:+ dq +:+ ");";
      EmptyString;
      "module.exports = {";
      "  mode: " +:+ dq +:+ "none" +:+ dq +:+ ",";
      "  entry: {";
      "    script: { import: " +:+ dq +:+ "./src/script.js" +:+ dq +:+ ", dependOn: " +:+ dq +:+ "shared" +:+ dq +:+ " },";
      "    page2: { import: " +:+ dq +:+ "./src/page2.js" +:+ dq +:+ ", dependOn: " +:+ dq +:+ "shared" +:+ dq +:+ " },";
      "    shared: " +:+ dq +:+ "lodash/join" +:+ dq +:+ ",";
      "  },";
      "  output: {";
      "    filename: " +:+ dq +:+ "[name].js" +:+ dq +:+ ",";
      "    path: path.resolve(__dirname, " +:+ dq +:+ "dist" +:+ dq +:+ "),";
      "    clean: true,";
      "  },";
      "  plugins: [";
      "    new HtmlWebpackPlugin({";
      "      filename: " +:+ dq +:+ "index.html" +:+ dq +:+ ",";
      "      template: " +:+ dq +:+ "./src/index.html" +:+ dq +:+ ",";
      "      chunks: [" +:+ dq +:+ "script" +:+ dq +:+ ", " +:+ dq +:+ "shared" +:+ dq +:+ "],";
      "    }),";
      "    new HtmlWebpackPlugin({";
      "      filename: " +:+ dq +:+ "page2/index.html" +:+ dq +:+ ",";
      "      template: " +:+ dq +:+ "./src/index.html" +:+ dq +:+ ",";
      "      chunks: [" +:+ dq +:+ "page2" +:+ dq +:+ ", " +:+ dq +:+ "shared" +:+ dq +:+ "],";
      "    }),";
      "    new BundleAnalyzerPlugin()";
      "  ],";
      "  module: {";
      "    rules: [";
      "      {";
      "        test: /\.css$/i,";
      "        use: [" +:+ dq +:+ "style-loader" +:+ dq +:+ ", " +:+ dq +:+ "css-loader" +:+ dq +:+ "],";
      "      },";
      "      {";
      "        test: /\.(png|svg|jpg|jpeg|gif)$/i,";
      "        type: " +:+ dq +:+ "asset/resource" +:+ dq +:+ ",";
      "      },";
      "    ],";
      "  },";
      "  optimization: {";
      "    usedExports: true,";
      "    minimize: true,";
      "  },";
      "};";
      EmptyString ]);
  mkSnippet "webpack/loaders-optimizations/webpack.config.js" 77 (lines [
      "root";
      "|   webpack.config.js";
      "└───src";
      "│   │   script.js";
      "|   |   index.html" ]);
  mkSnippet "webpack/loaders-optimizations/webpack.config.js" 87 (lines [
      "<!DOCTYPE html>";
      "<html>";
      "  <head>";
      "    <meta charset=" +:+ dq +:+ "UTF-8" +:+ dq +:+ " />";
      "    <title>Webpack Example</title>";
      "  </head>";
      "  <body></body>";
      "</html>" ]);
  mkSnippet "webpack/loaders-optimizations/webpack.config.js" 100 (lines [
      "const element = document.createElement(" +:+ dq +:+ "h1" +:+ dq +:+ ");";
      EmptyString;
      "element.innerHTML = " +:+ dq +:+ "Welcome" +:+ dq +:+ ";";
      EmptyString;
      "document.body.appendChild(element);" ]);
  mkSnippet "webpack/loaders-optimizations/webpack.config.js" 110 (lines [
      "const HtmlWebpackPlugin = require(" +:+ dq +:+ "html-webpack-plugin" +:+ dq +:+ ");";
      "const path = require(" +:+ dq +:+ "path" +:+ dq +:+ ");";
      EmptyString;
      "module.exports = {";
      "  mode: " +:+ dq +:+ "none" +:+ dq +:+ ",";
      "  entry: " +:+ dq +:+ "./src/script.js" +:+ dq +:+ ",";
      "  output: {";
      "    filename: " +:+ dq +:+ "main.js" +:+ dq +:+ ",";
      "    path: path.resolve(__dirname, " +:+ dq +:+ "dist" +:+ dq +:+ "),";
      "    clean: true,";
      "  },";
      "  plugins: [";
      "    new HtmlWebpackPlugin({";
      "      filename: " +:+ dq +:+ "index.html" +:+ dq +:+ ",";
      "      template: " +:+ dq +:+ "./src/index.html" +:+ dq +:+ ",";
      "    }),";
      "  ],";
      "};" ]);
  mkSnippet "webpack/loaders-optimizations/webpack.config.js" 133 (lines [
      "npm init -y";
      "npm install webpack webpack-cli html-webpack-plugin --save dev";
      "npx webpack" ]);
  mkSnippet "webpack/loaders-optimizations/webpack.config.js" 154 (lines [
      "throw Error(" +:+ dq +:+ "Something happened!" +:+ dq +:+ ");";
      EmptyString;
      "const element = document.createElement(" +:+ dq +:+ "h1" +:+ dq +:+ ");";
      EmptyString;
      "element.innerHTML = " +:+ dq +:+ "Welcome" +:+ dq +:+ ";";
      EmptyString;
      "document.body.appendChild(element);" ]);
  mkSnippet "webpack/loaders-optimizations/webpack.config.js" 176 (lines [
      "...";
      "module.exports = {";
      "  ...";
      "  devtool: " +:+ dq +:+ "inline-source-map" +:+ dq +:+ ",";
      "  ...";
      "};" ]);
  mkSnippet "webpack/loaders-optimizations/webpack.config.js" 200 (lines [
      "const element = document.createElement(" +:+ dq +:+ "h1" +:+ dq +:+ ");";
      EmptyString;
      "element.innerHTML = " +:+ dq +:+ "Welcome" +:+ dq +:+ ";";
      EmptyString;
      "document.body.appendChild(element);" ]);
  mkSnippet "webpack/loaders-optimizations/webpack.config.js" 212 (lines [
      "...";
      "module.exports = {";
      "  ...";
      "  devServer: {";
      "    static: './dist',";
      "  },";
      "  ...";
      "};" ]);
  mkSnippet "webpack/loaders-optimizations/webpack.config.js" 225 (lines [
      "npm install --save-dev webpack-dev-server" ]);
  mkSnippet "webpack/loaders-optimizations/webpack.config.js" 231 (lines [
      "npx webpack serve --open" ]);
  mkSnippet "webpack/loaders-optimizations/webpack.config.js" 255 (lines [
      "npm install react react-dom --save-dev" ]);
  mkSnippet "webpack/loaders-optimizations/webpack.config.js" 264 (lines [
      "import ReactDOM from 'react-dom';";
      EmptyString;
      "const Welcome = () => {";
      "  return <h1>Welcome</h1>;";
      "};";
      EmptyString;
      "const mountingNode = document.querySelector(" +:+ dq +:+ "#root" +:+ dq +:+ ");";
      EmptyString;
      "ReactDOM.render(<Welcome />, mountingNode);" ]);
  mkSnippet "webpack/loaders-optimizations/webpack.config.js" 278 (lines [
      "<!DOCTYPE html>";
      "<html>";
      "  <head>";
      "    <meta charset=" +:+ dq +:+ "UTF-8" +:+ dq +:+ " />";
      "    <title>Webpack Example</title>";
      "  </head>";
      "  <body>";
      "    <div id=" +:+ dq +:+ "root" +:+ dq +:+ "></div>";
      "  </body>";
      "</html>" ]);
  mkSnippet "webpack/loaders-optimizations/webpack.config.js" 292 (lines [
      "npm install babel-loader @babel/core @babel/preset-env @babel/preset-react --save-dev" ]);
  mkSnippet "webpack/loaders-optimizations/webpack.config.js" 303 (lines [
      "...";
      "module.exports = {";
      "  entry: " +:+ dq +:+ "./src/script.jsx" +:+ dq +:+ ",";
      "  ...";
      "  module: {";
      "    rules: [";
      "      {";
      "        test: /\.m?jsx$/,";
      "        exclude: /(node_modules|bower_components)/,";
      "        use: {";
      "          loader: " +:+ dq +:+ "babel-loader" +:+ dq +:+ ",";
      "          options: {";
      "            presets: [";
      "              " +:+ dq +:+ "@babel/preset-env" +:+ dq +:+ ",";
      "              [" +:+ dq +:+ "@babel/preset-react" +:+ dq +:+ ", { runtime: " +:+ dq +:+ "automatic" +:+ dq +:+ " }],";
      "            ],";
      "          },";
      "        },";
      "      },";
      "    ],";
      "  },";
      "  optimization: {";
      "    nodeEnv: 'development',";
      "  },";
      "}" ]);
  mkSnippet "webpack/loaders-optimizations/webpack.config.js" 359 (lines [
      "npm install typescript --save-dev" ]);
  mkSnippet "webpack/loaders-optimizations/webpack.config.js" 365 (lines [
      "npx tsc --init" ]);
  mkSnippet "webpack/loaders-optimizations/webpack.config.js" 376 (lines [
      "import ReactDOM from 'react-dom';";
      EmptyString;
      "const x: number = 5; // <-- NEW";
      EmptyString;
      "const Welcome = () => {";
      "  return <h1>Welcome</h1>;";
      "};";
      EmptyString;
      "const mountingNode = document.querySelector(" +:+ dq +:+ "#root" +:+ dq +:+ ");";
      EmptyString;
      "ReactDOM.render(<Welcome />, mountingNode);" ]);
  mkSnippet "webpack/loaders-optimizations/webpack.config.js" 398 (lines [
      "npm install @types/react-dom --save-dev" ]);
  mkSnippet "webpack/loaders-optimizations/webpack.config.js" 411 (lines [
      "{";
      "  " +:+ dq +:+ "compilerOptions" +:+ dq +:+ ": {";
      "    ...";
      "    " +:+ dq +:+ "jsx" +:+ dq +:+ ": " +:+ dq +:+ "preserve" +:+ dq +:+ ",";
      "    ...";
      "  }";
      "}" ]);
  mkSnippet "webpack/loaders-optimizations/webpack.config.js" 443 (lines [
      "npm install ts-loader --save-dev" ]);
  mkSnippet "webpack/loaders-optimizations/webpack.config.js" 449 (lines [
      "...";
      "module.exports = {";
      "  entry: " +:+ dq +:+ "./src/script.tsx" +:+ dq +:+ ", // <-- NEW";
      "  ...";
      "  module: {";
      "    rules: [";
      "      {";
      "        test: /\.m?jsx$/,";
      "        exclude: /(node_modules|bower_components)/,";
      "        use: {";
      "          loader: " +:+ dq +:+ "babel-loader" +:+ dq +:+ ",";
      "          options: {";
      "            presets: [";
      "              " +:+ dq +:+ "@babel/preset-env" +:+ dq +:+ ",";
      "              [" +:+ dq +:+ "@babel/preset-react" +:+ dq +:+ ", { runtime: " +:+ dq +:+ "automatic" +:+ dq +:+ " }],";
      "            ],";
      "          },";
      "        },";
      "      },";
      "      { test: /\.tsx?$/, use: " +:+ dq +:+ "ts-loader" +:+ dq +:+ " }, // <-- NEW";
      "    ],";
      "  },";
      "  ...";
      "};" ]);
  mkSnippet "webpack/loaders-optimizations/webpack.config.js" 485 (lines [
      "...";
      "const x: number = 'this is a string';";
      "..." ]);
  mkSnippet "webpack/loaders-optimizations/webpack.config.js" 493 (lines [
      "Type 'string' is not assignable to type 'number'" ]);
  mkSnippet "webpack/loaders-optimizations/webpack.config.js" 502 (lines [
      "npm install @babel/preset-typescript --save-dev" ]);
  mkSnippet "webpack/loaders-optimizations/webpack.config.js" 509 (lines [
      "...";
      "module.exports = {";
      "  entry: " +:+ dq +:+ "./src/script.tsx" +:+ dq +:+ ",";
      "  ...";
      "  module: {";
      "    rules: [";
      "      {";
      "        test: /\.m?[jt]sx$/, // <-- NEW";
      "        exclude: /(node_modules|bower_components)/,";
      "        use: {";
      "          loader: " +:+ dq +:+ "babel-loader" +:+ dq +:+ ",";
      "          options: {";
      "            presets: [";
      "              " +:+ dq +:+ "@babel/preset-env" +:+ dq +:+ ",";
      "              [" +:+ dq +:+ "@babel/preset-react" +:+ dq +:+ ", { runtime: " +:+ dq +:+ "automatic" +:+ dq +:+ " }],";
      "              " +:+ dq +:+ "@babel/preset-typescript" +:+ dq +:+ ", // <-- NEW";
      "            ],";
      "          },";
      "        },";
      "      },";
      "      // { test: /\.tsx?$/, use: " +:+ dq +:+ "ts-loader" +:+ dq +:+ " },";
      "    ],";
      "  },";
      "  ...";
      "};" ]) ].

(** The snippets of [webpack/the-basics/README.md]. *)
Definition in_webpack_the_basics_README_md : list Snippet := [
  mkSnippet "webpack/the-basics/README.md" 44 (lines [
      "node --version";
      "> v15.5.0";
      EmptyString;
      "npm --version";
      "> 7.16.0" ]);
  mkSnippet "webpack/the-basics/README.md" 62 (lines [
      "npm init -y" ]);
  mkSnippet "webpack/the-basics/README.md" 73 (lines [
      "<!DOCTYPE html>";
      "<html lang=" +:+ dq +:+ "en" +:+ dq +:+ ">";
      "  <head>";
      "    <meta charset=" +:+ dq +:+ "UTF-8" +:+ dq +:+ " />";
      "    <meta http-equiv=" +:+ dq +:+ "X-UA-Compatible" +:+ dq +:+ " content=" +:+ dq +:+ "IE=edge" +:+ dq +:+ " />";
      "    <meta name=" +:+ dq +:+ "viewport" +:+ dq +:+ " content=" +:+ dq +:+ "width=device-width, initial-scale=1.0" +:+ dq +:+ " />";
      "    <title>Document</title>";
      "  </head>";
      "  <body></body>";
      "</html>" ]);
  mkSnippet "webpack/the-basics/README.md" 90 (lines [
      "function component() {";
      "  const element = document.createElement('div');";
      EmptyString;
      "  // Lodash, currently included via a script, is required for this line to work";
      "  element.innerHTML = _.join(['Hello', 'webpack'], ' ');";
      EmptyString;
      "  return element;";
      "}";
      EmptyString;
      "document.body.appendChild(component());" ]);
  mkSnippet "webpack/the-basics/README.md" 110 (lines [
      "npm install lodash" ]);
  mkSnippet "webpack/the-basics/README.md" 115 (lines [
      "root";
      "│   index.html";
      "|   package.json";
      "└───node_modules";
      "└───src";
      "│   │   script.js" ]);
  mkSnippet "webpack/the-basics/README.md" 127 (lines [
      "<!DOCTYPE html>";
      "<html lang=" +:+ dq +:+ "en" +:+ dq +:+ ">";
      "  <head>";
      "    <meta charset=" +:+ dq +:+ "UTF-8" +:+ dq +:+ " />";
      "    <meta http-equiv=" +:+ dq +:+ "X-UA-Compatible" +:+ dq +:+ " content=" +:+ dq +:+ "IE=edge" +:+ dq +:+ " />";
      "    <meta name=" +:+ dq +:+ "viewport" +:+ dq +:+ " content=" +:+ dq +:+ "width=device-width, initial-scale=1.0" +:+ dq +:+ " />";
      "    <title>Webpack Example</title>";
      "    <script src=" +:+ dq +:+ "node_modules/lodash/lodash.min.js" +:+ dq +:+ "></script>";
      "    <script src=" +:+ dq +:+ "src/script.js" +:+ dq +:+ " defer></script>";
      "  </head>";
      "  <body></body>";
      "</html>" ]);
  mkSnippet "webpack/the-basics/README.md" 166 (lines [
      "npm install webpack webpack-cli --save-dev" ]);
  mkSnippet "webpack/the-basics/README.md" 181 (lines [
      "const path = require(" +:+ dq +:+ "path" +:+ dq +:+ ");";
      EmptyString;
      "module.exports = {";
      "  mode: " +:+ dq +:+ "none" +:+ dq +:+ ",";
      "  entry: " +:+ dq +:+ "./src/script.js" +:+ dq +:+ ",";
      "  output: {";
      "    filename: " +:+ dq +:+ "main.js" +:+ dq +:+ ",";
      "    path: path.resolve(__dirname, " +:+ dq +:+ "dist" +:+ dq +:+ "),";
      "  },";
      "};" ]);
  mkSnippet "webpack/the-basics/README.md" 207 (lines [
      "npx webpack" ]);
  mkSnippet "webpack/the-basics/README.md" 223 (lines [
      "npm install html-webpack-plugin --save-dev" ]);
  mkSnippet "webpack/the-basics/README.md" 230 (lines [
      "const HtmlWebpackPlugin = require(" +:+ dq +:+ "html-webpack-plugin" +:+ dq +:+ "); // <-- NEW";
      "const path = require(" +:+ dq +:+ "path" +:+ dq +:+ ");";
      EmptyString;
      "module.exports = {";
      "  mode: " +:+ dq +:+ "none" +:+ dq +:+ ",";
      "  entry: " +:+ dq +:+ "./src/script.js" +:+ dq +:+ ",";
      "  output: {";
      "    filename: " +:+ dq +:+ "main.js" +:+ dq +:+ ",";
      "    path: path.resolve(__dirname, " +:+ dq +:+ "dist" +:+ dq +:+ "),";
      "  },";
      "  plugins: [";
      "    new HtmlWebpackPlugin({";
      "      filename: " +:+ dq +:+ "index.html" +:+ dq +:+ ",";
      "      template: " +:+ dq +:+ "./src/index.html" +:+ dq +:+ ",";
      "    }),";
      "  ],";
      "};" ]);
  mkSnippet "webpack/the-basics/README.md" 256 (lines [
      "<!DOCTYPE html>";
      "<html lang=" +:+ dq +:+ "en" +:+ dq +:+ ">";
      "  <head>";
      "    <meta charset=" +:+ dq +:+ "UTF-8" +:+ dq +:+ " />";
      "    <meta http-equiv=" +:+ dq +:+ "X-UA-Compatible" +:+ dq +:+ " content=" +:+ dq +:+ "IE=edge" +:+ dq +:+ " />";
      "    <meta name=" +:+ dq +:+ "viewport" +:+ dq +:+ " content=" +:+ dq +:+ "width=device-width, initial-scale=1.0" +:+ dq +:+ " />";
      "    <title>Webpack Example</title>";
      "  </head>";
      "  <body></body>";
      "</html>" ]);
  mkSnippet "webpack/the-basics/README.md" 271 (lines [
      "root";
      "|   package.json";
      "|   webpack.config.js";
      "└───node_modules";
      "└───src";
      "│   │   script.js";
      "|   |   index.html";
      "└───dist";
      "|   |   main.js" ]);
  mkSnippet "webpack/the-basics/README.md" 287 (lines [
      "...";
      "<script defer src=" +:+ dq +:+ "main.js" +:+ dq +:+ "></script>";
      "..." ]);
  mkSnippet "webpack/the-basics/README.md" 328 (lines [
      "import _ from 'lodash'; // <-- NEW";
      EmptyString;
      "function component() {";
      "    const element = document.createElement('div');";
      "  ";
      "    element.innerHTML = _.join(['Hello', 'webpack'], ' ');";
      "  ";
      "    return element;";
      "  }";
      "  ";
      "  document.body.appendChild(component());" ]);
  mkSnippet "webpack/the-basics/README.md" 372 (lines [
      "import _ from 'lodash';" ]);
  mkSnippet "webpack/the-basics/README.md" 388 (lines [
      "// NEW";
      "import join from 'lodash/join';";
      EmptyString;
      "function component() {";
      "    const element = document.createElement('div');";
      "    ";
      "    // NEW";
      "    element.innerHTML = join(['Hello', 'webpack'], ' ');";
      "  ";
      "    return element;";
      "  }";
      "  ";
      "  document.body.appendChild(component());" ]) ].

(** The snippets of [webpack/the-basics/src/script.js]. *)
Definition in_webpack_the_basics_src_script_js : list Snippet := [
  mkSnippet "webpack/the-basics/src/script.js" 1 (lines [
      "import join from 'lodash/join';";
      EmptyString;
      "function component() {";
      "    const element = document.createElement('div');";
      "  ";
      "    element.innerHTML = join(['Hello', 'webpack'], ' ');";
      "  ";
      "    return element;";
      "  }";
      "  ";
      "  document.body.appendChild(component());" ]) ].

(** The snippets of [webpack/the-basics/webpack.config.js]. *)
Definition in_webpack_the_basics_webpack_config_js : list Snippet := [
  mkSnippet "webpack/the-basics/webpack.config.js" 1 (lines [
      "const HtmlWebpackPlugin = require(" +:+ dq +:+ "html-webpack-plugin" +:+ dq +:+ "); // <-- NEW";
      "const path = require(" +:+ dq +:+ "path" +:+ dq +:+ ");";
      EmptyString;
      "module.exports = {";
      "  mode: " +:+ dq +:+ "none" +:+ dq +:+ ",";
      "  entry: " +:+ dq +:+ "./src/script.js" +:+ dq +:+ ",";
      "  output: {";
      "    filename: " +:+ dq +:+ "main.js" +:+ dq +:+ ",";
      "    path: path.resolve(__dirname, " +:+ dq +:+ "dist" +:+ dq +:+ "),";
      "  },";
      "  // NEW";
      "  plugins: [";
      "    new HtmlWebpackPlugin({";
      "      filename: " +:+ dq +:+ "index.html" +:+ dq +:+ ",";
      "      template: " +:+ dq +:+ "./src/index.html" +:+ dq +:+ ",";
      "    }),";
      "  ],";
      "};";
      EmptyString ]) ].

(** Every snippet of the repository. *)
Definition corpus : list Snippet :=
  in_babel_README_md
  ++ in_linters_README_md
  ++ in_prettier_README_md
  ++ in_react_and_jsx_script_jsx
  ++ in_unnamed_part_000
  ++ in_unnamed_part_001
  ++ in_webpack_loaders_optimizations_README_md
  ++ in_webpack_loaders_optimizations_src_script_js
  ++ in_webpack_loaders_optimizations_webpack_config_js
  ++ in_webpack_the_basics_README_md
  ++ in_webpack_the_basics_src_script_js
  ++ in_webpack_the_basics_webpack_config_js.

(** ** What a snippet mentions *)

Definition is_word_char (c : ascii) : bool :=
  let n := nat_of_ascii c in
  (Nat.leb 97 n && Nat.leb n 122) || (Nat.leb 65 n && Nat.leb n 90)
  || (Nat.leb 48 n && Nat.leb n 57) || Ascii.eqb c "_" || Ascii.eqb c "$".

Definition flush (cur : string) : list string :=
  match cur with EmptyString => [] | _ => [cur] end.

(** The identifiers, keywords and numbers of a text: its maximal runs of
    letters, digits, [_] and [$]. *)
Fixpoint scan (s : string) (cur : string) : list string :=
  match s with
  | EmptyString => flush cur
  | String c s' =>
      if is_word_char c then scan s' (cur +:+ String c EmptyString)
      else flush cur ++ scan s' EmptyString
  end.

Definition words (t : string) : list string := scan t EmptyString.

Fixpoint contains (needle hay : string) : bool :=
  String.prefix needle hay
  || match hay with
     | EmptyString => false
     | String _ hay' => contains needle hay'
     end.

Definition mentions (vocabulary : list string) (s : Snippet) : bool :=
  existsb (fun w => existsb (String.eqb w) vocabulary) (words (text s)).

(** Work that finishes after the statement that starts it: timers,
    requests, promises and their continuations, and the dynamic
    [import(...)].  The [defer] attribute of an HTML [script] tag is
    markup for the browser's loader, not an operation of a snippet. *)
Definition asynchronous_words : list string := [
  "setTimeout"; "setInterval"; "setImmediate"; "requestAnimationFrame";
  "requestIdleCallback"; "queueMicrotask"; "nextTick"; "fetch";
  "XMLHttpRequest"; "Promise"; "async"; "await"; "then" ].

Definition starts_deferred_work (s : Snippet) : bool :=
  contains "import(" (text s) || mentions asynchronous_words s.

(** Threads and processes, and memory shared between them. *)
Definition concurrency_words : list string := [
  "Worker"; "SharedWorker"; "ServiceWorker"; "serviceWorker";
  "worker_threads"; "child_process"; "cluster"; "fork"; "spawn"; "exec";
  "postMessage"; "onmessage"; "SharedArrayBuffer"; "Atomics" ].

(** Trying again, and holding a producer back. *)
Definition retry_words : list string := [
  "retry"; "retries"; "attempt"; "attempts"; "backoff"; "throttle";
  "debounce"; "highWaterMark"; "drain"; "pause"; "resume" ].

(** Calling off work that has been started. *)
Definition cancellation_words : list string := [
  "AbortController"; "AbortSignal"; "abort"; "signal"; "cancel";
  "clearTimeout"; "clearInterval"; "clearImmediate";
  "cancelAnimationFrame"; "cancelIdleCallback" ].


Definition places (ss : list Snippet) : list (string * nat) :=
  map (fun s => (file s, line s)) ss.

End Corpus.

(** * Properties *)

(** ** webpack configurations *)

Section WebpackConfigs.
Import Webpack.
Variable dir : string.

(** The keys of the [entry] object of the multi-entry configuration. *)
Lemma loaders_entry_keys :
  entry_keys (LoadersOptimizations.module_exports dir) = ["script"; "page2"; "shared"].
Proof. reflexivity. Qed.

(** C5, as stated, does not hold: it is not the case that every
    configuration file specifies entry, output file name and path, loader
    rules with a file-extension test, a plugin list and optimization
    flags.  The configuration of the-basics is the exception. *)
Lemma not_every_config_specifies_all :
  ~ (forall (d : string) (c : Config),
        In c (all_configs d) -> specifies_all c = true).
Proof.
  intros H.
  specialize (H "/project" (TheBasics.module_exports "/project")).
  assert (Hin : In (TheBasics.module_exports "/project") (all_configs "/project"))
    by (left; reflexivity).
  apply H in Hin. vm_compute in Hin. discriminate Hin.
Qed.

(** C5, amended: each of the three configuration files specifies its
    entry point(s), an output file name and path, and a plugin list; the
    loaders-optimizations and DevServer configurations also specify loader
    rules, each tested by a file-extension regular expression, and
    optimization flags, while the-basics has neither a [module] nor an
    [optimization] key. *)
Theorem configs_specify_entry_output_plugins :
  Forall (fun c => specifies_entry c = true
                   /\ specifies_output c = true
                   /\ specifies_plugins c = true) (all_configs dir)
  /\ specifies_all (LoadersOptimizations.module_exports dir) = true
  /\ specifies_all (DevServer.module_exports dir) = true
  /\ module_rules (TheBasics.module_exports dir) = None
  /\ optimization (TheBasics.module_exports dir) = None.
Proof.
  split.
  - unfold all_configs. repeat constructor.
  - repeat split; reflexivity.
Qed.

(** C10: in the multi-entry configuration every [dependOn] is ["shared"],
    which is a key of the same [entry] object, and every chunk listed by
    the two HtmlWebpackPlugin instances (script, shared, page2, shared) is
    an entry key. *)
Theorem loaders_entry_references_resolve :
  let c := LoadersOptimizations.module_exports dir in
  entry_dependencies c = [("script", "shared"); ("page2", "shared")]
  /\ Forall (fun kd => In (snd kd) (entry_keys c)) (entry_dependencies c)
  /\ config_chunks c = ["script"; "shared"; "page2"; "shared"]
  /\ Forall (fun ch => In ch (entry_keys c)) (config_chunks c).
Proof.
  cbv zeta. split; [reflexivity|]. split.
  - repeat constructor; cbn; tauto.
  - split; [reflexivity|]. repeat constructor; cbn; tauto.
Qed.

End WebpackConfigs.

(** ** The Prettier example *)

Section PrettierExample.
Import Prettier.

(** Both texts read as the same three statements. *)
Lemma script_js_parses :
  parse script_js = Some [
    SExpr (ECall (EMember (EVar "console") "log") [EStr "hello world"]);
    SIf (EBool true)
      [SExpr (ECall (EMember (EVar "console") "log") [EStr "this always runs"])];
    SConst "exampleArray"
      (EArray (map ENum [1; 2; 3; 4; 5; 6; 7; 8; 9; 10])) ].
Proof. vm_compute. reflexivity. Qed.

Lemma script_js_formatted_parses :
  parse script_js_formatted = parse script_js.
Proof. vm_compute. reflexivity. Qed.

(** C2: the example program and the formatter's output behave alike.
    From every state both give the same result, and in a page that has
    declared nothing they print "hello world" and then "this always runs"
    after whatever the console showed, and bind [exampleArray] to the
    array of 1 to 10. *)
Theorem formatting_preserves_behaviour :
  (forall st : State, run script_js_formatted st = run script_js st)
  /\ (forall shown : list string,
        run script_js (fresh shown)
        = Some {| console := shown ++ ["hello world"; "this always runs"];
                  bindings := [("exampleArray",
                                VArray (map VNum [1; 2; 3; 4; 5; 6; 7; 8; 9; 10]))] |})
  /\ (forall shown : list string,
        run script_js_formatted (fresh shown)
        = Some {| console := shown ++ ["hello world"; "this always runs"];
                  bindings := [("exampleArray",
                                VArray (map VNum [1; 2; 3; 4; 5; 6; 7; 8; 9; 10]))] |}).
Proof.
  assert (Hrun : forall shown : list string,
        run script_js (fresh shown)
        = Some {| console := shown ++ ["hello world"; "this always runs"];
                  bindings := [("exampleArray",
                                VArray (map VNum [1; 2; 3; 4; 5; 6; 7; 8; 9; 10]))] |}).
  { intros shown. unfold run. rewrite script_js_parses.
    cbn. rewrite <- app_assoc. reflexivity. }
  split; [|split].
  - intros st. unfold run. rewrite script_js_formatted_parses. reflexivity.
  - exact Hrun.
  - intros shown. unfold run. rewrite script_js_formatted_parses. apply Hrun.
Qed.

(** [*] followed by a suffix matches every name ending in that suffix. *)
Lemma glob_star_suffix (q name : list ascii) :
  glob q q = true -> glob ("*"%char :: q) (name ++ q) = true.
Proof.
  intros Hq. cbn [glob]. rewrite Ascii.eqb_refl.
  induction name as [|c name IH]; cbn [app].
  - destruct q; rewrite Hq; reflexivity.
  - rewrite IH. apply orb_true_r.
Qed.

Lemma list_ascii_of_string_app (s1 s2 : string) :
  list_ascii_of_string (s1 +:+ s2)
  = list_ascii_of_string s1 ++ list_ascii_of_string s2.
Proof.
  induction s1 as [|c s1 IH]; [reflexivity|].
  change (c :: list_ascii_of_string (s1 +:+ s2)
          = c :: (list_ascii_of_string s1 ++ list_ascii_of_string s2)).
  now f_equal.
Qed.

(** A path ending in [.css] has a component that [*.css] matches. *)
Lemma css_component_matches (p cur : list ascii) :
  existsb (glob (list_ascii_of_string "*.css"))
          (components (p ++ list_ascii_of_string ".css") cur) = true.
Proof.
  revert cur. induction p as [|c p IH]; intros cur.
  - cbn [app list_ascii_of_string components Ascii.eqb Bool.eqb existsb].
    cbn [Ascii.eqb Bool.eqb andb].
    rewrite orb_false_r, <- !app_assoc.
    apply (glob_star_suffix (list_ascii_of_string ".css") cur). reflexivity.
  - cbn [app components]. destruct (Ascii.eqb c "/").
    + cbn [existsb]. rewrite IH. apply orb_true_r.
    + apply IH.
Qed.

(** C6, as stated, does not hold: the configuration file sets a quote
    style and trailing commas but no line width ([printWidth]). *)
Lemma prettierrc_sets_no_line_width :
  ~ (is_Some (assoc "singleQuote" prettierrc)
     /\ is_Some (assoc "trailingComma" prettierrc)
     /\ is_Some (assoc "printWidth" prettierrc)).
Proof.
  intros (_ & _ & [v Hv]). vm_compute in Hv. discriminate Hv.
Qed.

(** C6, amended: [.prettierrc.json] sets exactly the trailing-comma
    style (es5), the indentation width (2), semicolons (on) and the quote
    style (single quotes), and no line width; the separate
    [.prettierignore] lists [build] and [*.css], which exclude everything
    under the build directory and every CSS file from formatting. *)
Theorem prettier_configuration :
  prettierrc = [ ("trailingComma", JStr "es5"); ("tabWidth", JNum 2);
                 ("semi", JBool true); ("singleQuote", JBool true) ]
  /\ assoc "singleQuote" prettierrc = Some (JBool true)
  /\ assoc "trailingComma" prettierrc = Some (JStr "es5")
  /\ assoc "tabWidth" prettierrc = Some (JNum 2)
  /\ assoc "printWidth" prettierrc = None
  /\ prettierignore = ["build"; "*.css"]
  /\ (forall rest : string, ignored ("build/" +:+ rest) = true)
  /\ (forall path : string, ignored (path +:+ ".css") = true)
  /\ ignored "script.js" = false.
Proof.
  do 6 (split; [reflexivity|]).
  split; [|split; [|reflexivity]].
  - intros rest. unfold ignored, prettierignore. cbn [existsb].
    apply orb_true_iff. left. unfold ignored_by. reflexivity.
  - intros path. unfold ignored, prettierignore. cbn [existsb].
    apply orb_true_iff. right. rewrite orb_false_r. unfold ignored_by.
    rewrite list_ascii_of_string_app. apply css_component_matches.
Qed.

End PrettierExample.

(** ** Scripts and events in the browser *)

Import Browser Events.

Ltac unfold_js :=
  unfold mbind, JS_mbind, JS_bind, mret, JS_mret, JS_ret, throw in *.

(** *** Properties kept by every step *)

Section Keeps.
Variable P : State -> State -> Prop.
Hypothesis P_refl : forall b, P b b.
Hypothesis P_trans : forall b1 b2 b3, P b1 b2 -> P b2 b3 -> P b1 b3.

Lemma keeps_ret {A : Type} (a : A) : keeps P (mret a).
Proof. intros b. apply P_refl. Qed.

Lemma keeps_throw {A : Type} (e : string) : keeps P (@throw A e).
Proof. intros b. apply P_refl. Qed.

Lemma keeps_bind {A B : Type} (m : JS A) (f : A -> JS B) :
  keeps P m -> (forall a, keeps P (f a)) -> keeps P (m ≫= f).
Proof.
  intros Hm Hf b. unfold_js. specialize (Hm b).
  destruct (m b) as [a b'|e b']; cbn in *.
  - eapply P_trans; [exact Hm|]. apply Hf.
  - exact Hm.
Qed.

(** The state changes the scripts' functions can make. *)
Hypothesis P_hooks : forall b i, P b (set_hooks (<[i := true]> (hooks b)) b).
Hypothesis P_console : forall b v, P b (set_console v b).
Hypothesis P_requests : forall b v, P b (set_requests v b).
Hypothesis P_modules : forall b v, P b (set_modules v b).
Hypothesis P_jobs_grow : forall b j, P b (set_jobs (jobs b ++ [j]) b).
Hypothesis P_jobs_react : forall b p j f,
  jobs b !! p = Some j ->
  P b (set_jobs (<[p := mkImport (specifier j) (reactions j ++ [f])]> (jobs b)) b).

Lemma keeps_console_log (line : string) : keeps P (console_log line).
Proof. intros b. apply P_console. Qed.

Lemma keeps_onClick_body (setLiked : Setter) : keeps P (ReactJsx.onClick_body setLiked).
Proof. intros b. destruct setLiked as [i]. apply P_hooks. Qed.

Lemma keeps_dynamic_import (spec : string) : keeps P (dynamic_import spec).
Proof.
  intros b. unfold dynamic_import. cbn [state_of].
  destruct (string_in spec (modules b) || string_in spec (map specifier (jobs b))).
  - apply P_jobs_grow.
  - eapply P_trans; [apply P_requests|].
    apply (P_jobs_grow (set_requests (requests b ++ [spec]) b)).
Qed.

Lemma keeps_promise_then (p : nat) (f : Closure) : keeps P (promise_then p f).
Proof.
  intros b. unfold promise_then.
  destruct (jobs b !! p) as [j|] eqn:Hj; cbn [state_of].
  - now apply P_jobs_react.
  - apply P_refl.
Qed.

Lemma keeps_onclick_body : keeps P LoadersScript.onclick_body.
Proof.
  apply keeps_bind; [apply keeps_dynamic_import|].
  intros p. apply keeps_promise_then.
Qed.

Lemma keeps_then_body (m : LoadersScript.Module_) : keeps P (LoadersScript.then_body m).
Proof. apply keeps_console_log. Qed.

Lemma keeps_call (f : Closure) (arg : Argument) : keeps P (call f arg).
Proof.
  destruct f; cbn [call].
  - apply keeps_onClick_body.
  - apply keeps_onclick_body.
  - destruct arg; [apply keeps_throw | apply keeps_then_body].
Qed.

Lemma keeps_call_all (fs : list Closure) (arg : Argument) : keeps P (call_all fs arg).
Proof.
  induction fs as [|f fs IH]; cbn [call_all].
  - apply keeps_ret.
  - apply keeps_bind; [apply keeps_call | intros _; exact IH].
Qed.

Lemma keeps_useState (self : nat) (initial : bool) : keeps P (React_useState self initial).
Proof. intros b. apply P_refl. Qed.

Lemma keeps_LikeButton (self : nat) : keeps P (ReactJsx.LikeButton self).
Proof.
  apply keeps_bind; [apply keeps_useState|].
  intros [[|] setLiked]; apply keeps_ret.
Qed.

Lemma keeps_ManyButtons : keeps P ReactJsx.ManyButtons.
Proof. apply keeps_ret. Qed.

Lemma keeps_mounted_keys : keeps P mounted_keys.
Proof.
  intros b. unfold mounted_keys.
  destruct (mounted b) as [[[ | |c key] node]|]; try apply P_refl.
  revert b. change (keeps P (root ← render_component c key;
                             mret (omap key_of (children_of root)))).
  apply keeps_bind; [|intros; apply keeps_ret].
  destruct c; [apply keeps_LikeButton | apply keeps_ManyButtons].
Qed.

Hypothesis P_jobs_settle : forall b p, P b (set_jobs (delete p (jobs b)) b).
Hypothesis P_uncaught : forall b v, P b (set_uncaught v b).

Lemma keeps_evaluate_module (spec : string) (body : JS unit) :
  keeps P body -> keeps P (evaluate_module spec body).
Proof.
  intros Hbody b. unfold evaluate_module.
  destruct (string_in spec (modules b)); [apply P_refl|].
  eapply P_trans; [apply P_modules|]. apply Hbody.
Qed.

Lemma keeps_handle (ev : Event) : keeps P (handle ev).
Proof.
  destruct ev as [key|index|p|p]; cbn [handle].
  - apply keeps_bind; [apply keeps_mounted_keys|]. intros keys.
    destruct (bool_decide (key ∈ keys)); [|apply keeps_ret].
    apply keeps_bind; [apply keeps_LikeButton|]. intros shown.
    destruct (prop "onClick" shown) as [[ | |f]|];
      try apply keeps_ret. apply keeps_call.
  - intros b. destruct (elements b !! index) as [e|]; [|apply P_refl].
    destruct (onclick e) as [f|]; [apply keeps_call | apply P_refl].
  - intros b. destruct (jobs b !! p) as [j|]; [|apply P_refl].
    eapply P_trans; [apply (P_jobs_settle b p)|].
    destruct (find_module (specifier j)) as [[body m]|] eqn:Hfind;
      [|apply P_refl].
    apply (keeps_bind (evaluate_module (specifier j) body)).
    + apply keeps_evaluate_module. unfold find_module in Hfind.
      destruct (String.eqb (specifier j) "./lazy-module"); [|discriminate].
      injection Hfind as <- _. apply keeps_console_log.
    + intros _. apply keeps_call_all.
  - intros b. destruct (jobs b !! p) as [j|]; [|apply P_refl].
    apply P_jobs_settle.
Qed.

Lemma settle_keeps (b : State) (r : Result unit) :
  P b (state_of r) -> P b (settle r).
Proof.
  destruct r as [[] b'|e b']; cbn; [tauto|].
  intros H. eapply P_trans; [exact H|]. apply P_uncaught.
Qed.

Lemma dispatch_keeps (b : State) (ev : Event) : P b (dispatch b ev).
Proof. apply settle_keeps, keeps_handle. Qed.

Lemma dispatch_all_keeps (evs : list Event) (b : State) :
  P b (dispatch_all evs b).
Proof.
  revert b. induction evs as [|ev evs IH]; intros b; cbn.
  - apply P_refl.
  - eapply P_trans; [apply (dispatch_keeps b ev)|]. apply IH.
Qed.

End Keeps.

(** *** The like button *)

Lemma ManyButtons_children :
  Array_map (fun (_ : unit) index => Custom C_LikeButton (Some index)) (new_Array 500)
  = map (fun index => Custom C_LikeButton (Some index)) (seq 0 500).
Proof. vm_compute. reflexivity. Qed.

Lemma ManyButtons_keys :
  omap key_of (map (fun index => Custom C_LikeButton (Some index)) (seq 0 500))
  = seq 0 500.
Proof. vm_compute. reflexivity. Qed.

Lemma mounted_keys_ManyButtons (b : State) (key : option nat) (node : DomElement) :
  mounted b = Some (Custom C_ManyButtons key, node) ->
  mounted_keys b = Ok (seq 0 500) b.
Proof.
  intros Hm. unfold mounted_keys. rewrite Hm.
  cbn [render_component]. unfold ReactJsx.ManyButtons. unfold_js.
  cbn [children_of]. now rewrite ManyButtons_children, ManyButtons_keys.
Qed.

Lemma LikeButton_runs (self : nat) (b : State) :
  ReactJsx.LikeButton self b
  = Ok (if liked self b
        then Host "span"
               [("style", PStyle [("width", "150px"); ("height", "25px")])]
               [Text "Liked! 👍"]
        else Host "button"
               [("style", PStyle [("width", "150px"); ("height", "25px")]);
                ("className", PString "like-button");
                ("onClick", PFunction (LikeButton_onClick (SetterOf self)))]
               [Text "Click to like!"]) b.
Proof.
  unfold ReactJsx.LikeButton, React_useState, liked. unfold_js.
  destruct (hooks b !! self) as [[|]|]; reflexivity.
Qed.

(** A click on a like button changes nothing or sets that button's cell,
    which was false, to true. *)
Lemma click_like_flips (key : nat) (b : State) :
  dispatch b (ClickLike key) = b
  \/ (liked key b = false
      /\ dispatch b (ClickLike key) = set_hooks (<[key := true]> (hooks b)) b).
Proof.
  unfold dispatch. cbn [handle]. unfold_js.
  destruct (mounted_keys b) as [keys b'|e b'] eqn:Hkeys.
  - assert (b' = b) as ->.
    { unfold mounted_keys in Hkeys.
      destruct (mounted b) as [[[ | |c k] node]|]; try (now inversion Hkeys).
      unfold_js. destruct c; cbn [render_component] in Hkeys.
      - rewrite LikeButton_runs in Hkeys. now inversion Hkeys.
      - unfold ReactJsx.ManyButtons in Hkeys. unfold_js. now inversion Hkeys. }
    destruct (bool_decide (key ∈ keys)); [|now left].
    rewrite LikeButton_runs. destruct (liked key b) eqn:Hliked.
    + now left.
    + right. split; reflexivity.
  - exfalso. unfold mounted_keys in Hkeys.
    destruct (mounted b) as [[[ | |c k] node]|]; try discriminate.
    unfold_js. destruct c; cbn [render_component] in Hkeys.
    + now rewrite LikeButton_runs in Hkeys.
    + unfold ReactJsx.ManyButtons in Hkeys. unfold_js. discriminate.
Qed.

(** C1: a like button shows one of two fixed elements, chosen by its
    [liked] boolean alone: the button labelled "Click to like!" while it
    is false, the span labelled "Liked! 👍" once it is true.  Rendering
    leaves the page as it is; the span has no click handler; the button's
    handler sets [liked] to true and changes nothing else, so a click
    either changes nothing or flips this one boolean, and storage, the
    requests sent and the pending imports stay as they were. *)
Theorem like_button_two_states (self : nat) (b : State) :
  let style := ("style", PStyle [("width", "150px"); ("height", "25px")]) in
  let button :=
    Host "button"
      [style; ("className", PString "like-button");
       ("onClick", PFunction (LikeButton_onClick (SetterOf self)))]
      [Text "Click to like!"] in
  let span := Host "span" [style] [Text "Liked! 👍"] in
  ReactJsx.LikeButton self b = Ok (if liked self b then span else button) b
  /\ button <> span
  /\ prop "onClick" span = None
  /\ call (LikeButton_onClick (SetterOf self)) AEvent b
     = Ok tt (set_hooks (<[self := true]> (hooks b)) b)
  /\ (dispatch b (ClickLike self) = b
      \/ (liked self b = false
          /\ dispatch b (ClickLike self)
             = set_hooks (<[self := true]> (hooks b)) b))
  /\ localStorage (dispatch b (ClickLike self)) = localStorage b
  /\ requests (dispatch b (ClickLike self)) = requests b
  /\ jobs (dispatch b (ClickLike self)) = jobs b.
Proof.
  cbv zeta. split; [apply LikeButton_runs|].
  split; [discriminate|].
  split; [reflexivity|]. split; [reflexivity|].
  split; [apply click_like_flips|].
  destruct (click_like_flips self b) as [->|[_ ->]]; repeat split.
Qed.

(** *** Mounting *)

Lemma script_runs (b : State) :
  ReactJsx.script b
  = ReactDOM_render (Custom C_ManyButtons None)
      (find (selects "#app") (elements b))
      (set_calls (calls b ++ [QuerySelector "#app"]) b).
Proof. reflexivity. Qed.

Lemma events_make_no_call (ev : Event) (b : State) :
  calls (dispatch b ev) = calls b.
Proof.
  apply (dispatch_keeps (fun b b' => calls b' = calls b)); intros; try reflexivity.
  congruence.
Qed.

(** C4: the script calls [ReactDOM.render] once, with the whole
    [<ManyButtons />] tree and the node that its one
    [document.querySelector("#app")], made first, returned; when that node
    exists the tree is mounted on it.  Rendering [LikeButton] or
    [ManyButtons] and handling any event add no further DOM query or
    render call. *)
Theorem script_queries_once_renders_once (b : State) :
  let container := find (selects "#app") (elements b) in
  calls (load ReactJsx.script b)
  = calls b ++ [QuerySelector "#app";
                Render (Custom C_ManyButtons None) container]
  /\ mounted (load ReactJsx.script b)
     = match container with
       | Some node => Some (Custom C_ManyButtons None, node)
       | None => mounted b
       end
  /\ (forall (self : nat) (b' : State),
        calls (state_of (ReactJsx.LikeButton self b')) = calls b')
  /\ (forall b' : State, calls (state_of (ReactJsx.ManyButtons b')) = calls b')
  /\ (forall (evs : list Event) (b' : State),
        calls (dispatch_all evs b') = calls b').
Proof.
  cbv zeta. unfold load. rewrite script_runs. unfold ReactDOM_render.
  destruct (find (selects "#app") (elements b)) as [node|];
    cbn [settle calls mounted set_calls set_mounted set_uncaught];
    rewrite <- app_assoc.
  all: split; [reflexivity|]; split; [reflexivity|].
  all: split; [intros self b'; now rewrite LikeButton_runs|].
  all: split; [reflexivity|].
  all: intros evs b';
    apply (dispatch_all_keeps (fun b b' => calls b' = calls b));
    intros; try reflexivity; congruence.
Qed.


(** *** Many buttons *)

Lemma liked_after_set (key i : nat) (b : State) :
  liked key (set_hooks (<[i := true]> (hooks b)) b)
  = if decide (i = key) then true else liked key b.
Proof.
  unfold liked. cbn [hooks set_hooks]. rewrite lookup_insert.
  now destruct (decide (i = key)).
Qed.

(** C8: [ManyButtons] returns one [div] whose children are exactly 500
    [LikeButton] elements with keys 0, 1, ..., 499 in this order; once
    mounted, a click on the button with key [k] likes that button and
    leaves the liked state of every other button as it was. *)
Theorem many_buttons_are_independent
    (b : State) (node : DomElement) (k j : nat)
    (Hmounted : mounted b = Some (Custom C_ManyButtons None, node))
    (Hk : k < 500) (Hj : j <> k) :
  let root :=
    Host "div"
      [("style", PStyle [("display", "flex"); ("flexDirection", "row");
                         ("flexWrap", "wrap")])]
      (map (fun index => Custom C_LikeButton (Some index)) (seq 0 500)) in
  ReactJsx.ManyButtons b = Ok root b
  /\ length (children_of root) = 500
  /\ omap key_of (children_of root) = seq 0 500
  /\ mounted_keys b = Ok (seq 0 500) b
  /\ liked k (dispatch b (ClickLike k)) = true
  /\ liked j (dispatch b (ClickLike k)) = liked j b.
Proof.
  cbv zeta. cbn [children_of]. split.
  { unfold ReactJsx.ManyButtons. unfold_js. now rewrite ManyButtons_children. }
  split; [now rewrite length_map, length_seq|].
  split; [apply ManyButtons_keys|].
  split; [now apply mounted_keys_ManyButtons with (key := None) (node := node)|].
  split.
  - unfold dispatch. cbn [handle]. unfold_js.
    rewrite (mounted_keys_ManyButtons b None node Hmounted).
    rewrite bool_decide_true by (apply elem_of_seq; lia).
    rewrite LikeButton_runs. destruct (liked k b) eqn:Hliked.
    + exact Hliked.
    + cbn [prop assoc String.eqb Ascii.eqb Bool.eqb call ReactJsx.onClick_body
           call_setter settle].
      rewrite liked_after_set. now destruct (decide (k = k)).
  - destruct (click_like_flips k b) as [->|[_ ->]]; [reflexivity|].
    rewrite liked_after_set. destruct (decide (k = j)); congruence.
Qed.

(** The theorem at the page [<div id=app>] after the script has run, for
    the buttons with keys 3 and 4. *)
Lemma many_buttons_witness :
  let b := load ReactJsx.script
             (page [mkDomElement "div" "app" EmptyString EmptyString EmptyString None]) in
  liked 3 (dispatch b (ClickLike 3)) = true
  /\ liked 4 (dispatch b (ClickLike 3)) = liked 4 b.
Proof.
  cbv zeta.
  exact (proj2 (proj2 (proj2 (proj2
    (many_buttons_are_independent
       (load ReactJsx.script
          (page [mkDomElement "div" "app" EmptyString EmptyString EmptyString None]))
       (mkDomElement "div" "app" EmptyString EmptyString EmptyString None)
       3 4 eq_refl ltac:(lia) ltac:(lia)))))).
Defined.

(** C9: whatever events follow, a like button that is liked stays liked:
    no handler ever sets the cell back to false. *)
Theorem liked_is_never_undone (evs : list Event) (b : State) (key : nat) :
  liked key b = true -> liked key (dispatch_all evs b) = true.
Proof.
  revert key.
  apply (dispatch_all_keeps
           (fun b b' => forall key, liked key b = true -> liked key b' = true));
    try (intros; assumption).
  - intros b1 b2 b3 H12 H23 key Hkey. auto.
  - intros b0 i key Hkey. rewrite liked_after_set.
    now destruct (decide (i = key)).
Qed.

(** The theorem for button 7, liked by a first click, under four more
    events. *)
Lemma liked_is_never_undone_witness :
  let b := load ReactJsx.script
             (page [mkDomElement "div" "app" EmptyString EmptyString EmptyString None]) in
  liked 7 (dispatch_all [ClickLike 7; ClickElement 0; ClickLike 8; ImportFailed 0]
             (dispatch b (ClickLike 7))) = true.
Proof.
  cbv zeta.
  apply (liked_is_never_undone
           [ClickLike 7; ClickElement 0; ClickLike 8; ImportFailed 0]).
  vm_compute. reflexivity.
Defined.

(** *** What is deferred *)

Lemma quiet_dispatch (ev : Event) (b : State) :
  jobs b = [] -> static (elements b) ->
  jobs (dispatch b ev) = [] /\ elements (dispatch b ev) = elements b.
Proof.
  intros Hjobs Hstatic. destruct ev as [key|index|p|p].
  - destruct (click_like_flips key b) as [->|[_ ->]]; now split.
  - unfold dispatch. cbn [handle].
    destruct (elements b !! index) as [e|] eqn:He; [|now split].
    unfold static in Hstatic. rewrite Forall_lookup in Hstatic.
    rewrite (Hstatic _ _ He). now split.
  - unfold dispatch. cbn [handle]. rewrite Hjobs. now split.
  - unfold dispatch. cbn [handle]. rewrite Hjobs. now split.
Qed.

Lemma quiet_dispatch_all (evs : list Event) (b : State) :
  jobs b = [] -> static (elements b) ->
  jobs (dispatch_all evs b) = [].
Proof.
  revert b. induction evs as [|ev evs IH]; intros b Hjobs Hstatic; cbn.
  - exact Hjobs.
  - destruct (quiet_dispatch ev b Hjobs Hstatic) as [Hj He].
    apply IH; [exact Hj | now rewrite He].
Qed.

(** C3, as stated, does not hold: after the loaders-optimizations script
    has run in an empty page, a click on its button leaves a dynamic
    import pending. *)
Lemma lazy_button_defers_work :
  ~ (forall (script : JS unit) (els : list DomElement) (evs : list Event),
        In script (scripts "mushroom.jpg") -> static els ->
        jobs (dispatch_all evs (load script (page els))) = []).
Proof.
  intros H.
  specialize (H (LoadersScript.script "mushroom.jpg") [] [ClickElement 2]).
  assert (Hin : In (LoadersScript.script "mushroom.jpg") (scripts "mushroom.jpg"))
    by (right; left; reflexivity).
  specialize (H Hin (List.Forall_nil _)). vm_compute in H. discriminate H.
Qed.

Lemma click_keeps_pending_imports (f : Closure) (arg : Argument) (b : State) :
  map specifier (jobs b) `prefix_of` map specifier (jobs (state_of (call f arg b))).
Proof.
  apply (keeps_call
           (fun b b' => map specifier (jobs b) `prefix_of` map specifier (jobs b')));
    try (intros; reflexivity).
  - intros b1 b2 b3 H12 H23. etrans; eassumption.
  - intros b0 j. cbn [jobs set_jobs]. rewrite map_app. now apply prefix_app_r.
  - intros b0 p j g Hj. cbn [jobs set_jobs].
    rewrite list_fmap_insert. cbn [specifier].
    rewrite list_insert_id; [reflexivity|].
    now rewrite list_lookup_fmap, Hj.
Qed.

Lemma loaders_script_loads (mushroom : string) (els : list DomElement) :
  load (LoadersScript.script mushroom) (page els)
  = set_console ["funcA"]
      (page (els ++ [ mkDomElement "div" EmptyString "Hello webpack" EmptyString
                        EmptyString None;
                      mkDomElement "img" EmptyString EmptyString EmptyString
                        mushroom None;
                      mkDomElement "button" EmptyString EmptyString "Click me!"
                        EmptyString (Some buttonComponent_onclick) ])).
Proof.
  unfold load, LoadersScript.script, LoadersScript.component,
    LoadersScript.imageComponent, LoadersScript.buttonComponent,
    LoadersScript.funcA, document_createElement, document_body_appendChild,
    console_log.
  unfold_js. cbn. unfold set_console, page. cbn. now rewrite <- !app_assoc.
Qed.

Lemma loaders_button_position (els : list DomElement) (d i b : DomElement) :
  (els ++ [d; i; b]) !! (length els + 2) = Some b.
Proof.
  rewrite lookup_app_r by lia.
  now replace (length els + 2 - length els) with 2 by lia.
Qed.

Lemma delete_absent {A : Type} (l : list A) (i : nat) :
  l !! i = None -> delete i l = l.
Proof.
  revert i. induction l as [|x l IH]; intros [|i] H; cbn in *;
    try reflexivity; try discriminate.
  f_equal. now apply IH.
Qed.

Lemma loaders_button_clicked (els : list DomElement) (d i : DomElement) :
  let b := set_console ["funcA"]
             (page (els ++ [ d; i;
                             mkDomElement "button" EmptyString EmptyString
                               "Click me!" EmptyString
                               (Some buttonComponent_onclick) ])) in
  dispatch b (ClickElement (length els + 2))
  = set_jobs [mkImport "./lazy-module" [buttonComponent_then]]
      (set_requests ["./lazy-module"] b).
Proof.
  cbv zeta. unfold dispatch. cbn [handle elements set_console page].
  now rewrite loaders_button_position.
Qed.

(** In a page without handlers of its own, the the-basics script and the
    React script leave nothing pending, whatever events follow. *)
Lemma basics_script_defers_nothing (els : list DomElement) (evs : list Event) :
  static els ->
  jobs (dispatch_all evs (load TheBasicsScript.script (page els))) = [].
Proof.
  intros Hstatic. apply quiet_dispatch_all; [reflexivity|].
  cbn. unfold static in *. apply Forall_app. split; [exact Hstatic|].
  repeat constructor.
Qed.

Lemma react_script_defers_nothing (els : list DomElement) (evs : list Event) :
  static els ->
  jobs (dispatch_all evs (load ReactJsx.script (page els))) = [].
Proof.
  intros Hstatic. unfold load. rewrite script_runs. unfold ReactDOM_render.
  cbn [elements page set_calls].
  destruct (find (selects "#app") els); apply quiet_dispatch_all;
    try reflexivity; exact Hstatic.
Qed.

(** A failed import is dropped, a click never removes a pending import,
    and a click on a like button leaves the pending imports alone. *)
Lemma import_failed_drops_the_job (b : State) (p : nat) :
  jobs (dispatch b (ImportFailed p)) = delete p (jobs b).
Proof.
  unfold dispatch. cbn [handle].
  destruct (jobs b !! p) as [j|] eqn:Hj; cbn; [reflexivity|].
  symmetry. now apply delete_absent.
Qed.

Lemma click_element_keeps_jobs (b : State) (index : nat) :
  map specifier (jobs b)
  `prefix_of` map specifier (jobs (dispatch b (ClickElement index))).
Proof.
  unfold dispatch. cbn [handle].
  destruct (elements b !! index) as [e|]; [|reflexivity].
  destruct (onclick e) as [f|]; [|reflexivity].
  pose proof (click_keeps_pending_imports f AEvent b) as H.
  now destruct (call f AEvent b).
Qed.

Lemma click_like_keeps_jobs (b : State) (key : nat) :
  jobs (dispatch b (ClickLike key)) = jobs b.
Proof. now destruct (click_like_flips key b) as [->|[_ ->]]. Qed.

(** * Further properties of the scripts *)

(** ** Clicks on like buttons *)

(** What a click on a like button does, in closed form: it sets the cell
    of [key] when [ManyButtons] is mounted, [key] is one of its 500 keys
    and the button is not liked yet, and does nothing otherwise. *)
Lemma click_like_spec (key : nat) (b : State) :
  dispatch b (ClickLike key)
  = if match mounted b with
       | Some (Custom C_ManyButtons _, _) => Nat.ltb key 500
       | _ => false
       end && negb (liked key b)
    then set_hooks (<[key := true]> (hooks b)) b
    else b.
Proof.
  unfold dispatch. cbn [handle]. unfold_js. unfold mounted_keys.
  destruct (mounted b) as [[[ty props ch|txt|[|] k] node]|] eqn:Hm;
    try reflexivity.
  - unfold_js. cbn [render_component]. rewrite LikeButton_runs.
    destruct (liked (default 0 k) b); reflexivity.
  - unfold_js. cbn [render_component]. unfold ReactJsx.ManyButtons. unfold_js.
    cbn [children_of]. rewrite ManyButtons_children, ManyButtons_keys.
    destruct (Nat.ltb key 500) eqn:Hlt.
    + apply Nat.ltb_lt in Hlt.
      rewrite bool_decide_true by (apply elem_of_seq; lia).
      rewrite LikeButton_runs. destruct (liked key b); reflexivity.
    + apply Nat.ltb_ge in Hlt.
      rewrite bool_decide_false by (rewrite elem_of_seq; lia). reflexivity.
Qed.

(** X1: a second click on the same like button changes nothing. *)
Theorem click_like_idempotent (key : nat) (b : State) :
  dispatch (dispatch b (ClickLike key)) (ClickLike key)
  = dispatch b (ClickLike key).
Proof.
  destruct (click_like_flips key b) as [Hsame|[_ Hset]].
  - now rewrite !Hsame.
  - rewrite Hset.
    destruct (click_like_flips key (set_hooks (<[key := true]> (hooks b)) b))
      as [Hsame'|[Hliked _]]; [exact Hsame'|].
    rewrite liked_after_set in Hliked.
    destruct (decide (key = key)); congruence.
Qed.

(** X2: clicks on two like buttons give the same page in either order. *)
Theorem click_like_commutes (j k : nat) (b : State) :
  dispatch (dispatch b (ClickLike j)) (ClickLike k)
  = dispatch (dispatch b (ClickLike k)) (ClickLike j).
Proof.
  destruct (decide (j = k)) as [->|Hjk]; [reflexivity|].
  rewrite (click_like_spec j b), (click_like_spec k b).
  destruct (mounted b) as [[[ty props ch|txt|[|] key] node]|] eqn:Hm;
    cbn [andb]; rewrite ?click_like_spec, ?Hm; cbn [andb]; try reflexivity.
  destruct (Nat.ltb j 500) eqn:Hj, (Nat.ltb k 500) eqn:Hk,
           (liked j b) eqn:Lj, (liked k b) eqn:Lk;
    cbn [andb negb]; rewrite ?click_like_spec; cbn [mounted set_hooks];
    rewrite ?Hm, ?Hj, ?Hk, ?liked_after_set, ?Lj, ?Lk;
    repeat (case_decide; try congruence);
    cbn [andb negb]; try reflexivity.
  unfold set_hooks. cbn. f_equal. now apply insert_insert_ne.
Qed.

(** X3: a click cannot reach a key outside 0..499, and before anything is
    mounted no click does anything. *)
Theorem click_like_out_of_reach (key : nat) (b : State) :
  mounted b = None \/ 500 <= key ->
  dispatch b (ClickLike key) = b.
Proof.
  intros H. rewrite click_like_spec.
  destruct H as [->|Hge]; [reflexivity|].
  destruct (mounted b) as [[[ty props ch|txt|[|] k] node]|]; try reflexivity.
  now rewrite (proj2 (Nat.ltb_ge key 500) Hge).
Qed.

(** The theorem at key 500 of the mounted page, and at an empty page. *)
Lemma click_like_out_of_reach_witness :
  let b := load ReactJsx.script
             (page [mkDomElement "div" "app" EmptyString EmptyString EmptyString None]) in
  dispatch b (ClickLike 500) = b /\ dispatch (page []) (ClickLike 3) = page [].
Proof.
  cbv zeta. split.
  - apply click_like_out_of_reach. right. lia.
  - apply click_like_out_of_reach. left. reflexivity.
Defined.

Lemma click_like_keeps_mounted (key : nat) (b : State) :
  mounted (dispatch b (ClickLike key)) = mounted b.
Proof. now destruct (click_like_flips key b) as [->|[_ ->]]. Qed.

(** X4: once [ManyButtons] is mounted, the buttons liked after any run of
    clicks are those liked before together with the clicked keys below
    500. *)
Theorem liked_after_clicks
    (b : State) (node : DomElement) (ks : list nat) (key : nat) :
  mounted b = Some (Custom C_ManyButtons None, node) ->
  liked key (dispatch_all (map ClickLike ks) b)
  = liked key b || (bool_decide (key ∈ ks) && Nat.ltb key 500).
Proof.
  revert b. induction ks as [|k ks IH]; intros b Hm.
  - cbn. now rewrite orb_false_r.
  - cbn [map dispatch_all fold_left].
    change (fold_left dispatch (map ClickLike ks) (dispatch b (ClickLike k)))
      with (dispatch_all (map ClickLike ks) (dispatch b (ClickLike k))).
    rewrite IH by (now rewrite click_like_keeps_mounted).
    rewrite click_like_spec, Hm.
    destruct (decide (key = k)) as [->|Hne].
    + rewrite (bool_decide_true (k ∈ k :: ks)) by (left).
      destruct (Nat.ltb k 500) eqn:Hlt, (liked k b) eqn:Hl; cbn [andb negb];
        rewrite ?liked_after_set, ?Hl;
        try (destruct (decide (k = k)); [|congruence]);
        cbn; rewrite ?orb_true_r, ?andb_false_r, ?orb_false_r; reflexivity.
    + assert (Hdec : bool_decide (key ∈ k :: ks) = bool_decide (key ∈ ks)).
      { apply bool_decide_ext. rewrite elem_of_cons. tauto. }
      rewrite Hdec.
      destruct (Nat.ltb k 500 && negb (liked k b)); [|reflexivity].
      rewrite liked_after_set.
      destruct (decide (k = key)); [congruence|reflexivity].
Qed.

(** The theorem for clicks on 2, 700 and 2 again. *)
Lemma liked_after_clicks_witness :
  let b := load ReactJsx.script
             (page [mkDomElement "div" "app" EmptyString EmptyString EmptyString None]) in
  liked 2 (dispatch_all (map ClickLike [2; 700; 2]) b) = true
  /\ liked 700 (dispatch_all (map ClickLike [2; 700; 2]) b) = false.
Proof.
  cbv zeta. split.
  - exact (eq_trans
             (liked_after_clicks
                (load ReactJsx.script
                   (page [mkDomElement "div" "app" EmptyString EmptyString EmptyString None]))
                (mkDomElement "div" "app" EmptyString EmptyString EmptyString None)
                [2; 700; 2] 2 eq_refl)
             eq_refl).
  - exact (eq_trans
             (liked_after_clicks
                (load ReactJsx.script
                   (page [mkDomElement "div" "app" EmptyString EmptyString EmptyString None]))
                (mkDomElement "div" "app" EmptyString EmptyString EmptyString None)
                [2; 700; 2] 700 eq_refl)
             eq_refl).
Defined.

(** X5: the React script either mounts [<ManyButtons />] on an element of
    the page whose id is [app], or throws React's missing-container error,
    and it throws exactly when no element of the page has that id. *)
Theorem script_mounts_or_throws (b : State) :
  match ReactJsx.script b with
  | Ok _ b' =>
      exists node,
        mounted b' = Some (Custom C_ManyButtons None, node)
        /\ In node (elements b) /\ element_id node = "app"
  | Throw e b' =>
      e = "Target container is not a DOM element."
      /\ mounted b' = mounted b
      /\ Forall (fun el => element_id el <> "app") (elements b)
  end.
Proof.
  rewrite script_runs. unfold ReactDOM_render.
  destruct (find (selects "#app") (elements b)) as [node|] eqn:Hfind.
  - exists node. split; [reflexivity|].
    apply find_some in Hfind as [Hin Hsel]. split; [exact Hin|].
    cbn in Hsel. now apply String.eqb_eq.
  - split; [reflexivity|]. split; [reflexivity|].
    rewrite List.Forall_forall. intros el Hin.
    pose proof (find_none _ _ Hfind el Hin) as Hsel.
    cbn in Hsel. now apply String.eqb_neq.
Qed.

(** ** The lazily imported module *)

Lemma lookup_snoc_end {A : Type} (l : list A) (x : A) :
  (l ++ [x]) !! length l = Some x.
Proof. now apply list_lookup_middle. Qed.

Lemma insert_snoc_end {A : Type} (l : list A) (x y : A) :
  <[length l := y]> (l ++ [x]) = l ++ [y].
Proof.
  rewrite insert_app_r_alt by lia. now rewrite Nat.sub_diag.
Qed.

(** A click on an element whose handler is [buttonComponent]'s adds one
    pending import with one continuation, and requests the chunk unless
    the module is loaded or already on its way. *)
Lemma lazy_click (b : State) (index : nat) (e : DomElement) :
  elements b !! index = Some e ->
  onclick e = Some buttonComponent_onclick ->
  dispatch b (ClickElement index)
  = set_jobs (jobs b ++ [mkImport "./lazy-module" [buttonComponent_then]])
      (if string_in "./lazy-module" (modules b)
          || string_in "./lazy-module" (map specifier (jobs b))
       then b
       else set_requests (requests b ++ ["./lazy-module"]) b).
Proof.
  intros He Hon. unfold dispatch. cbn [handle]. rewrite He, Hon.
  cbn [call]. unfold LoadersScript.onclick_body, dynamic_import, promise_then.
  unfold_js.
  destruct (string_in "./lazy-module" (modules b)
            || string_in "./lazy-module" (map specifier (jobs b)));
    cbn [jobs set_jobs set_requests]; rewrite lookup_snoc_end;
    cbn [specifier reactions app settle]; rewrite insert_snoc_end; reflexivity.
Qed.

Lemma no_handler_off_the_button
    (els : list DomElement) (d i btn e : DomElement) (index : nat) :
  static els -> onclick d = None -> onclick i = None ->
  index <> length els + 2 ->
  (els ++ [d; i; btn]) !! index = Some e -> onclick e = None.
Proof.
  intros Hstatic Hd Hi Hne He.
  destruct (decide (index < length els)) as [Hlt|Hge].
  - rewrite lookup_app_l in He by exact Hlt.
    unfold static in Hstatic. rewrite Forall_lookup in Hstatic. eauto.
  - rewrite lookup_app_r in He by lia.
    destruct (index - length els) as [|[|[|n]]] eqn:Hn; cbn in He;
      try congruence; try lia.
    destruct n; discriminate He.
Qed.

(** X6: as long as the button is not clicked, the lazy module is neither
    requested nor run: after the loaders-optimizations script has loaded in
    a page without handlers of its own, any events other than a click on
    its button leave no request, no loaded module, no pending import, and
    the console at its one line. *)
Theorem lazy_module_waits_for_the_click
    (mushroom : string) (els : list DomElement) (evs : list Event) :
  static els ->
  Forall (fun ev => ev <> ClickElement (length els + 2)) evs ->
  let b := dispatch_all evs (load (LoadersScript.script mushroom) (page els)) in
  requests b = [] /\ modules b = [] /\ jobs b = [] /\ console b = ["funcA"].
Proof.
  intros Hstatic Hevs. cbv zeta. rewrite loaders_script_loads.
  match goal with
  | |- context [page (els ++ ?l)] => set (added := l)
  end.
  assert (Hinv : forall b : State,
            elements b = els ++ added /\ requests b = [] /\ modules b = []
            /\ jobs b = [] /\ console b = ["funcA"] ->
            let b' := dispatch_all evs b in
            requests b' = [] /\ modules b' = [] /\ jobs b' = []
            /\ console b' = ["funcA"]).
  { induction Hevs as [|ev evs Hev _ IH]; intros b Hb; cbv zeta.
    - cbn. tauto.
    - cbn [dispatch_all fold_left]. apply IH.
      destruct Hb as (Hels & Hreq & Hmod & Hjobs & Hcon).
      destruct ev as [key|index|p|p].
      + destruct (click_like_flips key b) as [->|[_ ->]]; now repeat split.
      + unfold dispatch. cbn [handle].
        destruct (elements b !! index) as [e|] eqn:He; [|now repeat split].
        rewrite Hels in He. subst added.
        assert (onclick e = None) as ->.
        { eapply (no_handler_off_the_button els); [exact Hstatic| | | |exact He];
            [reflexivity|reflexivity|congruence]. }
        now repeat split.
      + unfold dispatch. cbn [handle]. rewrite Hjobs. now repeat split.
      + unfold dispatch. cbn [handle]. rewrite Hjobs. now repeat split. }
  apply Hinv. now repeat split.
Qed.

(** The theorem at an empty page, for clicks beside the button and a
    stray settlement. *)
Lemma lazy_module_waits_witness :
  console (dispatch_all [ClickElement 0; ClickElement 1; ImportLoaded 0; ClickLike 2]
             (load (LoadersScript.script "mushroom.jpg") (page [])))
  = ["funcA"].
Proof.
  apply (lazy_module_waits_for_the_click "mushroom.jpg" []
           [ClickElement 0; ClickElement 1; ImportLoaded 0; ClickLike 2]).
  - constructor.
  - repeat constructor; discriminate.
Defined.

Lemma lazy_clicks (n m : nat) (b : State) (index : nat) (e : DomElement) :
  elements b !! index = Some e ->
  onclick e = Some buttonComponent_onclick ->
  jobs b = replicate m (mkImport "./lazy-module" [buttonComponent_then]) ->
  modules b = [] ->
  requests b = match m with 0 => [] | S _ => ["./lazy-module"] end ->
  let b' := dispatch_all (replicate n (ClickElement index)) b in
  jobs b' = replicate (m + n) (mkImport "./lazy-module" [buttonComponent_then])
  /\ modules b' = []
  /\ requests b' = match m + n with 0 => [] | S _ => ["./lazy-module"] end
  /\ console b' = console b.
Proof.
  revert m b. induction n as [|n IH]; intros m b He Hon Hjobs Hmod Hreq; cbv zeta.
  - cbn. rewrite Nat.add_0_r. now repeat split.
  - cbn [replicate dispatch_all fold_left].
    change (fold_left dispatch (replicate n (ClickElement index)) ?x)
      with (dispatch_all (replicate n (ClickElement index)) x).
    rewrite (lazy_click b index e He Hon), Hmod, Hjobs.
    replace (m + S n) with (S m + n) by lia.
    destruct m as [|m].
    + cbn [replicate map string_in existsb orb app].
      specialize (IH 1
        (set_jobs [mkImport "./lazy-module" [buttonComponent_then]]
           (set_requests (requests b ++ ["./lazy-module"]) b))).
      cbv zeta in IH. rewrite Hreq in IH. cbn in IH.
      rewrite Hreq. cbn. apply IH; auto.
    + assert (Hknown : string_in "./lazy-module"
                         (map specifier
                            (replicate (S m)
                               (mkImport "./lazy-module" [buttonComponent_then])))
                       = true) by reflexivity.
      rewrite Hknown. cbn [string_in existsb orb].
      specialize (IH (S (S m))
        (set_jobs (replicate (S m) (mkImport "./lazy-module" [buttonComponent_then])
                   ++ [mkImport "./lazy-module" [buttonComponent_then]]) b)).
      cbv zeta in IH. rewrite <- replicate_S_end in IH.
      rewrite <- replicate_S_end. apply IH; auto.
Qed.

(** One import of the lazy module settling: the module's code runs if it
    has not run before, then the continuation logs the data. *)
Lemma lazy_load_step (b : State) (rest : list Import) :
  jobs b = mkImport "./lazy-module" [buttonComponent_then] :: rest ->
  dispatch b (ImportLoaded 0)
  = if string_in "./lazy-module" (modules b)
    then set_console (console b ++ ["big data"]) (set_jobs rest b)
    else set_console ((console b ++ ["this code has been loaded"]) ++ ["big data"])
           (set_modules (modules b ++ ["./lazy-module"]) (set_jobs rest b)).
Proof.
  intros Hjobs. unfold dispatch. cbn [handle]. rewrite Hjobs.
  cbn [lookup list_lookup delete list_delete specifier reactions].
  change (find_module "./lazy-module")
    with (Some (LoadersScript.lazy_module_body, LoadersScript.lazy_module)).
  unfold evaluate_module. unfold_js. cbn [modules set_jobs].
  destruct (string_in "./lazy-module" (modules b)); reflexivity.
Qed.

Lemma lazy_loads (n k : nat) (b : State) (shown : list string) :
  jobs b = replicate n (mkImport "./lazy-module" [buttonComponent_then]) ->
  modules b = match k with 0 => [] | S _ => ["./lazy-module"] end ->
  console b = shown ++ match k with
                       | 0 => []
                       | S _ => "this code has been loaded" :: replicate k "big data"
                       end ->
  let b' := dispatch_all (replicate n (ImportLoaded 0)) b in
  jobs b' = []
  /\ requests b' = requests b
  /\ console b' = shown ++ match k + n with
                           | 0 => []
                           | S _ => "this code has been loaded"
                                    :: replicate (k + n) "big data"
                           end.
Proof.
  revert k b. induction n as [|n IH]; intros k b Hjobs Hmod Hcon; cbv zeta.
  - cbn. rewrite Nat.add_0_r. now repeat split.
  - cbn [replicate dispatch_all fold_left].
    change (fold_left dispatch (replicate n (ImportLoaded 0)) ?x)
      with (dispatch_all (replicate n (ImportLoaded 0)) x).
    replace (k + S n) with (S k + n) by lia.
    rewrite (lazy_load_step b _ Hjobs), Hmod, Hcon.
    destruct k as [|k].
    + cbn [string_in existsb].
      match goal with
      | |- context [dispatch_all _ ?st] => specialize (IH 1 st)
      end.
      apply IH; cbn; [reflexivity|reflexivity|].
      now rewrite <- !app_assoc.
    + replace (string_in "./lazy-module" ["./lazy-module"]) with true by reflexivity.
      match goal with
      | |- context [dispatch_all _ ?st] => specialize (IH (S (S k)) st)
      end.
      apply IH; cbn [jobs modules console set_console set_jobs];
        [reflexivity|exact Hmod|].
      rewrite <- app_assoc. f_equal. cbn [app]. f_equal.
      change ("big data" :: replicate k "big data") with (replicate (S k) "big data").
      change ("big data" :: "big data" :: replicate k "big data")
        with (replicate (S (S k)) "big data").
      now rewrite (replicate_S_end (S k)).
Qed.

(** X7: however often the button is clicked, the chunk is requested once
    and the module's own code runs once, while the continuation runs once
    per click: after [n] clicks there are [n] pending imports and at most
    one request, and once all have loaded nothing is pending and the
    console shows the module's line once, followed by "big data" [n]
    times. *)
Theorem lazy_module_loads_once
    (mushroom : string) (els : list DomElement) (n : nat) :
  let b := load (LoadersScript.script mushroom) (page els) in
  let clicked := dispatch_all (replicate n (ClickElement (length els + 2))) b in
  let loaded := dispatch_all (replicate n (ImportLoaded 0)) clicked in
  jobs clicked = replicate n (mkImport "./lazy-module" [buttonComponent_then])
  /\ requests clicked = match n with 0 => [] | S _ => ["./lazy-module"] end
  /\ console clicked = ["funcA"]
  /\ jobs loaded = []
  /\ requests loaded = requests clicked
  /\ console loaded
     = "funcA" :: match n with
                  | 0 => []
                  | S _ => "this code has been loaded" :: replicate n "big data"
                  end.
Proof.
  cbv zeta. rewrite loaders_script_loads.
  match goal with
  | |- context [dispatch_all (replicate n (ClickElement _)) ?st] => set (b := st)
  end.
  destruct (lazy_clicks n 0 b (length els + 2)
              (mkDomElement "button" EmptyString EmptyString "Click me!"
                 EmptyString (Some buttonComponent_onclick)))
    as (Hjobs & Hmod & Hreq & Hcon); try reflexivity.
  { apply loaders_button_position. }
  cbn [Nat.add] in Hjobs, Hreq.
  split; [exact Hjobs|]. split; [exact Hreq|]. split; [exact Hcon|].
  destruct (lazy_loads n 0
              (dispatch_all (replicate n (ClickElement (length els + 2))) b)
              ["funcA"])
    as (Hjobs' & Hreq' & Hcon'); [exact Hjobs|exact Hmod|now rewrite Hcon|].
  split; [exact Hjobs'|]. split; [exact Hreq'|]. exact Hcon'.
Qed.

(** ** Loader rules and the files they apply to *)

Section RegexFacts.
Import Webpack Regex.

Lemma string_of_list_ascii_app (l1 l2 : list ascii) :
  string_of_list_ascii (l1 ++ l2)
  = string_of_list_ascii l1 +:+ string_of_list_ascii l2.
Proof.
  induction l1 as [|c l1 IH]; [reflexivity|].
  change (String c (string_of_list_ascii (l1 ++ l2))
          = String c (string_of_list_ascii l1 +:+ string_of_list_ascii l2)).
  now f_equal.
Qed.

(** The matcher leaves [rest] exactly when the text is a word of the
    pattern followed by [rest]. *)
Lemma rests_language (r : Re) (s rest : list ascii) :
  In rest (rests r s) <-> exists w, In w (language r) /\ s = w ++ rest.
Proof.
  revert s rest. induction r as [|c|cs|r1 IH1 r2 IH2|r1 IH1 r2 IH2|r IH];
    intros s rest; cbn [rests language].
  - split.
    + intros [<-|[]]. exists []. split; [now left|reflexivity].
    + intros (w & [<-|[]] & ->). now left.
  - destruct s as [|c' s'].
    + split; [intros []|]. intros (w & [<-|[]] & H). discriminate H.
    + destruct (Ascii.eqb c c') eqn:Hc.
      * apply Ascii.eqb_eq in Hc as <-. split.
        -- intros [<-|[]]. exists [c]. split; [now left|reflexivity].
        -- intros (w & [<-|[]] & H). injection H as <-. now left.
      * apply Ascii.eqb_neq in Hc. split; [intros []|].
        intros (w & [<-|[]] & H). injection H as H _. congruence.
  - destruct s as [|c' s'].
    + split; [intros []|]. intros (w & Hw & H).
      apply in_map_iff in Hw as (c & <- & _). discriminate H.
    + destruct (existsb (Ascii.eqb c') cs) eqn:Hc.
      * apply existsb_exists in Hc as (c & Hin & Heq).
        apply Ascii.eqb_eq in Heq as <-. split.
        -- intros [<-|[]]. exists [c']. split; [|reflexivity].
           apply in_map_iff. now exists c'.
        -- intros (w & Hw & H). apply in_map_iff in Hw as (c & <- & _).
           injection H as _ <-. now left.
      * split; [intros []|]. intros (w & Hw & H).
        apply in_map_iff in Hw as (c & <- & Hin). injection H as <- _.
        assert (existsb (Ascii.eqb c') cs = true) as Hex.
        { apply existsb_exists. exists c'. split; [exact Hin|apply Ascii.eqb_refl]. }
        congruence.
  - rewrite in_flat_map. split.
    + intros (mid & Hmid & Hrest).
      apply IH1 in Hmid as (w1 & Hw1 & ->).
      apply IH2 in Hrest as (w2 & Hw2 & ->).
      exists (w1 ++ w2). split; [|now rewrite app_assoc].
      apply in_flat_map. exists w1. split; [exact Hw1|].
      apply in_map_iff. now exists w2.
    + intros (w & Hw & ->).
      apply in_flat_map in Hw as (w1 & Hw1 & Hw).
      apply in_map_iff in Hw as (w2 & <- & Hw2).
      exists (w2 ++ rest). split.
      * apply IH1. exists w1. split; [exact Hw1|now rewrite app_assoc].
      * apply IH2. now exists w2.
  - rewrite in_app_iff, IH1, IH2. split.
    + intros [(w & Hw & ->)|(w & Hw & ->)]; exists w;
        (split; [apply in_app_iff; tauto|reflexivity]).
    + intros (w & Hw & ->). apply in_app_iff in Hw as [Hw|Hw];
        [left|right]; now exists w.
  - rewrite in_app_iff, IH. split.
    + intros [(w & Hw & ->)|[<-|[]]].
      * exists w. split; [apply in_app_iff; now left|reflexivity].
      * exists []. split; [apply in_app_iff; right; now left|reflexivity].
    + intros (w & Hw & ->). apply in_app_iff in Hw as [Hw|[<-|[]]].
      * left. now exists w.
      * right. now left.
Qed.

Lemma tails_spec (t s : list ascii) :
  In t (tails s) <-> exists pre, s = pre ++ t.
Proof.
  induction s as [|c s IH]; cbn [tails].
  - split.
    + intros [<-|[]]. now exists [].
    + intros (pre & H). symmetry in H. apply app_eq_nil in H as [_ ->]. now left.
  - cbn [In]. rewrite IH. split.
    + intros [<-|(pre & ->)]; [now exists []|now exists (c :: pre)].
    + intros ([|c' pre] & H); [left; now rewrite H|].
      injection H as <- ->. right. now exists pre.
Qed.

(** A pattern anchored at the end matches the texts that end with one of
    its words. *)
Lemma search_at_end (c : Compiled) (text : string) :
  at_end c = true ->
  search c text = true
  <-> exists stem w, In w (words c) /\ folded c text = stem +:+ w.
Proof.
  intros Hend. unfold search, words. rewrite Hend, existsb_exists. split.
  - intros (t & Ht & Hex). apply existsb_exists in Hex as (rest & Hrest & Hnil).
    destruct rest; [|discriminate].
    apply rests_language in Hrest as (w & Hw & ->). rewrite app_nil_r in Ht.
    apply tails_spec in Ht as (pre & Ht).
    exists (string_of_list_ascii pre), (string_of_list_ascii w). split.
    + apply in_map_iff. now exists w.
    + rewrite <- string_of_list_ascii_app, <- Ht.
      now rewrite string_of_list_ascii_of_string.
  - intros (stem & w & Hw & Heq). apply in_map_iff in Hw as (lw & <- & Hlw).
    exists lw. split.
    + apply tails_spec. exists (list_ascii_of_string stem).
      now rewrite Heq, list_ascii_of_string_app, list_ascii_of_string_of_list_ascii.
    + apply existsb_exists. exists []. split; [|reflexivity].
      apply rests_language. exists lw. split; [exact Hlw|now rewrite app_nil_r].
Qed.

(** A pattern without anchor matches the texts that contain one of its
    words. *)
Lemma search_anywhere (c : Compiled) (text : string) :
  at_end c = false ->
  search c text = true
  <-> exists pre w post, In w (words c) /\ folded c text = pre +:+ w +:+ post.
Proof.
  intros Hend. unfold search, words. rewrite Hend, existsb_exists. split.
  - intros (t & Ht & Hex). apply existsb_exists in Hex as (rest & Hrest & _).
    apply rests_language in Hrest as (w & Hw & ->).
    apply tails_spec in Ht as (pre & Ht).
    exists (string_of_list_ascii pre), (string_of_list_ascii w),
           (string_of_list_ascii rest). split.
    + apply in_map_iff. now exists w.
    + rewrite <- !string_of_list_ascii_app, <- Ht.
      now rewrite string_of_list_ascii_of_string.
  - intros (pre & w & post & Hw & Heq).
    apply in_map_iff in Hw as (lw & <- & Hlw).
    exists (lw ++ list_ascii_of_string post). split.
    + apply tails_spec. exists (list_ascii_of_string pre).
      now rewrite Heq, !list_ascii_of_string_app, list_ascii_of_string_of_list_ascii.
    + apply existsb_exists. exists (list_ascii_of_string post).
      split; [|reflexivity].
      apply rests_language. now exists lw.
Qed.

Lemma regex_test_at_end (re : RegExp) (c : Compiled) (text : string) :
  compile re = Some c -> at_end c = true ->
  regex_test re text = Some (search c text)
  /\ (search c text = true <-> ends_with_one_of (words c) (folded c text)).
Proof.
  intros Hc Hend. unfold regex_test. rewrite Hc. split; [reflexivity|].
  now apply search_at_end.
Qed.

Lemma regex_test_anywhere (re : RegExp) (c : Compiled) (text : string) :
  compile re = Some c -> at_end c = false ->
  regex_test re text = Some (search c text)
  /\ (search c text = true <-> contains_one_of (words c) (folded c text)).
Proof.
  intros Hc Hend. unfold regex_test. rewrite Hc. split; [reflexivity|].
  now apply search_anywhere.
Qed.

(** Two endings of one text must agree from the right. *)
Ltac ends_clash H :=
  apply (f_equal list_ascii_of_string) in H;
  rewrite !list_ascii_of_string_app in H;
  apply (f_equal (@rev ascii)) in H;
  rewrite !rev_app_distr in H;
  cbn in H; congruence.

Lemma css_test_compiles :
  exists c, compile (mkRegExp "\.css$" "i") = Some c
            /\ at_end c = true /\ fold_case c = true /\ words c = [".css"].
Proof. eexists. split; [vm_compute; reflexivity|]. now repeat split. Qed.

Lemma image_test_compiles :
  exists c, compile (mkRegExp "\.(png|svg|jpg|jpeg|gif)$" "i") = Some c
            /\ at_end c = true /\ fold_case c = true
            /\ words c = [".png"; ".svg"; ".jpg"; ".jpeg"; ".gif"].
Proof. eexists. split; [vm_compute; reflexivity|]. now repeat split. Qed.

Lemma babel_test_compiles :
  exists c, compile (mkRegExp "\.m?[jt]sx$" EmptyString) = Some c
            /\ at_end c = true /\ fold_case c = false
            /\ words c = [".mjsx"; ".mtsx"; ".jsx"; ".tsx"].
Proof. eexists. split; [vm_compute; reflexivity|]. now repeat split. Qed.

Lemma babel_exclude_compiles :
  exists c, compile (mkRegExp "(node_modules|bower_components)" EmptyString) = Some c
            /\ at_end c = false /\ fold_case c = false
            /\ words c = ["node_modules"; "bower_components"].
Proof. eexists. split; [vm_compute; reflexivity|]. now repeat split. Qed.

Lemma jsx_only_test_compiles :
  exists c, compile jsx_only_test = Some c
            /\ at_end c = true /\ fold_case c = false
            /\ words c = [".mjsx"; ".jsx"].
Proof. eexists. split; [vm_compute; reflexivity|]. now repeat split. Qed.

Lemma ts_loader_test_compiles :
  exists c, compile ts_loader_test = Some c
            /\ at_end c = true /\ fold_case c = false
            /\ words c = [".tsx"; ".ts"].
Proof. eexists. split; [vm_compute; reflexivity|]. now repeat split. Qed.

(** X8: in the loaders-optimizations configuration the two rules split
    files by extension, in any letter case: the style loaders get exactly
    the paths ending in [.css], the asset rule exactly those ending in
    [.png], [.svg], [.jpg], [.jpeg] or [.gif], and no path gets both. *)
Theorem loaders_rules_split_by_extension (dir path : string) :
  let css := {| test := Some (mkRegExp "\.css$" "i");
                exclude := None;
                use := Some (UseLoaders ["style-loader"; "css-loader"]);
                type_ := None |} in
  let asset := {| test := Some (mkRegExp "\.(png|svg|jpg|jpeg|gif)$" "i");
                  exclude := None;
                  use := None;
                  type_ := Some "asset/resource" |} in
  module_rules (LoadersOptimizations.module_exports dir) = Some [css; asset]
  /\ (rule_applies css path = Some true
      <-> ends_with_one_of [".css"] (lowercase path))
  /\ (rule_applies asset path = Some true
      <-> ends_with_one_of [".png"; ".svg"; ".jpg"; ".jpeg"; ".gif"]
            (lowercase path))
  /\ ~ (rule_applies css path = Some true /\ rule_applies asset path = Some true).
Proof.
  cbv zeta.
  destruct css_test_compiles as (c1 & Hc1 & He1 & Hf1 & Hw1).
  destruct image_test_compiles as (c2 & Hc2 & He2 & Hf2 & Hw2).
  destruct (regex_test_at_end _ c1 path Hc1 He1) as [Ht1 Hs1].
  destruct (regex_test_at_end _ c2 path Hc2 He2) as [Ht2 Hs2].
  unfold folded in Hs1, Hs2. rewrite Hf1, Hw1 in Hs1. rewrite Hf2, Hw2 in Hs2.
  assert (Hcss : rule_applies
                   {| test := Some (mkRegExp "\.css$" "i"); exclude := None;
                      use := Some (UseLoaders ["style-loader"; "css-loader"]);
                      type_ := None |} path = Some true
                 <-> ends_with_one_of [".css"] (lowercase path)).
  { unfold rule_applies. cbn [test exclude]. rewrite Ht1. cbn.
    rewrite andb_true_r, <- Hs1. split; congruence. }
  assert (Hasset : rule_applies
                     {| test := Some (mkRegExp "\.(png|svg|jpg|jpeg|gif)$" "i");
                        exclude := None; use := None;
                        type_ := Some "asset/resource" |} path = Some true
                   <-> ends_with_one_of [".png"; ".svg"; ".jpg"; ".jpeg"; ".gif"]
                         (lowercase path)).
  { unfold rule_applies. cbn [test exclude]. rewrite Ht2. cbn.
    rewrite andb_true_r, <- Hs2. split; congruence. }
  split; [reflexivity|]. split; [exact Hcss|]. split; [exact Hasset|].
  rewrite Hcss, Hasset.
  intros [(s1 & e1 & Hin1 & H1) (s2 & e2 & Hin2 & H2)].
  rewrite H1 in H2. cbn in Hin1, Hin2.
  destruct Hin1 as [<-|[]].
  destruct Hin2 as [<-|[<-|[<-|[<-|[<-|[]]]]]]; ends_clash H2.
Qed.

Lemma devserver_rule_applies (dir path : string) (r : Rule) :
  module_rules (DevServer.module_exports dir) = Some [r] ->
  rule_applies r path = Some true
  <-> ends_with_one_of [".mjsx"; ".mtsx"; ".jsx"; ".tsx"] path
      /\ ~ contains_one_of ["node_modules"; "bower_components"] path.
Proof.
  intros Hr. injection Hr as <-.
  destruct babel_test_compiles as (c1 & Hc1 & He1 & Hf1 & Hw1).
  destruct babel_exclude_compiles as (c2 & Hc2 & He2 & Hf2 & Hw2).
  destruct (regex_test_at_end _ c1 path Hc1 He1) as [Ht1 Hs1].
  destruct (regex_test_anywhere _ c2 path Hc2 He2) as [Ht2 Hs2].
  unfold folded in Hs1, Hs2. rewrite Hf1, Hw1 in Hs1. rewrite Hf2, Hw2 in Hs2.
  unfold rule_applies. cbn [test exclude]. rewrite Ht1, Ht2. cbn.
  rewrite <- Hs1, <- Hs2.
  destruct (search c1 path), (search c2 path); cbn.
  - split; [discriminate|]. intros [_ H]. now contradiction H.
  - split; [|reflexivity]. intros _. split; [reflexivity|discriminate].
  - split; [discriminate|]. intros [H _]. discriminate H.
  - split; [discriminate|]. intros [H _]. discriminate H.
Qed.

(** X9: in the DevServer configuration, Babel is applied exactly to the
    paths that end in [.jsx], [.tsx], [.mjsx] or [.mtsx] (in this letter
    case) and contain neither [node_modules] nor [bower_components].  So
    the configured entry is transpiled, while a plain [.ts] or [.js]
    file, or anything under [node_modules], gets no loader. *)
Theorem devserver_babel_rule_scope (dir path stem : string) :
  let c := DevServer.module_exports dir in
  (rules_for c path <> []
   <-> ends_with_one_of [".mjsx"; ".mtsx"; ".jsx"; ".tsx"] path
       /\ ~ contains_one_of ["node_modules"; "bower_components"] path)
  /\ length (rules_for c path) <= 1
  /\ match entry c with
     | Some (EntrySingle e) => length (rules_for c e) = 1
     | _ => False
     end
  /\ rules_for c (stem +:+ ".ts") = []
  /\ rules_for c (stem +:+ ".js") = []
  /\ rules_for c ("node_modules/" +:+ stem) = [].
Proof.
  cbv zeta.
  assert (Hrules : exists r, module_rules (DevServer.module_exports dir) = Some [r])
    by (eexists; reflexivity).
  destruct Hrules as (r & Hr).
  assert (Hfor : forall p, rules_for (DevServer.module_exports dir) p
                           = if decide (rule_applies r p = Some true) then [r] else []).
  { intros p. unfold rules_for. rewrite Hr.
    change (default [] (Some [r])) with [r].
    rewrite filter_cons, filter_nil. reflexivity. }
  assert (Hnone : forall p, ~ (ends_with_one_of [".mjsx"; ".mtsx"; ".jsx"; ".tsx"] p
                               /\ ~ contains_one_of ["node_modules"; "bower_components"] p) ->
                            rules_for (DevServer.module_exports dir) p = []).
  { intros p Hp. rewrite Hfor. destruct (decide _) as [Happ|]; [|reflexivity].
    now apply (devserver_rule_applies dir p r Hr) in Happ. }
  split; [|split; [|split; [|split; [|split]]]].
  - rewrite Hfor, <- (devserver_rule_applies dir path r Hr).
    destruct (decide _); split; congruence.
  - rewrite Hfor. destruct (decide _); cbn; lia.
  - vm_compute. reflexivity.
  - apply Hnone. intros [(s & e & Hin & H) _]. cbn in Hin.
    destruct Hin as [<-|[<-|[<-|[<-|[]]]]]; ends_clash H.
  - apply Hnone. intros [(s & e & Hin & H) _]. cbn in Hin.
    destruct Hin as [<-|[<-|[<-|[<-|[]]]]]; ends_clash H.
  - apply Hnone. intros [_ Hnot]. apply Hnot.
    exists EmptyString, "node_modules", ("/" +:+ stem). split; [now left|].
    reflexivity.
Qed.

(** X10: the Babel test of the finished configuration accepts every path
    the tutorial's earlier JSX-only test accepts.  The earlier test
    rejects every [.tsx] path, which the finished test and the ts-loader
    test of the intermediate step accept; only the ts-loader test accepts
    [.ts] paths. *)
Theorem finished_test_extends_jsx_only_test (path stem : string) :
  regex_test jsx_only_test path = Some true ->
  regex_test (mkRegExp "\.m?[jt]sx$" EmptyString) path = Some true
  /\ regex_test jsx_only_test (stem +:+ ".tsx") = Some false
  /\ regex_test (mkRegExp "\.m?[jt]sx$" EmptyString) (stem +:+ ".tsx") = Some true
  /\ regex_test ts_loader_test (stem +:+ ".tsx") = Some true
  /\ regex_test ts_loader_test (stem +:+ ".ts") = Some true
  /\ regex_test (mkRegExp "\.m?[jt]sx$" EmptyString) (stem +:+ ".ts") = Some false.
Proof.
  destruct jsx_only_test_compiles as (c0 & Hc0 & He0 & Hf0 & Hw0).
  destruct babel_test_compiles as (c1 & Hc1 & He1 & Hf1 & Hw1).
  destruct ts_loader_test_compiles as (c2 & Hc2 & He2 & Hf2 & Hw2).
  assert (H0 : forall p, regex_test jsx_only_test p = Some (search c0 p)
                         /\ (search c0 p = true
                             <-> ends_with_one_of [".mjsx"; ".jsx"] p)).
  { intros p. destruct (regex_test_at_end _ c0 p Hc0 He0) as [Ht Hs].
    unfold folded in Hs. now rewrite Hf0, Hw0 in Hs. }
  assert (H1 : forall p, regex_test (mkRegExp "\.m?[jt]sx$" EmptyString) p
                         = Some (search c1 p)
                         /\ (search c1 p = true
                             <-> ends_with_one_of [".mjsx"; ".mtsx"; ".jsx"; ".tsx"] p)).
  { intros p. destruct (regex_test_at_end _ c1 p Hc1 He1) as [Ht Hs].
    unfold folded in Hs. now rewrite Hf1, Hw1 in Hs. }
  assert (H2 : forall p, regex_test ts_loader_test p = Some (search c2 p)
                         /\ (search c2 p = true
                             <-> ends_with_one_of [".tsx"; ".ts"] p)).
  { intros p. destruct (regex_test_at_end _ c2 p Hc2 He2) as [Ht Hs].
    unfold folded in Hs. now rewrite Hf2, Hw2 in Hs. }
  intros Hjsx. split; [|split; [|split; [|split; [|split]]]].
  - destruct (H0 path) as [Ht Hs]. destruct (H1 path) as [Ht' Hs'].
    rewrite Ht in Hjsx. injection Hjsx as Hjsx. apply Hs in Hjsx.
    rewrite Ht'. f_equal. apply Hs'.
    destruct Hjsx as (s & e & Hin & ->). exists s, e. split; [|reflexivity].
    cbn [In] in Hin |- *. tauto.
  - destruct (H0 (stem +:+ ".tsx")) as [-> Hs]. f_equal.
    destruct (search c0 (stem +:+ ".tsx")); [|reflexivity].
    destruct (proj1 Hs eq_refl) as (s & e & Hin & H). cbn in Hin.
    destruct Hin as [<-|[<-|[]]]; ends_clash H.
  - destruct (H1 (stem +:+ ".tsx")) as [-> Hs]. f_equal. apply Hs.
    exists stem, ".tsx". split; [cbn; tauto|reflexivity].
  - destruct (H2 (stem +:+ ".tsx")) as [-> Hs]. f_equal. apply Hs.
    exists stem, ".tsx". split; [cbn; tauto|reflexivity].
  - destruct (H2 (stem +:+ ".ts")) as [-> Hs]. f_equal. apply Hs.
    exists stem, ".ts". split; [cbn; tauto|reflexivity].
  - destruct (H1 (stem +:+ ".ts")) as [-> Hs]. f_equal.
    destruct (search c1 (stem +:+ ".ts")); [|reflexivity].
    destruct (proj1 Hs eq_refl) as (s & e & Hin & H). cbn in Hin.
    destruct Hin as [<-|[<-|[<-|[<-|[]]]]]; ends_clash H.
Qed.

(** The theorem at [./src/script.jsx]. *)
Lemma finished_test_extends_witness :
  regex_test (mkRegExp "\.m?[jt]sx$" EmptyString) "./src/script.jsx" = Some true.
Proof.
  exact (proj1 (finished_test_extends_jsx_only_test
                  "./src/script.jsx" "./src/script" eq_refl)).
Defined.

End RegexFacts.

(** ** Pages and their chunks *)

Section PageFacts.
Import Webpack Pages.

(** X11: in each of the three configurations every HTML page lists, with
    each of its chunks, the chunk that one depends on; no dependency has a
    dependency of its own; and no two pages are written to the same
    file. *)
Theorem pages_load_their_dependencies (dir : string) :
  Forall (fun c =>
            Forall (fun p => page_loads_dependencies c p = true)
                   (default [] (plugins c))
            /\ Forall (fun kd => depends_on c (snd kd) = None)
                      (entry_dependencies c)
            /\ List.NoDup (html_outputs c))
         (all_configs dir)
  /\ html_outputs (LoadersOptimizations.module_exports dir)
     = ["index.html"; "page2/index.html"].
Proof.
  split; [|reflexivity].
  unfold all_configs. repeat constructor; cbn; intuition discriminate.
Qed.

End PageFacts.

(** ** Files Prettier leaves alone *)

Section IgnoreFacts.
Import Prettier.

Lemma glob_literal (q s : list ascii) :
  forallb (fun c => negb (Ascii.eqb c "*")) q = true ->
  glob q s = true <-> map fold_case s = map fold_case q.
Proof.
  revert s. induction q as [|c q IH]; intros s Hq; cbn [glob].
  - destruct s; split; cbn; congruence.
  - cbn [forallb] in Hq. apply andb_true_iff in Hq as [Hc Hq].
    apply negb_true_iff in Hc. rewrite Hc.
    destruct s as [|c' s]; [split; cbn; congruence|].
    rewrite andb_true_iff, Ascii.eqb_eq, (IH s Hq). cbn [map]. split.
    + intros [H1 H2]. now rewrite H1, H2.
    + intros H. injection H as H1 H2. now split.
Qed.

Lemma glob_star_literal (q s : list ascii) :
  forallb (fun c => negb (Ascii.eqb c "*")) q = true ->
  glob ("*"%char :: q) s = true
  <-> exists pre suf, s = pre ++ suf /\ map fold_case suf = map fold_case q.
Proof.
  intros Hq. cbn [glob]. rewrite Ascii.eqb_refl.
  induction s as [|c s IH].
  - rewrite orb_false_r, (glob_literal q [] Hq). split.
    + intros H. now exists [], [].
    + intros (pre & suf & H & Hs). symmetry in H.
      apply app_eq_nil in H as [_ ->]. exact Hs.
  - rewrite orb_true_iff, (glob_literal q (c :: s) Hq), IH. split.
    + intros [H|(pre & suf & -> & Hs)];
        [now exists [], (c :: s)|now exists (c :: pre), suf].
    + intros ([|c' pre] & suf & H & Hs).
      * left. cbn [app] in H. now rewrite H.
      * injection H as <- ->. right. now exists pre, suf.
Qed.

Lemma lowercase_of_list (c : list ascii) :
  lowercase (string_of_list_ascii c) = string_of_list_ascii (map fold_case c).
Proof. unfold lowercase. now rewrite list_ascii_of_string_of_list_ascii. Qed.

(** X12: of the files Prettier is asked about, its ignore file excludes
    exactly those with, somewhere along their path, a name that is [build]
    or ends in [.css], in either case of the letters; it excludes no other
    file. *)
Theorem ignored_exactly (path : string) :
  relative path = true ->
  (ignored path = true
   <-> exists name,
         In name (names path)
         /\ (lowercase name = "build"
             \/ exists stem, lowercase name = stem +:+ ".css")).
Proof.
  intros _. unfold names, ignored, prettierignore. cbn [existsb].
  rewrite orb_false_r, orb_true_iff. unfold ignored_by.
  rewrite !existsb_exists. split.
  - intros [(c & Hin & Hglob)|(c & Hin & Hglob)].
    + apply (glob_literal (list_ascii_of_string "build") c eq_refl) in Hglob.
      exists (string_of_list_ascii c). split; [now apply in_map|].
      left. rewrite lowercase_of_list, Hglob. reflexivity.
    + apply (glob_star_literal (list_ascii_of_string ".css") c eq_refl)
        in Hglob as (pre & suf & -> & Hsuf).
      exists (string_of_list_ascii (pre ++ suf)). split; [now apply in_map|].
      right. exists (string_of_list_ascii (map fold_case pre)).
      rewrite lowercase_of_list, map_app, Hsuf, string_of_list_ascii_app.
      reflexivity.
  - intros (name & Hin & Hname). apply in_map_iff in Hin as (c & <- & Hin).
    rewrite lowercase_of_list in Hname.
    destruct Hname as [Hb|(stem & Hs)].
    + left. exists c. split; [exact Hin|].
      apply (glob_literal (list_ascii_of_string "build") c eq_refl).
      apply (f_equal list_ascii_of_string) in Hb.
      now rewrite list_ascii_of_string_of_list_ascii in Hb.
    + right. exists c. split; [exact Hin|].
      apply (glob_star_literal (list_ascii_of_string ".css") c eq_refl).
      apply (f_equal list_ascii_of_string) in Hs.
      rewrite list_ascii_of_string_of_list_ascii, list_ascii_of_string_app in Hs.
      apply map_eq_app in Hs as (pre & suf & -> & _ & Hsuf).
      now exists pre, suf.
Qed.

Lemma ignored_exactly_witness :
  ignored "src/Build/Theme.CSS" = true
  <-> exists name,
        In name (names "src/Build/Theme.CSS")
        /\ (lowercase name = "build"
            \/ exists stem, lowercase name = stem +:+ ".css").
Proof. exact (ignored_exactly "src/Build/Theme.CSS" eq_refl). Defined.

End IgnoreFacts.

(** ** Failed imports *)

Lemma dispatch_all_app (evs1 evs2 : list Event) (b : State) :
  dispatch_all (evs1 ++ evs2) b = dispatch_all evs2 (dispatch_all evs1 b).
Proof. unfold dispatch_all. apply fold_left_app. Qed.

(** A click on the button followed by the failure of its import, from a
    state in which nothing is pending or loaded. *)
Lemma failed_round (b : State) (index : nat) (e : DomElement) :
  elements b !! index = Some e ->
  onclick e = Some buttonComponent_onclick ->
  jobs b = [] -> modules b = [] ->
  dispatch_all [ClickElement index; ImportFailed 0] b
  = set_uncaught (uncaught b ++ ["ChunkLoadError"])
      (set_requests (requests b ++ ["./lazy-module"]) b).
Proof.
  intros He Hon Hjobs Hmod. cbn [dispatch_all fold_left].
  rewrite (lazy_click b index e He Hon), Hjobs, Hmod.
  cbn [map string_in existsb orb app]. unfold dispatch. cbn [handle jobs set_jobs].
  cbn. unfold set_uncaught, set_requests, set_jobs. cbn.
  rewrite <- Hjobs. now destruct b.
Qed.

(** X13: the handler has no rejection branch, so a failed import is
    reported by the browser and nothing else happens; the next click asks
    for the chunk again.  After [n] rounds of click and failure the chunk
    has been requested [n] times, [n] errors have reached the browser,
    the module is not loaded, the console is unchanged, and one more click
    whose import loads runs the module and its continuation. *)
Theorem failed_import_is_retried_by_the_next_click
    (mushroom : string) (els : list DomElement) (n : nat) :
  let click := ClickElement (length els + 2) in
  let b := load (LoadersScript.script mushroom) (page els) in
  let failed := dispatch_all (concat (replicate n [click; ImportFailed 0])) b in
  let retried := dispatch_all [click; ImportLoaded 0] failed in
  requests failed = replicate n "./lazy-module"
  /\ length (uncaught failed) = n
  /\ jobs failed = [] /\ modules failed = [] /\ console failed = ["funcA"]
  /\ requests retried = replicate (S n) "./lazy-module"
  /\ jobs retried = []
  /\ console retried = ["funcA"; "this code has been loaded"; "big data"].
Proof.
  cbv zeta. rewrite loaders_script_loads.
  match goal with
  | |- context [dispatch_all _ (set_console ?c (page ?l))] =>
      set (b := set_console c (page l))
  end.
  assert (Hinv : forall (k : nat) (b0 : State),
            elements b0 = elements b -> jobs b0 = [] -> modules b0 = [] ->
            let b' := dispatch_all
                        (concat (replicate k [ClickElement (length els + 2);
                                              ImportFailed 0])) b0 in
            elements b' = elements b /\ jobs b' = [] /\ modules b' = []
            /\ console b' = console b0
            /\ requests b' = requests b0 ++ replicate k "./lazy-module"
            /\ length (uncaught b') = length (uncaught b0) + k).
  { induction k as [|k IH]; intros b0 Hels Hjobs Hmod; cbv zeta.
    - cbn. rewrite !app_nil_r, Nat.add_0_r. now repeat split.
    - cbn [replicate concat]. rewrite dispatch_all_app.
      rewrite (failed_round b0 (length els + 2)
                 (mkDomElement "button" EmptyString EmptyString "Click me!"
                    EmptyString (Some buttonComponent_onclick)));
        [|rewrite Hels; apply loaders_button_position|reflexivity|exact Hjobs|exact Hmod].
      match goal with
      | |- context [dispatch_all _ ?st] => specialize (IH st)
      end.
      cbv zeta in IH. cbn [elements jobs modules console requests uncaught
                           set_uncaught set_requests] in IH.
      destruct (IH Hels Hjobs Hmod) as (H1 & H2 & H3 & H4 & H5 & H6).
      rewrite H5, H6, <- !app_assoc, length_app. cbn [length].
      repeat split; try assumption; lia. }
  destruct (Hinv n b eq_refl eq_refl eq_refl) as (Hels & Hjobs & Hmod & Hcon & Hreq & Hunc).
  cbv zeta in *.
  set (failed := dispatch_all _ b) in *.
  split; [exact Hreq|]. split; [exact Hunc|]. split; [exact Hjobs|].
  split; [exact Hmod|]. split; [exact Hcon|].
  cbn [dispatch_all fold_left].
  rewrite (lazy_click failed (length els + 2)
             (mkDomElement "button" EmptyString EmptyString "Click me!"
                EmptyString (Some buttonComponent_onclick)));
    [|rewrite Hels; apply loaders_button_position|reflexivity].
  rewrite Hjobs, Hmod. cbn [map string_in existsb orb app].
  rewrite (lazy_load_step _ []) by reflexivity.
  cbn [modules set_jobs set_requests]. rewrite Hmod. cbn [string_in existsb].
  cbn [requests jobs console set_console set_modules set_jobs set_requests].
  rewrite Hreq, Hcon. split; [|now split].
  change (replicate n "./lazy-module" ++ ["./lazy-module"]
          = replicate (S n) "./lazy-module").
  now rewrite replicate_S_end.
Qed.

(** ** The like button's earlier versions *)

Section ReadmeButtons.
Import ReactReadme.

Lemma clicks_S (c : Component) (n : nat) (p : Page) :
  clicks c (S n) p = clicks c n (click c p).
Proof.
  unfold clicks. apply Nat.iter_succ_r.
Qed.

(** X14: in the version that assigns a local variable, clicks are logged
    but never change what is shown: after any number of clicks the page
    still shows the button of the first render, whose handler has set the
    variable of that one call, and the console has one line per click. *)
Theorem plain_button_never_changes (n : nat) (p : Page) :
  let first := length (variables p) in
  let after := clicks PlainButton n (mount PlainButton p) in
  shown after
  = Some (createElement "button" (Some "like-button")
            (Some (assign_and_log first)) "Click to like!")
  /\ look after = Some ("button", "Click to like!")
  /\ console after = console p ++ replicate n "button was clicked"
  /\ variables after = variables p ++ [negb (Nat.eqb n 0)]
  /\ component_state after = component_state p.
Proof.
  cbv zeta.
  assert (Hmount : mount PlainButton p
                   = mkPage (component_state p) (variables p ++ [false]) (console p)
                       (Some (createElement "button" (Some "like-button")
                                (Some (assign_and_log (length (variables p))))
                                "Click to like!"))).
  { unfold mount, render, PlainButton_render. cbn [variables].
    now rewrite lookup_snoc_end. }
  rewrite Hmount. clear Hmount.
  assert (Hgen : forall (k : nat) (v : bool) (shownlines : list string),
            let after := clicks PlainButton k
                           (mkPage (component_state p) (variables p ++ [v]) shownlines
                              (Some (createElement "button" (Some "like-button")
                                       (Some (assign_and_log (length (variables p))))
                                       "Click to like!"))) in
            shown after
            = Some (createElement "button" (Some "like-button")
                      (Some (assign_and_log (length (variables p)))) "Click to like!")
            /\ console after = shownlines ++ replicate k "button was clicked"
            /\ variables after = variables p ++ [v || negb (Nat.eqb k 0)]
            /\ component_state after = component_state p).
  { induction k as [|k IH]; intros v shownlines; cbv zeta.
    - cbn. rewrite app_nil_r, orb_false_r. now repeat split.
    - rewrite clicks_S.
      assert (Hclick : click PlainButton
                (mkPage (component_state p) (variables p ++ [v]) shownlines
                   (Some (createElement "button" (Some "like-button")
                            (Some (assign_and_log (length (variables p))))
                            "Click to like!")))
              = mkPage (component_state p) (variables p ++ [true])
                  (shownlines ++ ["button was clicked"])
                  (Some (createElement "button" (Some "like-button")
                           (Some (assign_and_log (length (variables p))))
                           "Click to like!"))).
      { unfold click.
        cbn [shown onClick run_handler console_log component_state variables console].
        now rewrite insert_snoc_end. }
      rewrite Hclick.
      destruct (IH true (shownlines ++ ["button was clicked"])) as (H1 & H2 & H3 & H4).
      rewrite H1, H2, H3, H4, <- app_assoc. cbn [app replicate Nat.eqb negb].
      rewrite orb_true_r. now repeat split. }
  destruct (Hgen n false (console p)) as (H1 & H2 & H3 & H4).
  unfold look. rewrite H1, H2, H3, H4. now repeat split.
Qed.

(** X15: in the version with [useState], the first click replaces the
    button by the span and logs one line; further clicks do nothing, so
    the console gains exactly one line however often the user clicks. *)
Theorem hook_button_logs_once (n : nat) (p : Page) :
  component_state p = None ->
  let after := clicks HookButton (S n) (mount HookButton p) in
  shown after = Some (createElement "span" None None "Liked!")
  /\ component_state after = Some true
  /\ console after = console p ++ ["button was clicked"]
  /\ shown (mount HookButton p)
     = Some (createElement "button" (Some "like-button") (Some setLiked_and_log)
               "Click to like!").
Proof.
  intros Hnone. cbv zeta.
  assert (Hmount : mount HookButton p
                   = mkPage (Some false) (variables p) (console p)
                       (Some (createElement "button" (Some "like-button")
                                (Some setLiked_and_log) "Click to like!"))).
  { unfold mount, render, HookButton_render, useState. now rewrite Hnone. }
  rewrite Hmount, clicks_S. clear Hmount.
  set (liked := mkPage (Some true) (variables p) (console p ++ ["button was clicked"])
                  (Some (createElement "span" None None "Liked!"))).
  assert (Hclick : click HookButton
                     (mkPage (Some false) (variables p) (console p)
                        (Some (createElement "button" (Some "like-button")
                                 (Some setLiked_and_log) "Click to like!")))
                   = liked) by reflexivity.
  rewrite Hclick.
  assert (Hstay : forall k, clicks HookButton k liked = liked).
  { induction k as [|k IH]; [reflexivity|]. rewrite clicks_S. exact IH. }
  rewrite Hstay. now repeat split.
Qed.

(** The theorem at the empty page and three clicks. *)
Lemma hook_button_logs_once_witness :
  console (clicks HookButton 3 (mount HookButton empty)) = ["button was clicked"].
Proof.
  exact (proj1 (proj2 (proj2 (hook_button_logs_once 2 empty eq_refl)))).
Defined.

(** X16: the class component and the [useState] component show the same
    thing after the same number of clicks, from any page: the button
    before the first click and the span "Liked!" after it. *)
Theorem class_button_matches_hook_button (n : nat) (p : Page) :
  component_state p = None ->
  look (clicks ClassButton n (mount ClassButton p))
  = look (clicks HookButton n (mount HookButton p))
  /\ look (clicks ClassButton n (mount ClassButton p))
     = Some (if Nat.eqb n 0 then ("button", "Click to like!") else ("span", "Liked!"))
  /\ component_state (clicks ClassButton n (mount ClassButton p))
     = component_state (clicks HookButton n (mount HookButton p)).
Proof.
  intros Hnone.
  assert (Hhook : mount HookButton p
                  = mkPage (Some false) (variables p) (console p)
                      (Some (createElement "button" (Some "like-button")
                               (Some setLiked_and_log) "Click to like!"))).
  { unfold mount, render, HookButton_render, useState. now rewrite Hnone. }
  assert (Hclass : mount ClassButton p
                   = mkPage (Some false) (variables p) (console p)
                       (Some (createElement "button" (Some "like-button")
                                (Some setState_liked) "Click to like!")))
    by reflexivity.
  rewrite Hhook, Hclass. destruct n as [|n]; [now repeat split|].
  rewrite !clicks_S.
  set (hooked := click HookButton _). set (classed := click ClassButton _).
  assert (Hh : forall k, clicks HookButton k hooked = hooked).
  { induction k as [|k IH]; [reflexivity|]. rewrite clicks_S. exact IH. }
  assert (Hc : forall k, clicks ClassButton k classed = classed).
  { induction k as [|k IH]; [reflexivity|]. rewrite clicks_S. exact IH. }
  rewrite Hh, Hc. now repeat split.
Qed.

(** The theorem at the empty page and two clicks. *)
Lemma class_button_matches_witness :
  look (clicks ClassButton 2 (mount ClassButton empty)) = Some ("span", "Liked!").
Proof.
  exact (proj1 (proj2 (class_button_matches_hook_button 2 empty eq_refl))).
Defined.

End ReadmeButtons.

(** * The snippets as a whole *)

Section Snippets.
Import Corpus.

(** C3, amended: every snippet is synchronous except one.  By their text,
    the only snippets that start work which finishes later are the
    loaders-optimizations script and the block of its README that shows
    the same handler, and no snippet names a thread, a process, memory
    shared between them, a retry, a way to hold a producer back, or a
    cancellation; five HTML snippets carry the [defer] attribute on their
    script tag.  By what they do: in a page without click handlers of its
    own, the the-basics script and the React script never leave an import
    pending, whatever events follow, and the loaders-optimizations script
    leaves none pending while it loads and puts its one click handler on
    its button.  Every click on that button, in whatever state, starts one
    more dynamic import of [./lazy-module] with one continuation and logs
    nothing, so [n] clicks leave [n] imports pending; the continuation runs
    when the import has loaded, after the module's own code, and starts
    nothing further.  A failed import is dropped and not tried again, and
    no click removes a pending import. *)
Theorem one_handler_defers_work
    (mushroom : string) (els : list DomElement) (evs : list Event) (n : nat)
    (Hstatic : static els) :
  places (filter starts_deferred_work corpus)
  = [ ("webpack/loaders-optimizations/README.md", 514);
      ("webpack/loaders-optimizations/src/script.js", 1) ]
  /\ filter (mentions concurrency_words) corpus = []
  /\ filter (mentions retry_words) corpus = []
  /\ filter (mentions cancellation_words) corpus = []
  /\ places (filter (mentions ["defer"]) corpus)
     = [ ("babel/README.md", 260); ("react-and-jsx/script.jsx", 157);
         ("webpack/loaders-optimizations/README.md", 417);
         ("webpack/the-basics/README.md", 127);
         ("webpack/the-basics/README.md", 287) ]
  /\ jobs (dispatch_all evs (load TheBasicsScript.script (page els))) = []
  /\ jobs (dispatch_all evs (load ReactJsx.script (page els))) = []
  /\ (let b := load (LoadersScript.script mushroom) (page els) in
      let button := length els + 2 in
      let clicked := dispatch_all (replicate n (ClickElement button)) b in
      jobs b = []
      /\ (exists e : DomElement,
            elements b !! button = Some e
            /\ tagName e = "button" /\ innerText e = "Click me!"
            /\ onclick e = Some buttonComponent_onclick)
      /\ (forall (index : nat) (e : DomElement),
            elements b !! index = Some e -> index <> button ->
            onclick e = None)
      /\ jobs clicked
         = replicate n (mkImport "./lazy-module" [buttonComponent_then])
      /\ console clicked = console b)
  /\ (forall (b : State) (index : nat) (e : DomElement),
        elements b !! index = Some e ->
        onclick e = Some buttonComponent_onclick ->
        let b' := dispatch b (ClickElement index) in
        jobs b' = jobs b ++ [mkImport "./lazy-module" [buttonComponent_then]]
        /\ console b' = console b /\ modules b' = modules b)
  /\ (forall (b : State) (rest : list Import),
        jobs b = mkImport "./lazy-module" [buttonComponent_then] :: rest ->
        let b' := dispatch b (ImportLoaded 0) in
        jobs b' = rest
        /\ requests b' = requests b
        /\ console b'
           = console b
             ++ (if string_in "./lazy-module" (modules b) then []
                 else ["this code has been loaded"])
             ++ ["big data"])
  /\ (forall (b : State) (p : nat),
        jobs (dispatch b (ImportFailed p)) = delete p (jobs b)
        /\ requests (dispatch b (ImportFailed p)) = requests b)
  /\ (forall (b : State) (index : nat),
        map specifier (jobs b)
        `prefix_of` map specifier (jobs (dispatch b (ClickElement index))))
  /\ (forall (b : State) (key : nat),
        jobs (dispatch b (ClickLike key)) = jobs b).
Proof.
  split; [vm_compute; reflexivity|].
  split; [vm_compute; reflexivity|].
  split; [vm_compute; reflexivity|].
  split; [vm_compute; reflexivity|].
  split; [vm_compute; reflexivity|].
  split; [now apply basics_script_defers_nothing|].
  split; [now apply react_script_defers_nothing|].
  split.
  { cbv zeta. rewrite loaders_script_loads.
    split; [reflexivity|]. split.
    { eexists. split; [apply loaders_button_position|]. now repeat split. }
    split.
    { intros index e He Hne. cbn [elements set_console page] in He.
      eapply no_handler_off_the_button; [exact Hstatic| | |exact Hne|exact He];
        reflexivity. }
    match goal with
    | |- context [dispatch_all _ ?st] =>
        destruct (lazy_clicks n 0 st (length els + 2)
                    (mkDomElement "button" EmptyString EmptyString "Click me!"
                       EmptyString (Some buttonComponent_onclick)))
          as (Hjobs & _ & _ & Hcon);
          [apply loaders_button_position|reflexivity..|]
    end.
    split; [exact Hjobs|exact Hcon]. }
  split.
  { intros b index e He Hon. cbv zeta. rewrite (lazy_click b index e He Hon).
    destruct (string_in "./lazy-module" (modules b)
              || string_in "./lazy-module" (map specifier (jobs b)));
      now repeat split. }
  split.
  { intros b rest Hjobs. cbv zeta. rewrite (lazy_load_step b rest Hjobs).
    destruct (string_in "./lazy-module" (modules b));
      cbn [jobs requests console set_console set_jobs set_modules app];
      rewrite <- ?app_assoc; now repeat split. }
  split.
  { intros b p. split; [apply import_failed_drops_the_job|].
    unfold dispatch. cbn [handle].
    destruct (jobs b !! p) as [j|]; reflexivity. }
  split; [apply click_element_keeps_jobs|apply click_like_keeps_jobs].
Qed.

(** The theorem at an empty page: three clicks on the button leave three
    imports pending. *)
Lemma one_handler_defers_work_witness :
  jobs (dispatch_all (replicate 3 (ClickElement 2))
          (load (LoadersScript.script "mushroom.jpg") (page [])))
  = replicate 3 (mkImport "./lazy-module" [buttonComponent_then]).
Proof.
  destruct (one_handler_defers_work "mushroom.jpg" [] [ClickElement 0] 3
              (List.Forall_nil _))
    as (_ & _ & _ & _ & _ & _ & _ & (_ & _ & _ & H & _) & _).
  exact H.
Defined.

(** ** Errors *)




End Snippets.
